(** * blip: plan model and the replication-lag collector

    A shallow embedding of two source files of the monitoring agent:
    the plan model (types [Plan], [Level], [Domain] with the two
    interpolation passes) and the [repl.lag] metrics collector
    (metrics/repl.lag/lag.go).

    Go maps are finite maps ([gmap]); reading a missing key gives the zero
    value of the element type.  The order in which a [range] statement
    visits a map is not fixed by the language, so every loop over a map
    takes the order of the visit as an argument. *)

From Stdlib Require Import ZArith QArith.
From stdpp Require Import base gmap strings list fin_maps.

Local Open Scope string_scope.
Local Open Scope list_scope.
Local Open Scope Z_scope.
Local Open Scope stdpp_scope.

(** ** Go preliminaries *)

(** A Go [error] is its message; [Ok] is the [nil] error. *)
Inductive result (A : Type) : Type :=
| Ok (a : A)
| Err (msg : string).
Arguments Ok {A} a.
Arguments Err {A} msg.

Definition is_Err {A} (r : result A) : bool :=
  match r with Ok _ => false | Err _ => true end.

(** [m[k]] on a [map[string]string]: the empty string when [k] is absent. *)
Definition index (m : gmap string string) (k : string) : string :=
  default "" (m !! k).

(** [m[k]] on a [map[string]bool]: [false] when [k] is absent. *)
Definition indexb (m : gmap string bool) (k : string) : bool :=
  default false (m !! k).

(** The entries of a map in the order one [range] statement visits them:
    any function that lists every entry once. *)
Definition range_order : Type :=
  ∀ A : Type, gmap string A → list (string * A).

Definition valid_range (range : range_order) : Prop :=
  ∀ (A : Type) (m : gmap string A), range A m ≡ₚ map_to_list m.

(** [strings.Contains]. *)
Fixpoint Contains (s substr : string) : bool :=
  String.prefix substr s ||
  match s with
  | EmptyString => false
  | String _ s' => Contains s' substr
  end.

(** ** Package blip: the plan model *)

Module blip.

Record Domain : Type := {
  Domain_Name : string;
  Options : gmap string string;
  Metrics : list string
}.

Record Level : Type := {
  Level_Name : string;
  Freq : string;
  Collect : gmap string Domain
}.

Record Plan : Type := {
  Plan_Name : string;
  Levels : gmap string Level;
  MonitorId : string
}.

(** [p.Levels[levelName].Collect] and
    [p.Levels[levelName].Collect[domainName].Options], the zero value
    (an empty map) standing for what a missing key gives. *)
Definition collectOf (p : Plan) (levelName : string) : gmap string Domain :=
  match Levels p !! levelName with
  | Some level => Collect level
  | None => ∅
  end.

Definition optionsOf (p : Plan) (levelName domainName : string)
  : gmap string string :=
  match collectOf p levelName !! domainName with
  | Some dom => Options dom
  | None => ∅
  end.

(** The assignment
    [p.Levels[levelName].Collect[domainName].Options[k] = v].
    The [Options] map is shared by reference with the plan, so the store
    is seen through [p]; nothing but that one entry changes. *)
Definition assignOption (levelName domainName k v : string) (p : Plan) : Plan :=
  match Levels p !! levelName with
  | None => p
  | Some level =>
    match Collect level !! domainName with
    | None => p
    | Some dom =>
      let dom' := {| Domain_Name := Domain_Name dom;
                     Options := <[k := v]> (Options dom);
                     Metrics := Metrics dom |} in
      let level' := {| Level_Name := Level_Name level;
                       Freq := Freq level;
                       Collect := <[domainName := dom']> (Collect level) |} in
      {| Plan_Name := Plan_Name p;
         Levels := <[levelName := level']> (Levels p);
         MonitorId := MonitorId p |}
    end
  end.

Section Interpolate.

(** [interpolateEnv] and the [interpolateMon] method of [ConfigMonitor]
    live in other files of the package; they are string-to-string
    substitutions. *)
Context {ConfigMonitor : Type}.
Variable interpolateEnv : string → string.
Variable interpolateMon : ConfigMonitor → string → string.

(** The three nested [range] loops, written once for both passes: [f] is
    the substitution applied to each option value, [kv] the pair [k, v]
    of the innermost loop. *)
Definition rangeOptions (range : range_order) (f : string → string)
    (levelName domainName : string) (p : Plan) : Plan :=
  foldl (λ p kv, assignOption levelName domainName kv.1 (f kv.2) p)
        p (range _ (optionsOf p levelName domainName)).

Definition rangeCollect (range : range_order) (f : string → string)
    (levelName : string) (p : Plan) : Plan :=
  foldl (λ p domainName, rangeOptions range f levelName domainName p)
        p (range _ (collectOf p levelName)).*1.

Definition rangeLevels (range : range_order) (f : string → string)
    (p : Plan) : Plan :=
  foldl (λ p levelName, rangeCollect range f levelName p)
        p (range _ (Levels p)).*1.

Definition InterpolateEnvVars (range : range_order) (p : Plan) : Plan :=
  rangeLevels range interpolateEnv p.

Definition InterpolateMonitor (range : range_order) (mon : ConfigMonitor)
    (p : Plan) : Plan :=
  rangeLevels range (interpolateMon mon) p.

End Interpolate.

(** What the specification asks of one interpolation pass: every option
    value is replaced by its image under [f], everything else is kept. *)
Definition mapDomainOptions (f : string → string) (dom : Domain) : Domain :=
  {| Domain_Name := Domain_Name dom;
     Options := f <$> Options dom;
     Metrics := Metrics dom |}.

Definition mapLevelOptions (f : string → string) (level : Level) : Level :=
  {| Level_Name := Level_Name level;
     Freq := Freq level;
     Collect := mapDomainOptions f <$> Collect level |}.

Definition mapPlanOptions (f : string → string) (p : Plan) : Plan :=
  {| Plan_Name := Plan_Name p;
     Levels := mapLevelOptions f <$> Levels p;
     MonitorId := MonitorId p |}.

(** Functional updates of one level, one domain, one options map; the
    loops are compared with [mapPlanOptions] through them. *)
Definition alterLevel (h : Level → Level) (l : string) (p : Plan) : Plan :=
  {| Plan_Name := Plan_Name p;
     Levels := alter h l (Levels p);
     MonitorId := MonitorId p |}.

Definition alterCollect (g : Domain → Domain) (d : string) (lv : Level) : Level :=
  {| Level_Name := Level_Name lv;
     Freq := Freq lv;
     Collect := alter g d (Collect lv) |}.

Definition withOptions (h : gmap string string → gmap string string)
    (dm : Domain) : Domain :=
  {| Domain_Name := Domain_Name dm;
     Options := h (Options dm);
     Metrics := Metrics dm |}.

(** The built-in scrape plan, [PromPlan]. *)
Definition PromPlan : Plan :=
  let all (name value : string) : Domain :=
    {| Domain_Name := name;
       Options := {[ "all" := value ]};
       Metrics := [] |} in
  {| Plan_Name := "mysqld_exporter";
     Levels := {[ "all" :=
       {| Level_Name := "all";
          Freq := "";
          Collect := <[ "status.global" := all "status.global" "yes" ]>
                    (<[ "var.global" := all "var.global" "yes" ]>
                    (<[ "innodb" := all "innodb" "enabled" ]> ∅)) |} ]};
     MonitorId := "" |}.

(** The built-in plan, [InternalLevelPlan]. *)
Definition InternalLevelPlan : Plan :=
  {| Plan_Name := "blip";
     Levels :=
       <[ "performance" :=
          {| Level_Name := "performance";
             Freq := "5s";
             Collect :=
               <[ "status.global" :=
                  {| Domain_Name := "status.global";
                     Options := ∅;
                     Metrics :=
                       [ "queries"; "threads_running";
                         "com_begin"; "com_commit"; "com_rollback";
                         "com_select"; "com_delete"; "com_delete_multi";
                         "com_insert"; "com_insert_select"; "com_replace";
                         "com_replace_select"; "com_update"; "com_update_multi";
                         "innodb_data_reads"; "innodb_data_writes";
                         "innodb_data_written"; "innodb_data_read";
                         "innodb_buffer_pool_read_requests";
                         "innodb_buffer_pool_reads";
                         "Innodb_buffer_pool_wait_free";
                         "innodb_buffer_pool_pages_dirty";
                         "innodb_buffer_pool_pages_free";
                         "innodb_buffer_pool_pages_total";
                         "innodb_buffer_pool_pages_flushed";
                         "innodb_os_log_written" ] |} ]>
              (<[ "innodb" :=
                  {| Domain_Name := "";
                     Options := ∅;
                     Metrics :=
                       [ "trx_active_transactions";
                         "lock_timeouts"; "lock_row_lock_current_waits";
                         "lock_row_lock_waits"; "lock_row_lock_time";
                         "buffer_flush_adaptive_total_pages";
                         "buffer_LRU_batch_flush_total_pages";
                         "buffer_flush_background_total_pages";
                         "log_lsn_checkpoint_age_total";
                         "log_max_modified_age_async";
                         "innodb_os_log_pending_writes"; "innodb_log_waits";
                         "trx_rseg_history_len";
                         "lock_deadlocks" ] |} ]> ∅) |} ]>
      (<[ "additional" :=
          {| Level_Name := "additional";
             Freq := "20s";
             Collect :=
               {[ "status.global" :=
                  {| Domain_Name := "status.global";
                     Options := ∅;
                     Metrics :=
                       [ "created_tmp_disk_tables"; "created_tmp_tables";
                         "created_tmp_files";
                         "connections"; "threads_connected";
                         "max_used_connections";
                         "bytes_sent"; "bytes_received";
                         "binlog_cache_disk_use";
                         "prepared_stmt_count"; "com_stmt_execute";
                         "com_stmt_prepare";
                         "aborted_clients"; "aborted_connects";
                         "select_full_join"; "select_full_range_join";
                         "select_range_check"; "select_scan";
                         "com_flush"; "com_kill"; "com_purge";
                         "com_admin_commands"; "com_show_processlist";
                         "com_show_slave_status"; "com_show_status";
                         "com_show_variables"; "com_show_warnings" ] |} ]} |} ]>
      (<[ "data-size" :=
          {| Level_Name := "data-size";
             Freq := "5m";
             Collect :=
               <[ "size.data" :=
                  {| Domain_Name := "size.data"; Options := ∅; Metrics := [] |} ]>
              (<[ "size.binlogs" :=
                  {| Domain_Name := "size.binlogs"; Options := ∅;
                     Metrics := [] |} ]> ∅) |} ]>
      (<[ "sysvars" :=
          {| Level_Name := "sysvars";
             Freq := "15m";
             Collect :=
               {[ "var.global" :=
                  {| Domain_Name := "var.global";
                     Options := ∅;
                     Metrics :=
                       [ "max_connections"; "max_prepared_stmt_count";
                         "innodb_log_file_size";
                         "innodb_max_dirty_pages_pct" ] |} ]} |} ]> ∅)));
     MonitorId := "" |}.

(** A plan none of whose domains carries an option. *)
Definition no_options (p : Plan) : Prop :=
  ∀ levelName level domainName dom,
    Levels p !! levelName = Some level →
    Collect level !! domainName = Some dom →
    Options dom = ∅.

(** A plan in which every level and every domain carries, in its [Name]
    field, the key under which its map holds it. *)
Definition named_by_key (p : Plan) : Prop :=
  ∀ levelName level, Levels p !! levelName = Some level →
    Level_Name level = levelName
    ∧ ∀ domainName dom, Collect level !! domainName = Some dom →
        Domain_Name dom = domainName.

End blip.

(** ** Packages database/sql and heartbeat, as lag.go uses them *)

Module sql.

(** [sql.NullString]. *)
Record NullString : Type := {
  NullString_String : string;
  Valid : bool
}.

(** A database handle is what its queries answer: the outcome of
    [QueryRowContext(ctx, query).Scan(&v)] for an [int] destination and
    for a [sql.NullString] destination, and which tables exist. *)
Record DB : Type := {
  QueryRow_int : string → result Z;
  QueryRow_NullString : string → result NullString;
  TableExists : string → bool
}.

End sql.

Module heartbeat.

(** [heartbeat.Lag], one sample of the reader: the three fields that
    [collectBlip] reads.  The reader itself is in another package; the
    specification (section 6) gives the same three fields, -1
    milliseconds meaning that no heartbeat has been observed yet. *)
Record Lag : Type := {
  Milliseconds : Z;
  Replica : bool;
  SourceId : string
}.

Record SlowFastWaiter : Type := {
  Waiter_MonitorId : string;
  NetworkLatency : Z (* time.Duration: nanoseconds, int64 *)
}.

Record BlipReaderArgs : Type := {
  MonitorId : string;
  DB : sql.DB;
  Table : string;
  Args_SourceId : string;
  SourceRole : string;
  ReplCheck : string;
  Waiter : SlowFastWaiter
}.

(** The reader built by [NewBlipReader] is known by its arguments. *)
Record BlipReader : Type := NewBlipReader { args : BlipReaderArgs }.

End heartbeat.

(** ** Package repllag: metrics/repl.lag/lag.go *)

Module repllag.

Definition DOMAIN : string := "repl.lag".

Definition OPT_HEARTBEAT_SOURCE_ID : string := "source-id".
Definition OPT_HEARTBEAT_SOURCE_ROLE : string := "source-role".
Definition OPT_HEARTBEAT_TABLE : string := "table".
Definition OPT_WRITER : string := "writer".
Definition OPT_REPL_CHECK : string := "repl-check".
Definition OPT_REPORT_NO_HEARTBEAT : string := "report-no-heartbeat".
Definition OPT_REPORT_NOT_A_REPLICA : string := "report-not-a-replica".
Definition OPT_RENAME_DEFAULT_REPLICATION_CHANNEL : string :=
  "rename-default-replication-channel".
Definition OPT_NETWORK_LATENCY : string := "network-latency".

Definition LAG_WRITER_BLIP : string := "blip".
Definition LAG_WRITER_PFS : string := "pfs".

Definition MySQL8LagQuery : string := "WITH applier_latency AS (
 SELECT TIMESTAMPDIFF(MICROSECOND, LAST_APPLIED_TRANSACTION_ORIGINAL_COMMIT_TIMESTAMP, LAST_APPLIED_TRANSACTION_END_APPLY_TIMESTAMP)/1000 as applier_latency_ms
 FROM performance_schema.replication_applier_status_by_worker ORDER BY LAST_APPLIED_TRANSACTION_END_APPLY_TIMESTAMP DESC LIMIT 1
), queue_latency AS (
 SELECT MIN(
 CASE
  WHEN
   LAST_QUEUED_TRANSACTION = 'ANONYMOUS' OR
   LAST_APPLIED_TRANSACTION = 'ANONYMOUS' OR
   GTID_SUBTRACT(LAST_QUEUED_TRANSACTION, LAST_APPLIED_TRANSACTION) = ''
  THEN 0
   ELSE
   TIMESTAMPDIFF(MICROSECOND, LAST_APPLIED_TRANSACTION_IMMEDIATE_COMMIT_TIMESTAMP, NOW(3))/1000
 END
) AS queue_latency_ms,
IF(MIN(TIMESTAMPDIFF(MINUTE, LAST_QUEUED_TRANSACTION_ORIGINAL_COMMIT_TIMESTAMP, NOW()))>1,'IDLE','ACTIVE') as queue_status
FROM performance_schema.replication_applier_status_by_worker w
JOIN performance_schema.replication_connection_status s ON s.channel_name = w.channel_name
)
SELECT IF(queue_status='IDLE',0,GREATEST(applier_latency_ms, queue_latency_ms)) as lagMs FROM applier_latency, queue_latency;".

(** Wrap-around of a 64-bit signed integer. *)
Definition wrap64 (n : Z) : Z := (n + 2^63) mod 2^64 - 2^63.

(** [time.Millisecond], in nanoseconds. *)
Definition Millisecond : Z := 1000000.

(** What lag.go calls in packages whose source is elsewhere: [blip.Bool],
    [blip.DEFAULT_HEARTBEAT_TABLE], [sqlutil.CleanObjectName],
    [sqlutil.Float64], [strconv.Atoi], the verbs [%q] and [%v] of [fmt],
    and the type [float64] with the conversion from [int64]. *)
Class External : Type := {
  float64 : Type;
  float64_of_int64 : Z → float64;
  blip_Bool : string → bool;
  blip_DEFAULT_HEARTBEAT_TABLE : string;
  sqlutil_CleanObjectName : string → string;
  sqlutil_Float64 : string → option float64;
  strconv_Atoi : string → result Z;
  fmt_q : string → string;
  fmt_v : gmap string string → string
}.

(** [blip.MetricValue] and the metric types lag.go uses. *)
Inductive MetricType : Type := COUNTER | GAUGE.

Record MetricValue `{External} : Type := {
  Metric_Name : string;
  Metric_Type : MetricType;
  Metric_Value : float64;
  Metric_Meta : gmap string string
}.

(** The collector. *)
Record Lag : Type := {
  db : sql.DB;
  lagReader : option heartbeat.BlipReader;
  lagWriterIn : gmap string string;
  dropNoHeartbeat : gmap string bool;
  dropNotAReplica : gmap string bool;
  renameDefaultReplicationChannel : gmap string bool;
  replCheck : string
}.

Definition NewLag (db : sql.DB) : Lag :=
  {| db := db;
     lagReader := None;
     lagWriterIn := ∅;
     dropNoHeartbeat := ∅;
     dropNotAReplica := ∅;
     renameDefaultReplicationChannel := ∅;
     replCheck := "" |}.

(** Field assignments on the receiver [c]. *)
Definition set_lagReader (r : heartbeat.BlipReader) (c : Lag) : Lag :=
  {| db := db c; lagReader := Some r; lagWriterIn := lagWriterIn c;
     dropNoHeartbeat := dropNoHeartbeat c; dropNotAReplica := dropNotAReplica c;
     renameDefaultReplicationChannel := renameDefaultReplicationChannel c;
     replCheck := replCheck c |}.

Definition set_lagWriterIn (levelName writer : string) (c : Lag) : Lag :=
  {| db := db c; lagReader := lagReader c;
     lagWriterIn := <[levelName := writer]> (lagWriterIn c);
     dropNoHeartbeat := dropNoHeartbeat c; dropNotAReplica := dropNotAReplica c;
     renameDefaultReplicationChannel := renameDefaultReplicationChannel c;
     replCheck := replCheck c |}.

Definition set_dropNoHeartbeat (levelName : string) (b : bool) (c : Lag) : Lag :=
  {| db := db c; lagReader := lagReader c; lagWriterIn := lagWriterIn c;
     dropNoHeartbeat := <[levelName := b]> (dropNoHeartbeat c);
     dropNotAReplica := dropNotAReplica c;
     renameDefaultReplicationChannel := renameDefaultReplicationChannel c;
     replCheck := replCheck c |}.

Definition set_dropNotAReplica (levelName : string) (b : bool) (c : Lag) : Lag :=
  {| db := db c; lagReader := lagReader c; lagWriterIn := lagWriterIn c;
     dropNoHeartbeat := dropNoHeartbeat c;
     dropNotAReplica := <[levelName := b]> (dropNotAReplica c);
     renameDefaultReplicationChannel := renameDefaultReplicationChannel c;
     replCheck := replCheck c |}.

Definition set_renameDefaultReplicationChannel (levelName : string) (b : bool)
    (c : Lag) : Lag :=
  {| db := db c; lagReader := lagReader c; lagWriterIn := lagWriterIn c;
     dropNoHeartbeat := dropNoHeartbeat c; dropNotAReplica := dropNotAReplica c;
     renameDefaultReplicationChannel :=
       <[levelName := b]> (renameDefaultReplicationChannel c);
     replCheck := replCheck c |}.

Definition set_replCheck (s : string) (c : Lag) : Lag :=
  {| db := db c; lagReader := lagReader c; lagWriterIn := lagWriterIn c;
     dropNoHeartbeat := dropNoHeartbeat c; dropNotAReplica := dropNotAReplica c;
     renameDefaultReplicationChannel := renameDefaultReplicationChannel c;
     replCheck := s |}.

(** The closure returned by [prepareBlip]: it captures the receiver and
    [monitorID], and calls [c.lagReader.Stop()] when invoked. *)
Inductive cleanupFunc : Type := StopReader (monitorID : string).

(** What a call of [Prepare] leaves behind: the pair it returns ([Ok f]
    for [(f, nil)] with [f = None] the nil function, [Err e] for
    [(nil, e)]), the receiver, and the readers whose [Start] was launched
    with [go]; nothing in [Prepare] stops a reader. *)
Record Prepared : Type := {
  returned : result (option cleanupFunc);
  receiver : Lag;
  started : list heartbeat.BlipReader
}.

(** A call either returns or panics. *)
Inductive outcome (A : Type) : Type :=
| Returns (r : result A)
| Panics (msg : string).
Arguments Returns {A} r.
Arguments Panics {A} msg.

(** The method [collectPFSv2], called by [Prepare] and [Collect], is
    defined in another file of the package.  It takes the receiver and the
    level name and returns metrics or an error. *)
Class PFSv2 `{External} : Type := {
  collectPFSv2 : Lag → string → result (list MetricValue)
}.

(** [blip.CollectorHelp] as [Help] fills it: the options with their
    default and their values, and the metrics. *)
Record CollectorHelpOption : Type := {
  Option_Name : string;
  Desc : string;
  Default : string;
  Values : gmap string string
}.

Record CollectorMetric : Type := {
  CollectorMetric_Name : string;
  CollectorMetric_Type : MetricType;
  CollectorMetric_Desc : string
}.

Record CollectorHelp : Type := {
  Help_Domain : string;
  Description : string;
  Help_Options : gmap string CollectorHelpOption;
  Help_Metrics : list CollectorMetric
}.

Section Collector.

Context `{V : PFSv2}.

Definition prepareBlip (c : Lag) (levelName monitorID planName : string)
    (options : gmap string string)
  : Lag * list heartbeat.BlipReader * result (option cleanupFunc) :=
  match lagReader c with
  | Some _ => (c, [], Ok None)
  | None =>
    let c := set_dropNoHeartbeat levelName
               (negb (blip_Bool (index options OPT_REPORT_NO_HEARTBEAT))) c in
    let table := index options OPT_HEARTBEAT_TABLE in
    let table := if decide (table = "") then blip_DEFAULT_HEARTBEAT_TABLE
                 else table in
    let netLatency := 50 * Millisecond in
    let netLatency :=
      match options !! OPT_NETWORK_LATENCY with
      | Some s =>
        match strconv_Atoi s with
        | Err _ => netLatency
        | Ok n => wrap64 (n * Millisecond)
        end
      | None => netLatency
      end in
    let reader := heartbeat.NewBlipReader
      {| heartbeat.MonitorId := monitorID;
         heartbeat.DB := db c;
         heartbeat.Table := table;
         heartbeat.Args_SourceId := index options OPT_HEARTBEAT_SOURCE_ID;
         heartbeat.SourceRole := index options OPT_HEARTBEAT_SOURCE_ROLE;
         heartbeat.ReplCheck := replCheck c;
         heartbeat.Waiter :=
           {| heartbeat.Waiter_MonitorId := monitorID;
              heartbeat.NetworkLatency := netLatency |} |} in
    let c := set_lagReader reader c in
    (* go c.lagReader.Start() *)
    let c := set_lagWriterIn levelName LAG_WRITER_BLIP c in
    (c, [reader], Ok (Some (StopReader monitorID)))
  end.

(** The [switch writer] of [Prepare]: either the function returns, or the
    loop body goes on with the receiver, the local [cleanup], the readers
    started so far and the local [writer]. *)
Inductive switched : Type :=
| Return (r : Prepared)
| Next (c : Lag) (cleanup : option cleanupFunc)
       (gs : list heartbeat.BlipReader) (writer : string).

Definition Prepare_switch (plan : blip.Plan) (levelName : string)
    (dom : blip.Domain) (writer : string)
    (c : Lag) (cleanup : option cleanupFunc) (gs : list heartbeat.BlipReader)
  : switched :=
  if decide (writer = LAG_WRITER_PFS) then
    match collectPFSv2 c levelName with
    | Err e => Return {| returned := Err e; receiver := c; started := gs |}
    | Ok _ => Next c cleanup gs writer
    end
  else if decide (writer = LAG_WRITER_BLIP) then
    let '(c, new, r) :=
      prepareBlip c levelName (blip.MonitorId plan) (blip.Plan_Name plan)
                  (blip.Options dom) in
    match r with
    | Err e => Return {| returned := Err e; receiver := c; started := gs ++ new |}
    | Ok cleanup => Next c cleanup (gs ++ new) writer
    end
  else if decide (writer = "auto" ∨ writer = "") then
    match collectPFSv2 c levelName with
    | Ok _ => Next c cleanup gs LAG_WRITER_PFS
    | Err _ =>
      let '(c, new, r) :=
        prepareBlip c levelName (blip.MonitorId plan) (blip.Plan_Name plan)
                    (blip.Options dom) in
      match r with
      | Ok cleanup => Next c cleanup (gs ++ new) LAG_WRITER_BLIP
      | Err _ =>
        Return {| returned :=
                    Err ("failed to auto-detect source, set " +:+ OPT_WRITER
                         +:+ " manually");
                  receiver := c; started := gs ++ new |}
      end
    end
  else
    Return {| returned :=
                Err ("invalid lag writer: " +:+ fmt_q writer
                     +:+ "; valid values: auto, pfs, blip");
              receiver := c; started := gs |}.

(** The four assignments that end the loop body. *)
Definition Prepare_record (levelName writer : string) (dom : blip.Domain)
    (c : Lag) : Lag :=
  let c := set_lagWriterIn levelName writer c in
  let c := set_dropNotAReplica levelName
    (negb (blip_Bool (index (blip.Options dom) OPT_REPORT_NOT_A_REPLICA))) c in
  let c := set_renameDefaultReplicationChannel levelName
    (negb (blip_Bool
       (index (blip.Options dom) OPT_RENAME_DEFAULT_REPLICATION_CHANNEL))) c in
  set_replCheck
    (sqlutil_CleanObjectName (index (blip.Options dom) OPT_REPL_CHECK)) c.

(** The loop [for levelName, level := range plan.Levels], over the entries
    in the order of the visit.  [configured] and [cleanup] are the
    function's local variables; no statement of the loop assigns
    [configured]. *)
Fixpoint Prepare_loop (plan : blip.Plan) (entries : list (string * blip.Level))
    (configured : string) (c : Lag) (cleanup : option cleanupFunc)
    (gs : list heartbeat.BlipReader) : Prepared :=
  match entries with
  | [] => {| returned := Ok cleanup; receiver := c; started := gs |}
  | (levelName, level) :: entries =>
    match blip.Collect level !! DOMAIN with
    | None => Prepare_loop plan entries configured c cleanup gs
    | Some dom =>
      let writer := index (blip.Options dom) OPT_WRITER in
      if decide (configured ≠ "") then
        if decide (configured ≠ writer) then
          {| returned :=
               Err ("different writer configuration: " +:+ configured
                    +:+ " != " +:+ writer);
             receiver := c; started := gs |}
        else
          Prepare_loop plan entries configured
            (set_lagWriterIn levelName writer c) cleanup gs
      else
        match Prepare_switch plan levelName dom writer c cleanup gs with
        | Return r => r
        | Next c cleanup gs writer =>
          Prepare_loop plan entries configured
            (Prepare_record levelName writer dom c) cleanup gs
        end
    end
  end.

Definition Prepare (range : range_order) (c : Lag) (plan : blip.Plan)
  : Prepared :=
  Prepare_loop plan (range _ (blip.Levels plan)) "" c None [].

(** The metric [repl.lag.current]. *)
Definition current (value : float64) (meta : gmap string string)
  : MetricValue :=
  {| Metric_Name := "current"; Metric_Type := GAUGE;
     Metric_Value := value; Metric_Meta := meta |}.

(** [collectBlip]; [sample] is what [c.lagReader.Lag(ctx)] returns at this
    call.  With no reader the method call is on a nil interface. *)
Definition collectBlip (sample : heartbeat.BlipReader → result heartbeat.Lag)
    (c : Lag) (levelName : string) : outcome (list MetricValue) :=
  match lagReader c with
  | None => Panics "invalid memory address or nil pointer dereference"
  | Some reader =>
    match sample reader with
    | Err e => Returns (Err e)
    | Ok lag =>
      let m := current (float64_of_int64 (heartbeat.Milliseconds lag))
                       {[ "source" := heartbeat.SourceId lag ]} in
      if negb (heartbeat.Replica lag) then
        if indexb (dropNotAReplica c) levelName then Returns (Ok [])
        else Returns (Ok [m])
      else if bool_decide (heartbeat.Milliseconds lag = -1)
              && indexb (dropNoHeartbeat c) levelName
      then Returns (Ok [])
      else Returns (Ok [m])
    end
  end.

(** The value [defaultLag] of [collectPFS]: nothing, or the sentinel -1. *)
Definition defaultLag (c : Lag) (levelName : string) : list MetricValue :=
  if indexb (dropNotAReplica c) levelName then []
  else [current (float64_of_int64 (-1)) ∅].

Definition collectPFS (c : Lag) (levelName : string)
  : result (list MetricValue) :=
  let isRepl :=
    if decide (replCheck c ≠ "") then
      sql.QueryRow_int (db c) ("SELECT @@" +:+ replCheck c)
    else Ok 1 in
  match isRepl with
  | Err e =>
    Err ("checking if instance is replica failed, please check value of "
         +:+ OPT_REPL_CHECK +:+ ". Err: " +:+ e)
  | Ok isRepl =>
    if decide (isRepl = 0) then Ok (defaultLag c levelName)
    else
      match sql.QueryRow_NullString (db c) MySQL8LagQuery with
      | Err e =>
        Err ("could not check replication lag, check that this is a MySQL 8.0 replica, and that performance_schema is enabled. Err: "
             +:+ e)
      | Ok lagValue =>
        if negb (sql.Valid lagValue) then
          if decide (replCheck c = "") then Ok (defaultLag c levelName)
          else
            Err ("cannot determine replica lag because performance_schema.replication_applier_status_by_worker returned an invalid value: "
                 +:+ fmt_q (sql.NullString_String lagValue)
                 +:+ " (expected a positive integer value)")
        else
          match sqlutil_Float64 (sql.NullString_String lagValue) with
          | None =>
            Err ("couldn't convert replica lag from performance schema into float. Lag: "
                 +:+ sql.NullString_String lagValue)
          | Some f => Ok [current f ∅]
          end
      end
  end.

Definition Collect (sample : heartbeat.BlipReader → result heartbeat.Lag)
    (c : Lag) (levelName : string) : outcome (list MetricValue) :=
  let writer := index (lagWriterIn c) levelName in
  if decide (writer = LAG_WRITER_BLIP) then collectBlip sample c levelName
  else if decide (writer = LAG_WRITER_PFS) then
    Returns (collectPFSv2 c levelName)
  else
    Panics ("invalid lag writer in Collect " +:+ fmt_q writer
            +:+ " in level " +:+ fmt_q levelName
            +:+ ". All levels: " +:+ fmt_v (lagWriterIn c)).

(** *** Vocabulary of the statements about [Prepare] *)

(** The drop flags a level asks for in its own options. *)
Definition notAReplicaFlag (dom : blip.Domain) : bool :=
  negb (blip_Bool (index (blip.Options dom) OPT_REPORT_NOT_A_REPLICA)).

Definition noHeartbeatFlag (dom : blip.Domain) : bool :=
  negb (blip_Bool (index (blip.Options dom) OPT_REPORT_NO_HEARTBEAT)).

(** The readers started so far are the one the receiver holds, if any. *)
Definition one_reader (c : Lag) (gs : list heartbeat.BlipReader) : Prop :=
  gs = match lagReader c with Some r => [r] | None => [] end.

(** A level that collects the domain and names its writer, [blip] or
    [pfs]. *)
Definition explicit_writer (level : blip.Level) (writer : string) : Prop :=
  ∃ dom, blip.Collect level !! DOMAIN = Some dom
         ∧ index (blip.Options dom) OPT_WRITER = writer
         ∧ (writer = LAG_WRITER_BLIP ∨ writer = LAG_WRITER_PFS).

(** The performance-schema probe succeeds whenever it is tried on the
    given database. *)
Definition probe_succeeds (database : sql.DB) : Prop :=
  ∀ c levelName, db c = database → is_Err (collectPFSv2 c levelName) = false.

(** The [repl-check] of the last level visited that collects the domain. *)
Definition last_replCheck (entries : list (string * blip.Level)) (init : string)
  : string :=
  foldl (λ acc entry,
           match blip.Collect entry.2 !! DOMAIN with
           | Some dom =>
             sqlutil_CleanObjectName (index (blip.Options dom) OPT_REPL_CHECK)
           | None => acc
           end) init entries.

(** Every writer the collector holds is a resolved one. *)
Definition writers_resolved (c : Lag) : Prop :=
  ∀ levelName writer, lagWriterIn c !! levelName = Some writer →
    writer = LAG_WRITER_BLIP ∨ writer = LAG_WRITER_PFS.

(** The sample of the performance-schema strategy says "not a replica":
    the replica check answers 0, or no check is configured and the lag
    query gives [NULL]. *)
Definition pfs_not_a_replica (c : Lag) : Prop :=
  (replCheck c ≠ ""
   ∧ sql.QueryRow_int (db c) ("SELECT @@" +:+ replCheck c) = Ok 0)
  ∨ (replCheck c = ""
     ∧ ∃ lagValue, sql.QueryRow_NullString (db c) MySQL8LagQuery = Ok lagValue
                   ∧ sql.Valid lagValue = false).

(** [Help]. *)
Definition Help : CollectorHelp :=
  {| Help_Domain := DOMAIN;
     Description := "Replication lag";
     Help_Options :=
       <[ OPT_WRITER :=
          {| Option_Name := OPT_WRITER;
             Desc := "How to collect Lag";
             Default := "auto";
             Values :=
               <[ "auto" := "Auto-determine best lag writer" ]>
              (<[ "blip" := "Native Blip heartbeat replication lag" ]>
              (<[ "pfs" := "Performance Schema" ]> ∅)) |} ]>
      (<[ OPT_HEARTBEAT_TABLE :=
          {| Option_Name := OPT_HEARTBEAT_TABLE;
             Desc := "Heartbeat table";
             Default := blip_DEFAULT_HEARTBEAT_TABLE;
             Values := ∅ |} ]>
      (<[ OPT_HEARTBEAT_SOURCE_ID :=
          {| Option_Name := OPT_HEARTBEAT_SOURCE_ID;
             Desc := "Source ID as reported by heartbeat writer; mutually exclusive with "
                     +:+ OPT_HEARTBEAT_SOURCE_ROLE;
             Default := "";
             Values := ∅ |} ]>
      (<[ OPT_HEARTBEAT_SOURCE_ROLE :=
          {| Option_Name := OPT_HEARTBEAT_SOURCE_ROLE;
             Desc := "Source role as reported by heartbeat writer; mutually exclusive with "
                     +:+ OPT_HEARTBEAT_SOURCE_ID;
             Default := "";
             Values := ∅ |} ]>
      (<[ OPT_REPL_CHECK :=
          {| Option_Name := OPT_REPL_CHECK;
             Desc := "MySQL global variable (without @@) to check if instance is a replica";
             Default := "";
             Values := ∅ |} ]>
      (<[ OPT_REPORT_NO_HEARTBEAT :=
          {| Option_Name := OPT_REPORT_NO_HEARTBEAT;
             Desc := "Report no heartbeat as -1";
             Default := "no";
             Values :=
               <[ "yes" := "Enabled: report no heartbeat as repl.lag.current = -1" ]>
              (<[ "no" := "Disabled: drop repl.lag.current if no heartbeat" ]> ∅) |} ]>
      (<[ OPT_REPORT_NOT_A_REPLICA :=
          {| Option_Name := OPT_REPORT_NOT_A_REPLICA;
             Desc := "Report not a replica as -1";
             Default := "no";
             Values :=
               <[ "yes" := "Enabled: report not a replica repl.lag.current = -1" ]>
              (<[ "no" := "Disabled: drop repl.lag.current if not a replica" ]> ∅) |} ]>
      (<[ OPT_RENAME_DEFAULT_REPLICATION_CHANNEL :=
          {| Option_Name := OPT_RENAME_DEFAULT_REPLICATION_CHANNEL;
             Desc := "Rename default replication channel to 'default'";
             Default := "no";
             Values :=
               <[ "yes" := "Enabled: rename default replication channel to 'default'" ]>
              (<[ "no" := "Disabled: do not rename default replication channel" ]> ∅) |} ]>
      (<[ OPT_NETWORK_LATENCY :=
          {| Option_Name := OPT_NETWORK_LATENCY;
             Desc := "Network latency (milliseconds)";
             Default := "50";
             Values := ∅ |} ]> ∅))))))));
     Help_Metrics :=
       [ {| CollectorMetric_Name := "current";
            CollectorMetric_Type := GAUGE;
            CollectorMetric_Desc := "Current replication lag (milliseconds)" |} ] |}.

(** The default [Help] documents for an option, empty when it documents
    none. *)
Definition documented_default (option : string) : string :=
  match Help_Options Help !! option with
  | Some h => Default h
  | None => ""
  end.

(** A metric is declared by [Help] when its name and type are. *)
Definition declared (m : MetricValue) : Prop :=
  ∃ h, h ∈ Help_Metrics Help
       ∧ CollectorMetric_Name h = Metric_Name m
       ∧ CollectorMetric_Type h = Metric_Type m.

(** A level whose writer option is none of the values the [switch] knows. *)
Definition invalid_writer (level : blip.Level) : Prop :=
  ∃ dom, blip.Collect level !! DOMAIN = Some dom
         ∧ index (blip.Options dom) OPT_WRITER ≠ LAG_WRITER_PFS
         ∧ index (blip.Options dom) OPT_WRITER ≠ LAG_WRITER_BLIP
         ∧ index (blip.Options dom) OPT_WRITER ≠ "auto"
         ∧ index (blip.Options dom) OPT_WRITER ≠ "".

(** A level that collects the domain and does not name [blip]: it names
    [pfs] or leaves the writer to auto-detection. *)
Definition pfs_or_auto (level : blip.Level) : Prop :=
  ∀ dom, blip.Collect level !! DOMAIN = Some dom →
    index (blip.Options dom) OPT_WRITER = LAG_WRITER_PFS
    ∨ index (blip.Options dom) OPT_WRITER = "auto"
    ∨ index (blip.Options dom) OPT_WRITER = "".

(** The performance-schema probe fails whenever it is tried on the given
    database. *)
Definition probe_fails (database : sql.DB) : Prop :=
  ∀ c levelName, db c = database → is_Err (collectPFSv2 c levelName) = true.

(** A level recorded for [blip] has a reader to ask. *)
Definition blip_has_reader (c : Lag) : Prop :=
  (∃ levelName, lagWriterIn c !! levelName = Some LAG_WRITER_BLIP) →
  is_Some (lagReader c).

(** A level that collects the domain and does not name [pfs]: it names
    [blip] or leaves the writer to auto-detection. *)
Definition blip_or_auto (level : blip.Level) : Prop :=
  ∀ dom, blip.Collect level !! DOMAIN = Some dom →
    index (blip.Options dom) OPT_WRITER = LAG_WRITER_BLIP
    ∨ index (blip.Options dom) OPT_WRITER = "auto"
    ∨ index (blip.Options dom) OPT_WRITER = "".

(** [collectPFS] goes on to the lag query: no check is configured, or
    the check answers a non-zero value. *)
Definition pfs_is_replica (c : Lag) : Prop :=
  replCheck c = ""
  ∨ ∃ isRepl, sql.QueryRow_int (db c) ("SELECT @@" +:+ replCheck c) = Ok isRepl
              ∧ isRepl ≠ 0.

End Collector.

(** Modelled from the spec: the method [collectPFSv2], which [Prepare]
    and [Collect] call for the performance-schema strategy, is defined in
    a file of the package that is not among the sources.  Section 4.4 of
    the specification gives the strategy, and it is written out here as
    the specification words it.  The strategy keeps no state between
    calls.  The configured replica check, if there is one, is evaluated
    first; when it signals "not a replica" the call returns no metric or
    the sentinel -1, according to the report-not-a-replica flag.
    Otherwise the combined-latency query is evaluated.  A result that is
    not usable is treated as "not a replica" when no check is configured,
    and is a hard error when the check says replica.  A malformed result
    is a hard error naming the offending value.  A number is reported as
    the gauge [current].  A query that fails is surfaced to the caller
    (section 7, transient sampling failure).  The check is the name of a
    system variable (section 4.3), read with [SELECT @@name], 0 meaning
    "not a replica" as in [collectPFS]; the combined-latency query is
    [MySQL8LagQuery]; [drop] is the level's flag in [dropNotAReplica]. *)
Definition performance_schema_strategy `{External}
    (database : sql.DB) (check : string) (drop : bool)
  : result (list MetricValue) :=
  let not_a_replica :=
    if drop then [] else [current (float64_of_int64 (-1)) ∅] in
  let is_replica :=
    if decide (check = "") then Ok 1
    else sql.QueryRow_int database ("SELECT @@" +:+ check) in
  match is_replica with
  | Err e => Err e
  | Ok is_replica =>
    if decide (is_replica = 0) then Ok not_a_replica
    else
      match sql.QueryRow_NullString database MySQL8LagQuery with
      | Err e => Err e
      | Ok value =>
        if sql.Valid value then
          match sqlutil_Float64 (sql.NullString_String value) with
          | Some f => Ok [current f ∅]
          | None =>
            Err ("malformed replication lag: " +:+ sql.NullString_String value)
          end
        else if decide (check = "") then Ok not_a_replica
        else Err "the replica check says replica and the lag query returned no usable value"
      end
  end.

(** Modelled from the spec: [collectPFSv2] as the strategy above, on the
    collector's database, its replica check and the level's flag. *)
Definition spec_collectPFSv2 `{External} (c : Lag) (levelName : string)
  : result (list MetricValue) :=
  performance_schema_strategy (db c) (replCheck c)
    (indexb (dropNotAReplica c) levelName).

(** Modelled from the spec: the package with that [collectPFSv2]. *)
Definition spec_PFSv2 `{External} : PFSv2 :=
  {| collectPFSv2 := spec_collectPFSv2 |}.

End repllag.

(** ** What [MySQL8LagQuery] computes

    The query text is evaluated by the server.  Its meaning is written
    here clause by clause over a snapshot of the two performance-schema
    tables it reads.  A timestamp is a number of microseconds, [None]
    being the zero timestamp, on which [TIMESTAMPDIFF] gives [NULL];
    a nullable number is an [option Q]. *)

Module mysql.

(** performance_schema.replication_applier_status_by_worker *)
Record applier_status_by_worker : Type := {
  w_channel_name : string;
  LAST_APPLIED_TRANSACTION : string;
  LAST_APPLIED_TRANSACTION_ORIGINAL_COMMIT_TIMESTAMP : option Z;
  LAST_APPLIED_TRANSACTION_IMMEDIATE_COMMIT_TIMESTAMP : option Z;
  LAST_APPLIED_TRANSACTION_END_APPLY_TIMESTAMP : option Z
}.

(** performance_schema.replication_connection_status *)
Record connection_status : Type := {
  s_channel_name : string;
  LAST_QUEUED_TRANSACTION : string;
  LAST_QUEUED_TRANSACTION_ORIGINAL_COMMIT_TIMESTAMP : option Z
}.

Record server : Type := {
  replication_applier_status_by_worker : list applier_status_by_worker;
  replication_connection_status : list connection_status;
  clock : Z (* microseconds *)
}.

(** [NOW(fsp)]: the clock cut to [fsp] fractional digits. *)
Definition NOW (fsp : Z) (srv : server) : option Z :=
  Some (clock srv - clock srv mod 10 ^ (6 - fsp)).

(** [TIMESTAMPDIFF(MICROSECOND, a, b)] and [TIMESTAMPDIFF(MINUTE, a, b)]:
    the difference [b - a] in whole units, cut towards zero. *)
Definition TIMESTAMPDIFF_MICROSECOND (a b : option Z) : option Z :=
  match a, b with
  | Some a, Some b => Some (b - a)
  | _, _ => None
  end.

Definition TIMESTAMPDIFF_MINUTE (a b : option Z) : option Z :=
  match a, b with
  | Some a, Some b => Some (Z.quot (b - a) 60000000)
  | _, _ => None
  end.

(** [x/1000] on an integer. *)
Definition div1000 (x : option Z) : option Q :=
  match x with
  | Some x => Some (inject_Z x / 1000)%Q
  | None => None
  end.

(** The aggregate [MIN]: [NULL]s are skipped, no value gives [NULL]. *)
Definition MIN_Z (xs : list (option Z)) : option Z :=
  foldr (λ x acc,
           match x, acc with
           | Some x, Some a => Some (Z.min x a)
           | Some x, None => Some x
           | None, _ => acc
           end) None xs.

Definition MIN_Q (xs : list (option Q)) : option Q :=
  foldr (λ x acc,
           match x, acc with
           | Some x, Some a => Some (if Qle_bool x a then x else a)
           | Some x, None => Some x
           | None, _ => acc
           end) None xs.

(** [GREATEST(a, b)]: [NULL] as soon as an argument is. *)
Definition GREATEST (a b : option Q) : option Q :=
  match a, b with
  | Some a, Some b => Some (if Qle_bool a b then b else a)
  | _, _ => None
  end.

Inductive queue_status_t : Type := IDLE | ACTIVE.

Section Query.

(** The server function [GTID_SUBTRACT]. *)
Variable GTID_SUBTRACT : string → string → string.

(** [FROM ... w JOIN ... s ON s.channel_name = w.channel_name] *)
Definition joined (srv : server)
  : list (applier_status_by_worker * connection_status) :=
  w ← replication_applier_status_by_worker srv;
  s ← replication_connection_status srv;
  if decide (s_channel_name s = w_channel_name w) then [(w, s)] else [].

(** The row kept by [ORDER BY ..._END_APPLY_TIMESTAMP DESC LIMIT 1]: a
    worker whose timestamp no other exceeds (the zero timestamp is the
    least); no row when the table is empty. *)
Definition latest_applied (srv : server) : option applier_status_by_worker :=
  foldr (λ w acc,
           match acc with
           | None => Some w
           | Some w' =>
             let t := default (-1) (LAST_APPLIED_TRANSACTION_END_APPLY_TIMESTAMP w) in
             let t' := default (-1) (LAST_APPLIED_TRANSACTION_END_APPLY_TIMESTAMP w') in
             if bool_decide (t' ≤ t) then Some w else Some w'
           end) None (replication_applier_status_by_worker srv).

(** CTE [applier_latency]: zero or one row, column [applier_latency_ms]. *)
Definition applier_latency (srv : server) : option (option Q) :=
  match latest_applied srv with
  | None => None
  | Some w =>
    Some (div1000 (TIMESTAMPDIFF_MICROSECOND
            (LAST_APPLIED_TRANSACTION_ORIGINAL_COMMIT_TIMESTAMP w)
            (LAST_APPLIED_TRANSACTION_END_APPLY_TIMESTAMP w)))
  end.

(** CTE [queue_latency]: one row, columns [queue_latency_ms] and
    [queue_status]. *)
Definition queue_latency_ms (srv : server) : option Q :=
  MIN_Q (map (λ ws : applier_status_by_worker * connection_status,
                let (w, s) := ws in
                if bool_decide (LAST_QUEUED_TRANSACTION s = "ANONYMOUS")
                   || bool_decide (LAST_APPLIED_TRANSACTION w = "ANONYMOUS")
                   || bool_decide (GTID_SUBTRACT (LAST_QUEUED_TRANSACTION s)
                                     (LAST_APPLIED_TRANSACTION w) = "")
                then Some 0%Q
                else div1000 (TIMESTAMPDIFF_MICROSECOND
                       (LAST_APPLIED_TRANSACTION_IMMEDIATE_COMMIT_TIMESTAMP w)
                       (NOW 3 srv)))
             (joined srv)).

Definition queue_minutes (srv : server) : option Z :=
  MIN_Z (map (λ ws : applier_status_by_worker * connection_status,
                TIMESTAMPDIFF_MINUTE
                  (LAST_QUEUED_TRANSACTION_ORIGINAL_COMMIT_TIMESTAMP ws.2)
                  (NOW 0 srv))
             (joined srv)).

Definition queue_status (srv : server) : queue_status_t :=
  match queue_minutes srv with
  | Some m => if bool_decide (m > 1) then IDLE else ACTIVE
  | None => ACTIVE
  end.

(** The final [SELECT ... FROM applier_latency, queue_latency]: no row
    ([None]) or one row holding [lagMs]. *)
Definition lagMs (srv : server) : option (option Q) :=
  match applier_latency srv with
  | None => None
  | Some applier_latency_ms =>
    Some match queue_status srv with
         | IDLE => Some 0%Q
         | ACTIVE => GREATEST applier_latency_ms (queue_latency_ms srv)
         end
  end.

End Query.

(** The age, in microseconds at [NOW()], of the most recently queued
    transaction among the joined rows. *)
Definition queued_ages (srv : server) : list Z :=
  omap (λ ws : applier_status_by_worker * connection_status,
          TIMESTAMPDIFF_MICROSECOND
            (LAST_QUEUED_TRANSACTION_ORIGINAL_COMMIT_TIMESTAMP ws.2)
            (NOW 0 srv))
       (joined srv).

End mysql.

(** ** Concrete servers, plans and collaborators

    One instance of everything the collector takes from outside, on which
    the statements below are run. *)

Module scenario.

Import repllag.

(** Decimal digits, for [strconv.Atoi] and [sqlutil.Float64] on
    non-negative integers. *)
Fixpoint digits (s : string) (acc : Z) : option Z :=
  match s with
  | EmptyString => Some acc
  | String a s' =>
    let d := Z.of_N (Ascii.N_of_ascii a) - 48 in
    if bool_decide (0 ≤ d ≤ 9) then digits s' (10 * acc + d) else None
  end.

Definition number (s : string) : option Z :=
  if decide (s = "") then None else digits s 0.

(** Metric values are integers here, [yes] and [true] are the true
    strings, and object names are already clean. *)
Definition external : External :=
  {| float64 := Z;
     float64_of_int64 := λ n, n;
     blip_Bool := λ s, bool_decide (s = "yes") || bool_decide (s = "true");
     blip_DEFAULT_HEARTBEAT_TABLE := "blip.heartbeat";
     sqlutil_CleanObjectName := λ s, s;
     sqlutil_Float64 := number;
     strconv_Atoi := λ s, match number s with
                          | Some n => Ok n
                          | None => Err "invalid syntax"
                          end;
     fmt_q := λ s, s;
     fmt_v := λ _, "map[]" |}.

(** [collectPFSv2] behaving as [collectPFS] does. *)
Definition pfs : @PFSv2 external :=
  {| collectPFSv2 := @collectPFS external |}.

(** A MySQL 8 replica with the performance schema enabled, 12 ms behind. *)
Definition replica_db : sql.DB :=
  {| sql.QueryRow_int := λ _, Ok 1;
     sql.QueryRow_NullString :=
       λ _, Ok {| sql.NullString_String := "12"; sql.Valid := true |};
     sql.TableExists := λ _, true |}.

(** A server with neither performance schema nor heartbeat table. *)
Definition bare_db : sql.DB :=
  {| sql.QueryRow_int := λ _, Err "Unknown system variable";
     sql.QueryRow_NullString := λ _, Err "Unknown table";
     sql.TableExists := λ _, false |}.

(** A server whose check says replica while the lag query gives NULL. *)
Definition inconsistent_db : sql.DB :=
  {| sql.QueryRow_int := λ _, Ok 1;
     sql.QueryRow_NullString :=
       λ _, Ok {| sql.NullString_String := ""; sql.Valid := false |};
     sql.TableExists := λ _, true |}.

(** A source: the replica check answers 0. *)
Definition source_db : sql.DB :=
  {| sql.QueryRow_int := λ _, Ok 0;
     sql.QueryRow_NullString :=
       λ _, Ok {| sql.NullString_String := ""; sql.Valid := false |};
     sql.TableExists := λ _, true |}.

(** A level that collects only [repl.lag], with the given options. *)
Definition lag_level (name freq : string) (options : gmap string string)
  : blip.Level :=
  {| blip.Level_Name := name;
     blip.Freq := freq;
     blip.Collect :=
       {[ DOMAIN := {| blip.Domain_Name := DOMAIN;
                       blip.Options := options;
                       blip.Metrics := [] |} ]} |}.

Definition plan_of (levels : gmap string blip.Level) : blip.Plan :=
  {| blip.Plan_Name := "lag"; blip.Levels := levels; blip.MonitorId := "db1" |}.

(** Levels [a] and [b] naming different writers. *)
Definition mixed_plan : blip.Plan :=
  plan_of (<[ "a" := lag_level "a" "5s" {[ OPT_WRITER := LAG_WRITER_BLIP ]} ]>
           (<[ "b" := lag_level "b" "20s" {[ OPT_WRITER := LAG_WRITER_PFS ]} ]> ∅)).

(** Levels [a] and [b] both asking for the heartbeat. *)
Definition two_blip_plan : blip.Plan :=
  plan_of (<[ "a" := lag_level "a" "5s" {[ OPT_WRITER := LAG_WRITER_BLIP ]} ]>
           (<[ "b" := lag_level "b" "20s" {[ OPT_WRITER := LAG_WRITER_BLIP ]} ]> ∅)).

(** One level leaving the writer to auto-detection. *)
Definition auto_plan : blip.Plan :=
  plan_of {[ "a" := lag_level "a" "5s" {[ OPT_WRITER := "auto" ]} ]}.

(** One level on the performance schema, asking that a missing heartbeat
    be dropped. *)
Definition pfs_plan : blip.Plan :=
  plan_of {[ "a" := lag_level "a" "5s"
                      (<[ OPT_WRITER := LAG_WRITER_PFS ]>
                       {[ OPT_REPORT_NO_HEARTBEAT := "no" ]}) ]}.

(** One level on the heartbeat that reports "not a replica". *)
Definition report_plan : blip.Plan :=
  plan_of {[ "a" := lag_level "a" "5s"
                      (<[ OPT_WRITER := LAG_WRITER_BLIP ]>
                       {[ OPT_REPORT_NOT_A_REPLICA := "yes" ]}) ]}.

(** Two heartbeat levels with their own [repl-check]. *)
Definition checks_plan (s1 s2 : string) : blip.Plan :=
  plan_of (<[ "a" := lag_level "a" "5s"
                       (<[ OPT_WRITER := LAG_WRITER_BLIP ]>
                        {[ OPT_REPL_CHECK := s1 ]}) ]>
           (<[ "b" := lag_level "b" "20s"
                       (<[ OPT_WRITER := LAG_WRITER_BLIP ]>
                        {[ OPT_REPL_CHECK := s2 ]}) ]> ∅)).

(** Two orders of visit. *)
Definition forwards : range_order := λ A m, map_to_list m.
Definition backwards : range_order := λ A m, reverse (map_to_list m).

(** A reader on a source: not a replica, zero milliseconds. *)
Definition source_sample (_ : heartbeat.BlipReader) : result heartbeat.Lag :=
  Ok {| heartbeat.Milliseconds := 0;
        heartbeat.Replica := false;
        heartbeat.SourceId := "src1" |}.

(** A plan with options to interpolate. *)
Definition templated_plan : blip.Plan :=
  plan_of {[ "a" := lag_level "a" "5s" {[ OPT_HEARTBEAT_SOURCE_ID := "${SRC}" ]} ]}.

(** A replica whose last transaction was queued 90 seconds ago and took
    five seconds from commit on the source to the end of its apply. *)
Definition quiet_server : mysql.server :=
  {| mysql.replication_applier_status_by_worker :=
       [ {| mysql.w_channel_name := "";
            mysql.LAST_APPLIED_TRANSACTION := "ANONYMOUS";
            mysql.LAST_APPLIED_TRANSACTION_ORIGINAL_COMMIT_TIMESTAMP :=
              Some 905000000;
            mysql.LAST_APPLIED_TRANSACTION_IMMEDIATE_COMMIT_TIMESTAMP :=
              Some 905000000;
            mysql.LAST_APPLIED_TRANSACTION_END_APPLY_TIMESTAMP :=
              Some 910000000 |} ];
     mysql.replication_connection_status :=
       [ {| mysql.s_channel_name := "";
            mysql.LAST_QUEUED_TRANSACTION := "ANONYMOUS";
            mysql.LAST_QUEUED_TRANSACTION_ORIGINAL_COMMIT_TIMESTAMP :=
              Some 910000000 |} ];
     mysql.clock := 1000000000 |}.

(** The same replica three minutes later. *)
Definition idle_server : mysql.server :=
  {| mysql.replication_applier_status_by_worker :=
       mysql.replication_applier_status_by_worker quiet_server;
     mysql.replication_connection_status :=
       mysql.replication_connection_status quiet_server;
     mysql.clock := 1180000000 |}.

(** Transactions are anonymous in these servers: nothing to subtract. *)
Definition no_gtid (_ _ : string) : string := "".

(** Levels on the performance schema and on auto-detection. *)
Definition pfs_auto_plan : blip.Plan :=
  plan_of (<[ "a" := lag_level "a" "5s" {[ OPT_WRITER := LAG_WRITER_PFS ]} ]>
           (<[ "b" := lag_level "b" "20s" ∅ ]> ∅)).

(** One heartbeat level with every reader option set. *)
Definition reader_options : gmap string string :=
  <[ OPT_WRITER := LAG_WRITER_BLIP ]>
  (<[ OPT_HEARTBEAT_TABLE := "ops.heartbeat" ]>
  (<[ OPT_HEARTBEAT_SOURCE_ID := "src1" ]>
  (<[ OPT_REPL_CHECK := "read_only" ]>
  (<[ OPT_NETWORK_LATENCY := "20" ]> ∅)))).

Definition reader_plan : blip.Plan :=
  plan_of {[ "a" := lag_level "a" "5s" reader_options ]}.

(** A replica on which no heartbeat has been seen yet, and one 250 ms
    behind. *)
Definition no_heartbeat_sample (_ : heartbeat.BlipReader) : result heartbeat.Lag :=
  Ok {| heartbeat.Milliseconds := -1;
        heartbeat.Replica := true;
        heartbeat.SourceId := "" |}.

Definition lagging_sample (_ : heartbeat.BlipReader) : result heartbeat.Lag :=
  Ok {| heartbeat.Milliseconds := 250;
        heartbeat.Replica := true;
        heartbeat.SourceId := "src1" |}.

(** A replica 12 ms behind on which the system variable [zero] reads 0
    and every other one reads 1. *)
Definition checking_db (zero text : string) : sql.DB :=
  {| sql.QueryRow_int :=
       λ query, if decide (query = "SELECT @@" +:+ zero) then Ok 0 else Ok 1;
     sql.QueryRow_NullString :=
       λ _, Ok {| sql.NullString_String := text; sql.Valid := true |};
     sql.TableExists := λ _, true |}.

(** Two performance-schema levels with their own [repl-check]. *)
Definition pfs_checks_plan (s1 s2 : string) : blip.Plan :=
  plan_of (<[ "a" := lag_level "a" "5s"
                       (<[ OPT_WRITER := LAG_WRITER_PFS ]>
                        {[ OPT_REPL_CHECK := s1 ]}) ]>
           (<[ "b" := lag_level "b" "20s"
                       (<[ OPT_WRITER := LAG_WRITER_PFS ]>
                        {[ OPT_REPL_CHECK := s2 ]}) ]> ∅)).

(** A replica whose connection table is empty: worker rows, no channel
    to join them with. *)
Definition unjoined_server : mysql.server :=
  {| mysql.replication_applier_status_by_worker :=
       mysql.replication_applier_status_by_worker quiet_server;
     mysql.replication_connection_status := [];
     mysql.clock := 1000000000 |}.

End scenario.

(** * Properties *)

(** ** Loops over a map *)

Section RangeFacts.

Context {A : Type}.
Implicit Types (m : gmap string A) (ks : list string).

(** Altering the entries of [m] key by key, each key once. *)
Lemma foldl_alter_lookup (g : A → A) ks m i :
  NoDup ks →
  foldl (λ m k, alter g k m) m ks !! i
  = if decide (i ∈ ks) then g <$> m !! i else m !! i.
Proof.
  intros Hnd. revert m. induction Hnd as [|k ks Hk Hnd IH]; intros m; simpl.
  - destruct (decide (i ∈ [])) as [Hi|Hi]; [by apply elem_of_nil in Hi | done].
  - rewrite IH. destruct (decide (i = k)) as [->|Hne].
    + rewrite lookup_alter_eq.
      destruct (decide (k ∈ ks)) as [|_]; [done|].
      destruct (decide (k ∈ k :: ks)) as [|Hout]; [done|].
      exfalso. apply Hout. by left.
    + rewrite lookup_alter_ne by done.
      destruct (decide (i ∈ ks)) as [Hi|Hi],
               (decide (i ∈ k :: ks)) as [Hi'|Hi']; try done.
      * exfalso. apply Hi'. by right.
      * exfalso. apply elem_of_cons in Hi' as [?|?]; done.
Qed.

Lemma foldl_alter_fmap (g : A → A) ks m :
  ks ≡ₚ (map_to_list m).*1 →
  foldl (λ m k, alter g k m) m ks = g <$> m.
Proof.
  intros Hp. apply map_eq; intros i.
  rewrite foldl_alter_lookup, lookup_fmap.
  - destruct (decide (i ∈ ks)) as [Hi|Hi]; [done|].
    destruct (m !! i) as [x|] eqn:Hx; [|done].
    exfalso. apply Hi. rewrite Hp.
    apply list_elem_of_fmap. exists (i, x). split; [done|].
    by apply elem_of_map_to_list.
  - rewrite Hp. apply NoDup_fst_map_to_list.
Qed.

End RangeFacts.

Lemma foldl_ext_all {A B} (f g : A → B → A) (a : A) (l : list B) :
  (∀ a b, f a b = g a b) → foldl f a l = foldl g a l.
Proof.
  intros Hfg. revert a.
  induction l as [|b l IH]; intros a; simpl; [done|]. by rewrite Hfg, IH.
Qed.

(** The innermost loop, [for k, v := range m { m[k] = f(v) }]. *)
Lemma foldl_insert_fmap (f : string → string) (o : gmap string string) kvs :
  kvs ≡ₚ map_to_list o →
  foldl (λ o kv, <[kv.1 := f kv.2]> o) o kvs = f <$> o.
Proof.
  intros Hp.
  assert (Hnd : NoDup kvs.*1) by (rewrite Hp; apply NoDup_fst_map_to_list).
  assert (Ho : o = list_to_map kvs) by (by apply list_to_map_flip).
  assert (Hlk : ∀ (o0 : gmap string string) i,
      foldl (λ o kv, <[kv.1 := f kv.2]> o) o0 kvs !! i
      = match (list_to_map kvs : gmap string string) !! i with
        | Some v => Some (f v)
        | None => o0 !! i
        end).
  { clear Hp Ho. induction kvs as [|[k v] kvs IH]; intros o0 i; simpl; [done|].
    apply NoDup_cons in Hnd as [Hk Hnd]. rewrite IH by done.
    destruct (decide (i = k)) as [->|Hne].
    - rewrite lookup_insert_eq.
      rewrite (not_elem_of_list_to_map_1 kvs k) by done.
      by rewrite lookup_insert_eq.
    - by rewrite !lookup_insert_ne by done. }
  apply map_eq; intros i. rewrite Hlk, lookup_fmap, <- Ho.
  by destruct (o !! i).
Qed.

(** ** The interpolation passes *)

Section PlanFacts.

Import blip.

Lemma assignOption_alter l d k v p :
  assignOption l d k v p
  = alterLevel (alterCollect (withOptions <[k := v]>) d) l p.
Proof.
  unfold assignOption, alterLevel. destruct p as [n ls mid]; simpl.
  destruct (ls !! l) as [lv|] eqn:Hl.
  - destruct (Collect lv !! d) as [dm|] eqn:Hd.
    + f_equal. apply map_eq; intros i. destruct (decide (i = l)) as [->|].
      * rewrite lookup_insert_eq, lookup_alter_eq, Hl. simpl. f_equal.
        unfold alterCollect. f_equal.
        apply map_eq; intros j. destruct (decide (j = d)) as [->|].
        -- by rewrite lookup_insert_eq, lookup_alter_eq, Hd.
        -- by rewrite lookup_insert_ne, lookup_alter_ne.
      * by rewrite lookup_insert_ne, lookup_alter_ne.
    + f_equal. symmetry. apply alter_id. intros lv' Hlv'.
      rewrite Hl in Hlv'. injection Hlv' as <-.
      destruct lv as [ln fr co]; unfold alterCollect; simpl in *.
      f_equal. apply alter_id. intros dm Hdm. by rewrite Hd in Hdm.
  - f_equal. symmetry. apply alter_id. intros lv Hlv. by rewrite Hl in Hlv.
Qed.

Lemma alterLevel_ext h1 h2 l p :
  (∀ lv, Levels p !! l = Some lv → h1 lv = h2 lv) →
  alterLevel h1 l p = alterLevel h2 l p.
Proof. intros Hh. unfold alterLevel. f_equal. by apply alter_ext. Qed.

Lemma alterCollect_ext g1 g2 d lv :
  (∀ dm, Collect lv !! d = Some dm → g1 dm = g2 dm) →
  alterCollect g1 d lv = alterCollect g2 d lv.
Proof. intros Hg. unfold alterCollect. f_equal. by apply alter_ext. Qed.

Lemma foldl_alterLevel {B} (h : B → Level → Level) l p (bs : list B) :
  foldl (λ p b, alterLevel (h b) l p) p bs
  = alterLevel (λ lv, foldl (λ lv b, h b lv) lv bs) l p.
Proof.
  revert p. induction bs as [|b bs IH]; intros p; simpl.
  - unfold alterLevel. destruct p; simpl. f_equal.
    symmetry. by apply alter_id.
  - rewrite IH. unfold alterLevel; simpl. f_equal.
    by rewrite alter_alter_eq.
Qed.

Lemma foldl_alterCollect {B} (g : B → Domain → Domain) d lv (bs : list B) :
  foldl (λ lv b, alterCollect (g b) d lv) lv bs
  = alterCollect (λ dm, foldl (λ dm b, g b dm) dm bs) d lv.
Proof.
  revert lv. induction bs as [|b bs IH]; intros lv; simpl.
  - unfold alterCollect. destruct lv; simpl. f_equal.
    symmetry. by apply alter_id.
  - rewrite IH. unfold alterCollect; simpl. f_equal.
    by rewrite alter_alter_eq.
Qed.

Lemma foldl_withOptions {B} (h : B → gmap string string → gmap string string)
    dm (bs : list B) :
  foldl (λ dm b, withOptions (h b) dm) dm bs
  = withOptions (λ o, foldl (λ o b, h b o) o bs) dm.
Proof.
  revert dm. induction bs as [|b bs IH]; intros dm; simpl.
  - by destruct dm.
  - by rewrite IH.
Qed.

Variable range : range_order.
Hypothesis Hrange : valid_range range.
Variable f : string → string.

(** Each loop is the map over what it ranges. *)
Lemma rangeOptions_alter l d p :
  rangeOptions range f l d p
  = alterLevel (alterCollect (mapDomainOptions f) d) l p.
Proof.
  unfold rangeOptions.
  rewrite (foldl_ext_all _
    (λ p kv, alterLevel (alterCollect (withOptions <[kv.1 := f kv.2]>) d) l p))
    by (intros; apply assignOption_alter).
  rewrite (foldl_alterLevel
    (λ kv, alterCollect (withOptions <[kv.1 := f kv.2]>) d)).
  apply alterLevel_ext; intros lv Hlv.
  rewrite (foldl_alterCollect (λ kv, withOptions <[kv.1 := f kv.2]>)).
  apply alterCollect_ext; intros dm Hdm.
  rewrite (foldl_withOptions (λ kv, <[kv.1 := f kv.2]>)).
  unfold withOptions, mapDomainOptions. f_equal.
  assert (optionsOf p l d = Options dm) as ->.
  { unfold optionsOf, collectOf. by rewrite Hlv, Hdm. }
  apply foldl_insert_fmap, Hrange.
Qed.

Lemma rangeCollect_alter l p :
  rangeCollect range f l p = alterLevel (mapLevelOptions f) l p.
Proof.
  unfold rangeCollect.
  rewrite (foldl_ext_all _
    (λ p d, alterLevel (alterCollect (mapDomainOptions f) d) l p))
    by (intros; apply rangeOptions_alter).
  rewrite (foldl_alterLevel (λ d, alterCollect (mapDomainOptions f) d)).
  apply alterLevel_ext; intros lv Hlv.
  assert (collectOf p l = Collect lv) as ->.
  { unfold collectOf. by rewrite Hlv. }
  generalize (fmap_Permutation fst _ _ (Hrange _ (Collect lv))).
  generalize ((range Domain (Collect lv)).*1); intros ks Hks.
  assert (Hfold : ∀ lv0,
     foldl (λ lv b, alterCollect (mapDomainOptions f) b lv) lv0 ks
     = {| Level_Name := Level_Name lv0; Freq := Freq lv0;
          Collect := foldl (λ c k, alter (mapDomainOptions f) k c)
                           (Collect lv0) ks |}).
  { clear. induction ks as [|k ks IH]; intros lv0; simpl; [by destruct lv0|].
    by rewrite IH. }
  rewrite Hfold. unfold mapLevelOptions. f_equal.
  by apply foldl_alter_fmap.
Qed.

Lemma rangeLevels_map p : rangeLevels range f p = mapPlanOptions f p.
Proof.
  unfold rangeLevels.
  rewrite (foldl_ext_all _ (λ p l, alterLevel (mapLevelOptions f) l p))
    by (intros; apply rangeCollect_alter).
  generalize (fmap_Permutation fst _ _ (Hrange _ (Levels p))).
  generalize ((range Level (Levels p)).*1); intros ks Hks.
  assert (Hfold : ∀ p0,
     foldl (λ p l, alterLevel (mapLevelOptions f) l p) p0 ks
     = {| Plan_Name := Plan_Name p0;
          Levels := foldl (λ m k, alter (mapLevelOptions f) k m) (Levels p0) ks;
          MonitorId := MonitorId p0 |}).
  { clear. induction ks as [|k ks IH]; intros p0; simpl; [by destruct p0|].
    by rewrite IH. }
  rewrite Hfold. unfold mapPlanOptions. f_equal.
  by apply foldl_alter_fmap.
Qed.

End PlanFacts.

Lemma mapPlanOptions_compose f g p :
  blip.mapPlanOptions g (blip.mapPlanOptions f p)
  = blip.mapPlanOptions (g ∘ f) p.
Proof.
  unfold blip.mapPlanOptions; simpl. f_equal.
  rewrite <- map_fmap_compose. apply map_fmap_ext; intros l lv _.
  unfold blip.mapLevelOptions; simpl. f_equal.
  rewrite <- map_fmap_compose. apply map_fmap_ext; intros d dm _.
  unfold blip.mapDomainOptions; simpl. f_equal.
  by rewrite <- map_fmap_compose.
Qed.

Lemma valid_range_forwards : valid_range scenario.forwards.
Proof. intros A m. reflexivity. Qed.

Lemma valid_range_backwards : valid_range scenario.backwards.
Proof. intros A m. apply reverse_Permutation. Qed.

(** C7.  Whatever the order in which the maps are visited,
    [InterpolateEnvVars] rewrites every option value of every domain of
    every level to its image under [interpolateEnv], [InterpolateMonitor]
    does the same with [interpolateMon], and their sequence leaves each
    value rewritten once by each: the plan obtained is the plan whose
    option values are mapped, with the plan name, the monitor id, the
    level names and frequencies, the domain names and the metric lists as
    they were. *)
Theorem Interpolate_rewrites_each_option_once
    {ConfigMonitor : Type} (interpolateEnv : string → string)
    (interpolateMon : ConfigMonitor → string → string)
    (range1 range2 : range_order) (mon : ConfigMonitor) (p : blip.Plan) :
  valid_range range1 → valid_range range2 →
  let p1 := blip.InterpolateEnvVars interpolateEnv range1 p in
  let p2 := blip.InterpolateMonitor interpolateMon range2 mon p1 in
  p1 = blip.mapPlanOptions interpolateEnv p
  ∧ p2 = blip.mapPlanOptions (interpolateMon mon) p1
  ∧ p2 = blip.mapPlanOptions (λ v, interpolateMon mon (interpolateEnv v)) p.
Proof.
  intros H1 H2. unfold blip.InterpolateMonitor, blip.InterpolateEnvVars. simpl.
  rewrite !rangeLevels_map by done. split_and!; [done|done|].
  apply mapPlanOptions_compose.
Qed.

Lemma Interpolate_rewrites_each_option_once_witness :
  let env := λ v : string, if decide (v = "${SRC}") then "%{monitor.id}" else v in
  let mon := λ (id : string) (v : string),
               if decide (v = "%{monitor.id}") then id else v in
  let p1 := blip.InterpolateEnvVars env scenario.forwards scenario.templated_plan in
  let p2 := blip.InterpolateMonitor mon scenario.backwards "db1" p1 in
  p1 = blip.mapPlanOptions env scenario.templated_plan
  ∧ p2 = blip.mapPlanOptions (mon "db1") p1
  ∧ p2 = blip.mapPlanOptions (λ v, mon "db1" (env v)) scenario.templated_plan.
Proof.
  exact (Interpolate_rewrites_each_option_once _ _
           scenario.forwards scenario.backwards "db1" scenario.templated_plan
           valid_range_forwards valid_range_backwards).
Defined.

(** Read at one option: its value after a pass is the image of its value
    before. *)
Lemma mapPlanOptions_optionsOf f p l d k :
  blip.optionsOf (blip.mapPlanOptions f p) l d !! k
  = f <$> blip.optionsOf p l d !! k.
Proof.
  unfold blip.optionsOf, blip.collectOf, blip.mapPlanOptions; simpl.
  rewrite lookup_fmap. destruct (blip.Levels p !! l) as [lv|]; simpl.
  - rewrite lookup_fmap. destruct (blip.Collect lv !! d) as [dm|]; simpl.
    + apply lookup_fmap.
    + by rewrite lookup_empty.
  - by rewrite !lookup_empty.
Qed.

(** The two passes on the templated plan, the second visiting the maps
    backwards. *)
Example templated_plan_interpolated :
  let env := λ v : string, if decide (v = "${SRC}") then "%{monitor.id}" else v in
  let mon := λ (id : string) (v : string),
               if decide (v = "%{monitor.id}") then id else v in
  let p := blip.InterpolateMonitor mon scenario.backwards "db1"
             (blip.InterpolateEnvVars env scenario.forwards
                scenario.templated_plan) in
  blip.optionsOf p "a" repllag.DOMAIN !! repllag.OPT_HEARTBEAT_SOURCE_ID
  = Some "db1"
  ∧ blip.Domain_Name <$> blip.collectOf p "a" !! repllag.DOMAIN
    = Some repllag.DOMAIN
  ∧ blip.Metrics <$> blip.collectOf p "a" !! repllag.DOMAIN = Some []
  ∧ blip.Plan_Name p = "lag".
Proof. cbv zeta. split_and!; reflexivity. Qed.

(** ** Prepare *)

Section PrepareFacts.

Import repllag.

Context `{V : PFSv2}.

Lemma Prepare_loop_skip plan levelName level entries c cleanup gs :
  blip.Collect level !! DOMAIN = None →
  Prepare_loop plan ((levelName, level) :: entries) "" c cleanup gs
  = Prepare_loop plan entries "" c cleanup gs.
Proof. intros Hd. simpl. by rewrite Hd. Qed.

Lemma Prepare_loop_level plan levelName level dom entries c cleanup gs :
  blip.Collect level !! DOMAIN = Some dom →
  Prepare_loop plan ((levelName, level) :: entries) "" c cleanup gs
  = match Prepare_switch plan levelName dom
            (index (blip.Options dom) OPT_WRITER) c cleanup gs with
    | Return r => r
    | Next c cleanup gs writer =>
      Prepare_loop plan entries "" (Prepare_record levelName writer dom c) cleanup gs
    end.
Proof.
  intros Hd. simpl. rewrite Hd.
  destruct (decide ("" ≠ "")) as [Hne|_]; [done|]. reflexivity.
Qed.

Lemma prepareBlip_Ok c levelName monitorID planName options :
  ∃ c' new f, prepareBlip c levelName monitorID planName options = (c', new, Ok f).
Proof. unfold prepareBlip. destruct (lagReader c); eauto. Qed.

Lemma prepareBlip_reader c r levelName monitorID planName options :
  lagReader c = Some r →
  prepareBlip c levelName monitorID planName options = (c, [], Ok None).
Proof. intros Hr. unfold prepareBlip. by rewrite Hr. Qed.

Lemma prepareBlip_no_reader c levelName monitorID planName options :
  lagReader c = None →
  ∃ c' rd,
    prepareBlip c levelName monitorID planName options
    = (c', [rd], Ok (Some (StopReader monitorID)))
    ∧ lagReader c' = Some rd
    ∧ lagWriterIn c' = <[levelName := LAG_WRITER_BLIP]> (lagWriterIn c)
    ∧ dropNoHeartbeat c'
      = <[levelName := negb (blip_Bool (index options OPT_REPORT_NO_HEARTBEAT))]>
          (dropNoHeartbeat c)
    ∧ dropNotAReplica c' = dropNotAReplica c
    ∧ replCheck c' = replCheck c
    ∧ db c' = db c.
Proof.
  intros Hr. unfold prepareBlip. rewrite Hr.
  eexists _, _. split; [reflexivity|]. simpl. done.
Qed.

(** The [switch] returns only with an error. *)
Lemma Prepare_switch_Return plan levelName dom writer c cleanup gs r :
  Prepare_switch plan levelName dom writer c cleanup gs = Return r →
  is_Err (returned r) = true.
Proof.
  unfold Prepare_switch. intros Hsw.
  repeat case_decide;
    repeat match type of Hsw with
    | context [collectPFSv2 ?a ?b] => destruct (collectPFSv2 a b)
    | context [prepareBlip ?a ?b ?c ?d ?e] =>
        destruct (prepareBlip a b c d e) as [[??] []]
    end; simplify_eq; done.
Qed.

(** What the [switch] may change in the two maps of drop flags. *)
Lemma Prepare_switch_flags plan levelName dom writer c cleanup gs c' cleanup' gs' writer' :
  Prepare_switch plan levelName dom writer c cleanup gs = Next c' cleanup' gs' writer' →
  dropNotAReplica c' = dropNotAReplica c
  ∧ (dropNoHeartbeat c' = dropNoHeartbeat c
     ∨ dropNoHeartbeat c'
       = <[levelName := negb (blip_Bool (index (blip.Options dom) OPT_REPORT_NO_HEARTBEAT))]>
           (dropNoHeartbeat c)).
Proof.
  unfold Prepare_switch.
  assert (Hblip : ∀ c1 new r,
    prepareBlip c levelName (blip.MonitorId plan) (blip.Plan_Name plan) (blip.Options dom)
      = (c1, new, r) →
    dropNotAReplica c1 = dropNotAReplica c
    ∧ (dropNoHeartbeat c1 = dropNoHeartbeat c
       ∨ dropNoHeartbeat c1
         = <[levelName := negb (blip_Bool (index (blip.Options dom) OPT_REPORT_NO_HEARTBEAT))]>
             (dropNoHeartbeat c))).
  { intros c1 new r. destruct (lagReader c) as [rd|] eqn:Hrd.
    - rewrite (prepareBlip_reader _ rd) by done. intros [= <- _ _]. auto.
    - destruct (prepareBlip_no_reader c levelName (blip.MonitorId plan)
          (blip.Plan_Name plan) (blip.Options dom) Hrd)
        as (c2 & rd & -> & _ & _ & Hnh & Hnr & _).
      intros [= <- _ _]. auto. }
  repeat case_decide.
  - destruct (collectPFSv2 c levelName); [|done]. intros [= <- _ _ _]. auto.
  - destruct (prepareBlip _ _ _ _ _) as [[c1 new] r] eqn:Hp.
    destruct r; [|done]. intros [= <- _ _ _]. eauto.
  - destruct (collectPFSv2 c levelName).
    + intros [= <- _ _ _]. auto.
    + destruct (prepareBlip _ _ _ _ _) as [[c1 new] r] eqn:Hp.
      destruct r; [|done]. intros [= <- _ _ _]. eauto.
  - done.
Qed.

Lemma Prepare_loop_flags plan entries :
  ∀ c cleanup gs,
  NoDup entries.*1 →
  is_Err (returned (Prepare_loop plan entries "" c cleanup gs)) = false →
  let c' := receiver (Prepare_loop plan entries "" c cleanup gs) in
  (∀ name, name ∉ entries.*1 →
     dropNotAReplica c' !! name = dropNotAReplica c !! name)
  ∧ (∀ name level dom, (name, level) ∈ entries →
       blip.Collect level !! DOMAIN = Some dom →
       dropNotAReplica c' !! name = Some (notAReplicaFlag dom))
  ∧ (∀ name b, dropNoHeartbeat c' !! name = Some b →
       dropNoHeartbeat c !! name = Some b
       ∨ ∃ level dom, (name, level) ∈ entries
           ∧ blip.Collect level !! DOMAIN = Some dom
           ∧ b = noHeartbeatFlag dom).
Proof.
  induction entries as [|[levelName level] entries IH]; intros c cleanup gs Hnd Hok.
  { simpl. split_and!; [done| |by auto]. intros ??? Hin. by apply elem_of_nil in Hin. }
  apply NoDup_cons in Hnd as [Hfresh Hnd].
  destruct (blip.Collect level !! DOMAIN) as [dom|] eqn:Hdom.
  - rewrite (Prepare_loop_level _ _ _ dom) in Hok |- * by done.
    destruct (Prepare_switch _ _ _ _ _ _ _) as [r|c1 cleanup1 gs1 writer1] eqn:Hsw.
    { apply Prepare_switch_Return in Hsw. simpl in Hok. congruence. }
    apply Prepare_switch_flags in Hsw as [Hnr Hnh].
    specialize (IH (Prepare_record levelName writer1 dom c1) cleanup1 gs1 Hnd Hok).
    destruct IH as (IH1 & IH2 & IH3). simpl. split_and!.
    + intros name Hname. rewrite IH1 by (intros ?; apply Hname; by right).
      simpl. rewrite lookup_insert_ne by (intros ->; apply Hname; by left).
      by rewrite Hnr.
    + intros name lv dm [[= -> ->]|Hin]%elem_of_cons Hdm.
      * rewrite IH1 by done. simpl. rewrite lookup_insert_eq.
        rewrite Hdom in Hdm. by simplify_eq.
      * by eapply IH2.
    + intros name b Hb. destruct (IH3 name b Hb) as [Hc1|(lv & dm & Hin & Hdm & ->)].
      * simpl in Hc1. destruct Hnh as [Hnh|Hnh]; rewrite Hnh in Hc1; [by left|].
        destruct (decide (name = levelName)) as [->|Hne].
        -- rewrite lookup_insert_eq in Hc1. right. exists level, dom.
           split_and!; [by left|done|]. by simplify_eq.
        -- rewrite lookup_insert_ne in Hc1 by done. by left.
      * right. exists lv, dm. split_and!; [by right|done|done].
  - rewrite Prepare_loop_skip in Hok |- * by done.
    specialize (IH c cleanup gs Hnd Hok). destruct IH as (IH1 & IH2 & IH3).
    simpl. split_and!.
    + intros name Hname. apply IH1. intros ?. apply Hname. by right.
    + intros name lv dm [[= -> ->]|Hin]%elem_of_cons Hdm; [congruence|].
      by eapply IH2.
    + intros name b Hb. destruct (IH3 name b Hb) as [?|(lv & dm & ? & ? & ?)];
        [by left|]. right. exists lv, dm. split_and!; [by right|done|done].
Qed.

Lemma Prepare_record_lagReader levelName writer dom c :
  lagReader (Prepare_record levelName writer dom c) = lagReader c.
Proof. reflexivity. Qed.

Lemma prepareBlip_one_reader c levelName monitorID planName options gs c' new r :
  one_reader c gs →
  prepareBlip c levelName monitorID planName options = (c', new, r) →
  one_reader c' (gs ++ new).
Proof.
  unfold one_reader. intros -> Hp. destruct (lagReader c) as [rd|] eqn:Hrd.
  - rewrite (prepareBlip_reader _ rd) in Hp by done. simplify_eq. by rewrite Hrd.
  - destruct (prepareBlip_no_reader c levelName monitorID planName options Hrd)
      as (c2 & rd & Hp' & Hrd' & _). rewrite Hp' in Hp. simplify_eq.
    by rewrite Hrd'.
Qed.

Lemma Prepare_switch_one_reader plan levelName dom writer c cleanup gs :
  one_reader c gs →
  match Prepare_switch plan levelName dom writer c cleanup gs with
  | Return r => one_reader (receiver r) (started r)
  | Next c' _ gs' _ => one_reader c' gs'
  end.
Proof.
  intros Hone. unfold Prepare_switch.
  repeat case_decide;
    repeat match goal with
    | |- context [collectPFSv2 ?a ?b] => destruct (collectPFSv2 a b)
    | |- context [prepareBlip ?a ?b ?c ?d ?e] =>
        let Hp := fresh "Hp" in
        destruct (prepareBlip a b c d e) as [[??] []] eqn:Hp;
        apply (prepareBlip_one_reader _ _ _ _ _ _ _ _ _ Hone) in Hp
    end; simpl; done.
Qed.

Lemma Prepare_loop_one_reader plan entries :
  ∀ c cleanup gs,
  one_reader c gs →
  one_reader (receiver (Prepare_loop plan entries "" c cleanup gs))
             (started (Prepare_loop plan entries "" c cleanup gs)).
Proof.
  induction entries as [|[levelName level] entries IH]; intros c cleanup gs Hone;
    [done|].
  destruct (blip.Collect level !! DOMAIN) as [dom|] eqn:Hdom.
  - rewrite (Prepare_loop_level _ _ _ dom) by done.
    pose proof (Prepare_switch_one_reader plan levelName dom
      (index (blip.Options dom) OPT_WRITER) c cleanup gs Hone) as Hsw.
    destruct (Prepare_switch _ _ _ _ _ _ _); [done|]. by apply IH.
  - rewrite Prepare_loop_skip by done. by apply IH.
Qed.

Lemma Prepare_switch_keeps_reader plan levelName dom writer c cleanup gs rd :
  lagReader c = Some rd →
  match Prepare_switch plan levelName dom writer c cleanup gs with
  | Return r => lagReader (receiver r) = Some rd
  | Next c' _ _ _ => lagReader c' = Some rd
  end.
Proof.
  intros Hrd. unfold Prepare_switch.
  rewrite !(prepareBlip_reader _ rd) by done.
  repeat case_decide;
    repeat match goal with
    | |- context [collectPFSv2 ?a ?b] => destruct (collectPFSv2 a b)
    end; done.
Qed.

Lemma Prepare_loop_keeps_reader plan entries :
  ∀ c cleanup gs rd,
  lagReader c = Some rd →
  lagReader (receiver (Prepare_loop plan entries "" c cleanup gs)) = Some rd.
Proof.
  induction entries as [|[levelName level] entries IH]; intros c cleanup gs rd Hrd;
    [done|].
  destruct (blip.Collect level !! DOMAIN) as [dom|] eqn:Hdom.
  - rewrite (Prepare_loop_level _ _ _ dom) by done.
    pose proof (Prepare_switch_keeps_reader plan levelName dom
      (index (blip.Options dom) OPT_WRITER) c cleanup gs rd Hrd) as Hsw.
    destruct (Prepare_switch _ _ _ _ _ _ _); [done|]. by apply IH.
  - rewrite Prepare_loop_skip by done. by apply IH.
Qed.

Lemma Prepare_switch_explicit plan levelName dom writer c cleanup gs :
  probe_succeeds (db c) →
  writer = LAG_WRITER_BLIP ∨ writer = LAG_WRITER_PFS →
  ∃ c' cleanup' gs',
    Prepare_switch plan levelName dom writer c cleanup gs = Next c' cleanup' gs' writer
    ∧ db c' = db c
    ∧ (writer = LAG_WRITER_BLIP → is_Some (lagReader c')).
Proof.
  intros Hprobe Hw. unfold Prepare_switch. destruct Hw as [->| ->].
  - rewrite decide_False by done. rewrite decide_True by done.
    destruct (lagReader c) as [rd|] eqn:Hrd.
    + rewrite (prepareBlip_reader _ rd) by done. eexists _, _, _.
      split_and!; [done|done|]. intros _. by rewrite Hrd.
    + destruct (prepareBlip_no_reader c levelName (blip.MonitorId plan)
        (blip.Plan_Name plan) (blip.Options dom) Hrd)
        as (c2 & rd & -> & Hrd' & _ & _ & _ & _ & Hdb).
      eexists _, _, _. split_and!; [done|done|]. intros _. by rewrite Hrd'.
  - rewrite decide_True by done. specialize (Hprobe c levelName eq_refl).
    destruct (collectPFSv2 c levelName); [|done].
    eexists _, _, _. split_and!; done.
Qed.

Lemma Prepare_loop_explicit plan entries :
  ∀ c cleanup gs,
  probe_succeeds (db c) →
  (∀ name level, (name, level) ∈ entries → ∃ w, explicit_writer level w) →
  is_Err (returned (Prepare_loop plan entries "" c cleanup gs)) = false
  ∧ ((∃ name level, (name, level) ∈ entries ∧ explicit_writer level LAG_WRITER_BLIP) →
     is_Some (lagReader (receiver (Prepare_loop plan entries "" c cleanup gs)))).
Proof.
  induction entries as [|[levelName level] entries IH]; intros c cleanup gs Hprobe Hall.
  { split; [done|]. intros (? & ? & Hin & _). by apply elem_of_nil in Hin. }
  destruct (Hall levelName level) as (w & dom & Hdom & Hw & Hexp); [by left|].
  rewrite (Prepare_loop_level _ _ _ dom) by done. rewrite Hw.
  destruct (Prepare_switch_explicit plan levelName dom w c cleanup gs Hprobe Hexp)
    as (c1 & cleanup1 & gs1 & -> & Hdb & Hblip).
  destruct (IH (Prepare_record levelName w dom c1) cleanup1 gs1) as [IH1 IH2].
  { simpl. by rewrite Hdb. }
  { intros name lv Hin. apply (Hall name lv). by right. }
  split; [done|]. intros (name & lv & [[= -> ->]|Hin]%elem_of_cons & Hb).
  - destruct Hb as (dom' & Hdom' & Hw' & _). simplify_eq.
    destruct (Hblip Hw') as [rd Hrd].
    erewrite Prepare_loop_keeps_reader; [done|].
    by rewrite Prepare_record_lagReader.
  - apply IH2. eauto.
Qed.

Lemma Prepare_switch_replCheck plan levelName dom writer c cleanup gs c' cleanup' gs' writer' :
  Prepare_switch plan levelName dom writer c cleanup gs = Next c' cleanup' gs' writer' →
  replCheck c' = replCheck c.
Proof.
  unfold Prepare_switch. intros Hsw.
  assert (Hblip : ∀ c1 new r,
    prepareBlip c levelName (blip.MonitorId plan) (blip.Plan_Name plan) (blip.Options dom)
      = (c1, new, r) → replCheck c1 = replCheck c).
  { intros c1 new r. unfold prepareBlip. destruct (lagReader c); by intros [= <- _ _]. }
  repeat case_decide;
    repeat match type of Hsw with
    | context [collectPFSv2 ?a ?b] => destruct (collectPFSv2 a b)
    | context [prepareBlip ?a ?b ?c ?d ?e] =>
        destruct (prepareBlip a b c d e) as [[??] []];
        specialize (Hblip _ _ _ eq_refl)
    end; simplify_eq; done.
Qed.

Lemma Prepare_loop_replCheck plan entries :
  ∀ c cleanup gs,
  is_Err (returned (Prepare_loop plan entries "" c cleanup gs)) = false →
  replCheck (receiver (Prepare_loop plan entries "" c cleanup gs))
  = last_replCheck entries (replCheck c).
Proof.
  induction entries as [|[levelName level] entries IH]; intros c cleanup gs Hok;
    [done|].
  destruct (blip.Collect level !! DOMAIN) as [dom|] eqn:Hdom.
  - rewrite (Prepare_loop_level _ _ _ dom) in Hok |- * by done.
    destruct (Prepare_switch _ _ _ _ _ _ _) as [r|c1 cleanup1 gs1 writer1] eqn:Hsw.
    { apply Prepare_switch_Return in Hsw. congruence. }
    rewrite IH by done. unfold last_replCheck. simpl. by rewrite Hdom.
  - rewrite Prepare_loop_skip in Hok |- * by done.
    rewrite IH by done. unfold last_replCheck. simpl. by rewrite Hdom.
Qed.

(** Once a reader exists, a level asking for [blip] leaves the local
    variable [cleanup] nil. *)
Lemma Prepare_loop_blip_again plan entries :
  ∀ c cleanup gs rd,
  lagReader c = Some rd →
  (∀ name level, (name, level) ∈ entries → explicit_writer level LAG_WRITER_BLIP) →
  returned (Prepare_loop plan entries "" c cleanup gs)
  = Ok (match entries with [] => cleanup | _ :: _ => None end).
Proof.
  induction entries as [|[levelName level] entries IH]; intros c cleanup gs rd Hrd Hall;
    [done|].
  destruct (Hall levelName level) as (dom & Hdom & Hw & _); [by left|].
  rewrite (Prepare_loop_level _ _ _ dom) by done. rewrite Hw.
  unfold Prepare_switch. rewrite decide_False by done. rewrite decide_True by done.
  rewrite (prepareBlip_reader _ rd) by done.
  rewrite (IH _ _ _ rd); [by destruct entries|done|].
  intros name lv Hin. apply (Hall name). by right.
Qed.

Lemma Prepare_loop_blip_twice plan entries c :
  lagReader c = None →
  (2 ≤ length entries)%nat →
  (∀ name level, (name, level) ∈ entries → explicit_writer level LAG_WRITER_BLIP) →
  returned (Prepare_loop plan entries "" c None []) = Ok None
  ∧ length (started (Prepare_loop plan entries "" c None [])) = 1%nat.
Proof.
  intros Hrd Hlen Hall.
  destruct entries as [|[levelName level] [|entry entries]]; simpl in Hlen; try lia.
  destruct (Hall levelName level) as (dom & Hdom & Hw & _); [by left|].
  pose proof (Prepare_loop_one_reader plan ((levelName, level) :: entry :: entries)
    c None []) as Hone.
  rewrite (Prepare_loop_level _ _ _ dom) in Hone |- * by done. rewrite Hw in Hone |- *.
  unfold Prepare_switch in Hone |- *.
  rewrite decide_False in Hone |- * by done. rewrite decide_True in Hone |- * by done.
  destruct (prepareBlip_no_reader c levelName (blip.MonitorId plan)
    (blip.Plan_Name plan) (blip.Options dom) Hrd) as (c2 & rd & Hp & Hrd' & _).
  rewrite Hp in Hone |- *.
  split.
  - rewrite (Prepare_loop_blip_again _ _ _ _ _ rd); [done|done|].
    intros name lv Hin. apply (Hall name). by right.
  - rewrite Hone; [|unfold one_reader; by rewrite Hrd].
    erewrite Prepare_loop_keeps_reader; [done|]. by rewrite Prepare_record_lagReader.
Qed.

(** What the [switch] may change in the map of writers. *)
Lemma Prepare_switch_lagWriterIn plan levelName dom writer c cleanup gs c' cleanup' gs' writer' :
  Prepare_switch plan levelName dom writer c cleanup gs = Next c' cleanup' gs' writer' →
  (writer' = LAG_WRITER_BLIP ∨ writer' = LAG_WRITER_PFS)
  ∧ (lagWriterIn c' = lagWriterIn c
     ∨ lagWriterIn c' = <[levelName := LAG_WRITER_BLIP]> (lagWriterIn c)).
Proof.
  unfold Prepare_switch. intros Hsw.
  assert (Hblip : ∀ c1 new r,
    prepareBlip c levelName (blip.MonitorId plan) (blip.Plan_Name plan) (blip.Options dom)
      = (c1, new, r) →
    lagWriterIn c1 = lagWriterIn c
    ∨ lagWriterIn c1 = <[levelName := LAG_WRITER_BLIP]> (lagWriterIn c)).
  { intros c1 new r. unfold prepareBlip.
    destruct (lagReader c); intros [= <- _ _]; auto. }
  repeat case_decide;
    repeat match type of Hsw with
    | context [collectPFSv2 ?a ?b] => destruct (collectPFSv2 a b)
    | context [prepareBlip ?a ?b ?c ?d ?e] =>
        destruct (prepareBlip a b c d e) as [[??] []];
        specialize (Hblip _ _ _ eq_refl)
    end; simplify_eq; auto.
Qed.

(** Every writer [Prepare] records is a resolved one, and it records
    writers for levels of the plan only. *)
Lemma Prepare_loop_writers plan entries :
  ∀ c cleanup gs,
  let c' := receiver (Prepare_loop plan entries "" c cleanup gs) in
  (writers_resolved c → writers_resolved c')
  ∧ (∀ name, name ∉ entries.*1 → lagWriterIn c' !! name = lagWriterIn c !! name).
Proof.
  induction entries as [|[levelName level] entries IH]; intros c cleanup gs;
    [done|].
  destruct (blip.Collect level !! DOMAIN) as [dom|] eqn:Hdom.
  - rewrite (Prepare_loop_level _ _ _ dom) by done.
    destruct (Prepare_switch _ _ _ _ _ _ _) as [r|c1 cleanup1 gs1 writer1] eqn:Hsw.
    + assert (Hr : lagWriterIn (receiver r) = lagWriterIn c
                   ∨ lagWriterIn (receiver r)
                     = <[levelName := LAG_WRITER_BLIP]> (lagWriterIn c)).
      { unfold Prepare_switch in Hsw.
        assert (Hblip : ∀ c1 new r,
          prepareBlip c levelName (blip.MonitorId plan) (blip.Plan_Name plan)
            (blip.Options dom) = (c1, new, r) →
          lagWriterIn c1 = lagWriterIn c
          ∨ lagWriterIn c1 = <[levelName := LAG_WRITER_BLIP]> (lagWriterIn c)).
        { intros c1 new r0. unfold prepareBlip.
          destruct (lagReader c); intros [= <- _ _]; auto. }
        repeat case_decide;
          repeat match type of Hsw with
          | context [collectPFSv2 ?a ?b] => destruct (collectPFSv2 a b)
          | context [prepareBlip ?a ?b ?c ?d ?e] =>
              destruct (prepareBlip a b c d e) as [[??] []];
              specialize (Hblip _ _ _ eq_refl)
          end; simplify_eq; auto. }
      simpl. split.
      * intros Hres l w. destruct Hr as [-> | ->]; [apply Hres|].
        destruct (decide (l = levelName)) as [->|].
        -- rewrite lookup_insert_eq. intros [= <-]. by left.
        -- rewrite lookup_insert_ne by done. apply Hres.
      * intros name Hname. destruct Hr as [-> | ->]; [done|].
        rewrite lookup_insert_ne; [done|]. intros ->. apply Hname. by left.
    + apply Prepare_switch_lagWriterIn in Hsw as [Hw1 Hc1].
      destruct (IH (Prepare_record levelName writer1 dom c1) cleanup1 gs1)
        as [IH1 IH2].
      simpl. split.
      * intros Hres. apply IH1. intros l w. simpl.
        destruct (decide (l = levelName)) as [->|].
        -- rewrite lookup_insert_eq. by intros [= <-].
        -- rewrite lookup_insert_ne by done.
           destruct Hc1 as [-> | ->]; [apply Hres|].
           rewrite lookup_insert_ne by done. apply Hres.
      * intros name Hname. rewrite IH2; [|intros ?; apply Hname; by right].
        simpl. rewrite lookup_insert_ne; [|intros ->; apply Hname; by left].
        destruct Hc1 as [-> | ->]; [done|].
        rewrite lookup_insert_ne; [done|]. intros ->. apply Hname. by left.
  - rewrite Prepare_loop_skip by done.
    destruct (IH c cleanup gs) as [IH1 IH2]. simpl. split; [done|].
    intros name Hname. apply IH2. intros ?. apply Hname. by right.
Qed.

(** The error of the [auto] case does say [auto-detect]. *)
Lemma auto_detect_message :
  Contains ("failed to auto-detect source, set " +:+ OPT_WRITER +:+ " manually")
           "auto-detect" = true.
Proof. reflexivity. Qed.

(** The [auto] case of the [switch] never returns: [prepareBlip] gives no
    error, so that error cannot be produced. *)
Lemma Prepare_switch_auto plan levelName dom writer c cleanup gs :
  writer = "auto" ∨ writer = "" →
  ∃ c' cleanup' gs' writer',
    Prepare_switch plan levelName dom writer c cleanup gs
    = Next c' cleanup' gs' writer'.
Proof.
  intros Hw. unfold Prepare_switch.
  rewrite decide_False by (by destruct Hw as [-> | ->]).
  rewrite decide_False by (by destruct Hw as [-> | ->]).
  rewrite decide_True by done.
  destruct (collectPFSv2 c levelName); [by eauto|].
  destruct (prepareBlip_Ok c levelName (blip.MonitorId plan) (blip.Plan_Name plan)
    (blip.Options dom)) as (c' & new & f & ->). by eauto.
Qed.

(** Every error [Prepare] returns is an error of the probe or the
    "invalid lag writer" error: the errors of lines 187 and 216 are never
    produced. *)
Lemma Prepare_switch_errors plan levelName dom writer c cleanup gs r e :
  Prepare_switch plan levelName dom writer c cleanup gs = Return r →
  returned r = Err e →
  collectPFSv2 c levelName = Err e
  ∨ e = "invalid lag writer: " +:+ fmt_q writer
        +:+ "; valid values: auto, pfs, blip".
Proof.
  unfold Prepare_switch. intros Hsw He.
  destruct (prepareBlip_Ok c levelName (blip.MonitorId plan) (blip.Plan_Name plan)
    (blip.Options dom)) as (c' & new & f & Hp).
  rewrite Hp in Hsw.
  repeat case_decide;
    repeat match type of Hsw with
    | context [collectPFSv2 ?a ?b] =>
        destruct (collectPFSv2 a b) eqn:?
    end; simplify_eq; simpl in He; simplify_eq; auto.
Qed.

Lemma Prepare_loop_errors plan entries :
  ∀ c cleanup gs e,
  returned (Prepare_loop plan entries "" c cleanup gs) = Err e →
  (∃ c' levelName, collectPFSv2 c' levelName = Err e)
  ∨ ∃ writer, e = "invalid lag writer: " +:+ fmt_q writer
                  +:+ "; valid values: auto, pfs, blip".
Proof.
  induction entries as [|[levelName level] entries IH]; intros c cleanup gs e He;
    [done|].
  destruct (blip.Collect level !! DOMAIN) as [dom|] eqn:Hdom.
  - rewrite (Prepare_loop_level _ _ _ dom) in He by done.
    destruct (Prepare_switch _ _ _ _ _ _ _) as [r|c1 cleanup1 gs1 writer1] eqn:Hsw.
    + destruct (Prepare_switch_errors _ _ _ _ _ _ _ _ _ Hsw He); by eauto.
    + by eapply IH.
  - rewrite Prepare_loop_skip in He by done. by eapply IH.
Qed.

(** Entries of a visit and entries of the map. *)
Lemma elem_of_range range {A} (m : gmap string A) k v :
  valid_range range → (k, v) ∈ range A m ↔ m !! k = Some v.
Proof. intros Hr. rewrite (Hr A m). apply elem_of_map_to_list. Qed.

Lemma NoDup_range range {A} (m : gmap string A) :
  valid_range range → NoDup (range A m).*1.
Proof. intros Hr. rewrite (Hr A m). apply NoDup_fst_map_to_list. Qed.

Lemma length_range range {A} (m : gmap string A) :
  valid_range range → length (range A m) = size m.
Proof. intros Hr. rewrite (Hr A m). apply length_map_to_list. Qed.

Lemma range_singleton range {A} (k : string) (v : A) :
  valid_range range → range A {[ k := v ]} = [(k, v)].
Proof.
  intros Hr. apply Permutation_singleton_r.
  rewrite (Hr A). by rewrite map_to_list_singleton.
Qed.

(** C1.  The check that compares a level's writer with the writer
    configured first is never taken, because [configured] stays empty.
    So when the performance-schema probe succeeds, [Prepare] returns no
    error on every plan whose levels each name a writer, [blip] or [pfs],
    whether or not the writers agree; and as soon as one level names
    [blip], one reader has been started and is still running when
    [Prepare] returns. *)
Theorem Prepare_accepts_different_writers range c plan :
  valid_range range →
  probe_succeeds (db c) →
  lagReader c = None →
  (∀ name level, blip.Levels plan !! name = Some level →
     ∃ writer, explicit_writer level writer) →
  let p := Prepare range c plan in
  is_Err (returned p) = false
  ∧ ((∃ name level, blip.Levels plan !! name = Some level
        ∧ explicit_writer level LAG_WRITER_BLIP) →
     length (started p) = 1%nat).
Proof.
  intros Hrange Hprobe Hrd Hall. unfold Prepare. simpl.
  destruct (Prepare_loop_explicit plan (range _ (blip.Levels plan)) c None []
    Hprobe) as [Hok Hblip].
  { intros name level Hin. apply (Hall name). by apply (elem_of_range range). }
  split; [done|]. intros (name & level & Hlv & Hw).
  destruct Hblip as [rd Hrd'].
  { exists name, level. split; [|done]. by apply (elem_of_range range). }
  rewrite (Prepare_loop_one_reader plan _ c None []).
  - by rewrite Hrd'.
  - unfold one_reader. by rewrite Hrd.
Qed.

(** C3.  With two or more levels that all ask for [blip], on a collector
    with no reader yet, [Prepare] returns no error and starts one reader,
    but the cleanup function it returns is nil: the second call of
    [prepareBlip] finds the reader and hands back a nil function, which
    overwrites the stop function kept from the first call. *)
Theorem Prepare_blip_twice_returns_nil_cleanup range c plan :
  valid_range range →
  lagReader c = None →
  (2 ≤ size (blip.Levels plan))%nat →
  (∀ name level, blip.Levels plan !! name = Some level →
     explicit_writer level LAG_WRITER_BLIP) →
  let p := Prepare range c plan in
  returned p = Ok None ∧ length (started p) = 1%nat.
Proof.
  intros Hrange Hrd Hsize Hall. unfold Prepare. simpl.
  apply Prepare_loop_blip_twice; [done| |].
  - by rewrite (length_range range).
  - intros name level Hin. apply (Hall name). by apply (elem_of_range range).
Qed.

End PrepareFacts.

(** ** Collect *)

Section CollectFacts.

Import repllag.

Context `{V : PFSv2}.

(** The dispatch of [Collect] on the writer recorded for the level. *)
Lemma Collect_blip sample c levelName :
  index (lagWriterIn c) levelName = LAG_WRITER_BLIP →
  Collect sample c levelName = collectBlip sample c levelName.
Proof. intros Hw. unfold Collect. by rewrite decide_True. Qed.

Lemma Collect_pfs sample c levelName :
  index (lagWriterIn c) levelName = LAG_WRITER_PFS →
  Collect sample c levelName = Returns (collectPFSv2 c levelName).
Proof.
  intros Hw. unfold Collect. rewrite Hw.
  rewrite decide_False by done. by rewrite decide_True.
Qed.


(** [collectPFS] on a server that says "not a replica". *)
Lemma collectPFS_not_a_replica c levelName :
  pfs_not_a_replica c →
  collectPFS c levelName = Ok (defaultLag c levelName).
Proof.
  unfold collectPFS.
  intros [[Hcheck Hq]|[Hcheck (lagValue & Hq & Hv)]].
  - rewrite decide_True by done. rewrite Hq. by rewrite decide_True.
  - rewrite decide_False by (by intros ?). rewrite decide_False by done.
    rewrite Hq, Hv. simpl. by rewrite decide_True.
Qed.

(** C8.  [Collect] on a level name for which the collector holds no
    writer panics: it neither returns metrics nor an error. *)
Theorem Collect_unprepared_level_panics
    (sample : heartbeat.BlipReader → result heartbeat.Lag) c levelName :
  lagWriterIn c !! levelName = None →
  Collect sample c levelName
  = Panics ("invalid lag writer in Collect " +:+ fmt_q ""
            +:+ " in level " +:+ fmt_q levelName
            +:+ ". All levels: " +:+ fmt_v (lagWriterIn c)).
Proof.
  intros Hnone. unfold Collect, index. rewrite Hnone. reflexivity.
Qed.

(** After [Prepare] on a new collector, a level name that is not in the
    plan has no writer, and the writers held are [blip] or [pfs]: the
    levels on which [Collect] panics are those without a writer. *)
Lemma Prepare_writers range database plan :
  valid_range range →
  let c := receiver (Prepare range (NewLag database) plan) in
  writers_resolved c
  ∧ (∀ levelName, blip.Levels plan !! levelName = None →
       lagWriterIn c !! levelName = None).
Proof.
  intros Hrange. simpl. unfold Prepare.
  destruct (Prepare_loop_writers plan (range _ (blip.Levels plan))
    (NewLag database) None []) as [Hres Hother].
  split.
  - apply Hres. intros l w Hl. simpl in Hl. by rewrite lookup_empty in Hl.
  - intros l Hl. rewrite Hother; [done|].
    intros ((k & lv) & -> & Hin)%list_elem_of_fmap.
    apply (elem_of_range range) in Hin; [|done]. simpl in Hl. congruence.
Qed.

Lemma Collect_returns sample c levelName writer :
  writers_resolved c →
  lagWriterIn c !! levelName = Some writer →
  is_Some (lagReader c) →
  ∃ r, Collect sample c levelName = Returns r.
Proof.
  intros Hres Hw [rd Hrd]. unfold Collect, index. rewrite Hw. simpl.
  destruct (Hres _ _ Hw) as [-> | ->].
  - rewrite decide_True by done. unfold collectBlip. rewrite Hrd.
    destruct (sample rd) as [lag|e]; [|by eauto].
    repeat case_match; by eauto.
  - rewrite decide_False by done. rewrite decide_True by done. by eauto.
Qed.

End CollectFacts.

(** ** The lag query *)

Section QueryFacts.

Import mysql.

Variable GTID_SUBTRACT : string → string → string.

Lemma MIN_Z_Some (xs : list (option Z)) y :
  Some y ∈ xs → is_Some (MIN_Z xs).
Proof.
  induction xs as [|[x|] xs IH]; intros Hy.
  - by apply elem_of_nil in Hy.
  - simpl. fold (MIN_Z xs). destruct (MIN_Z xs); by eauto.
  - simpl. apply IH. by apply elem_of_cons in Hy as [?|?].
Qed.

Lemma MIN_Z_lower (k : Z) (xs : list (option Z)) m :
  MIN_Z xs = Some m →
  (∀ x, Some x ∈ xs → k ≤ x) →
  k ≤ m.
Proof.
  revert m. induction xs as [|[x|] xs IH]; intros m Hm Hall; [done| |].
  - simpl in Hm. fold (MIN_Z xs) in Hm.
    assert (k ≤ x) by (apply Hall; by left).
    destruct (MIN_Z xs) as [a|]; [|by simplify_eq].
    assert (k ≤ a) by (apply IH; [done|]; intros z Hz; apply Hall; by right).
    simplify_eq. lia.
  - simpl in Hm. apply IH; [done|]. intros z Hz. apply Hall. by right.
Qed.

Lemma MIN_Z_bound (k : Z) (xs : list (option Z)) :
  (∀ x, Some x ∈ xs → k ≤ x) →
  (∃ x, Some x ∈ xs) →
  ∃ m, MIN_Z xs = Some m ∧ k ≤ m.
Proof.
  intros Hall [y Hy]. destruct (MIN_Z_Some xs y Hy) as [m Hm].
  exists m. split; [done|]. by apply (MIN_Z_lower k xs).
Qed.

Lemma MIN_Z_le (xs : list (option Z)) m x :
  MIN_Z xs = Some m → Some x ∈ xs → m ≤ x.
Proof.
  revert m. induction xs as [|[y|] xs IH]; intros m Hm Hx.
  - by apply elem_of_nil in Hx.
  - simpl in Hm. fold (MIN_Z xs) in Hm.
    apply elem_of_cons in Hx as [[= ->]|Hx].
    + destruct (MIN_Z xs); simplify_eq; lia.
    + destruct (MIN_Z xs) as [a|] eqn:Ha.
      * specialize (IH a eq_refl Hx). simplify_eq. lia.
      * destruct (MIN_Z_Some xs x Hx) as [? ?]. congruence.
  - simpl in Hm. apply elem_of_cons in Hx as [?|Hx]; [done|]. by apply IH.
Qed.

(** The channel is idle exactly when some transaction was queued on the
    joined channels and each of them, hence the most recent, is at least
    two whole minutes older than [NOW()]. *)
Lemma queue_status_IDLE srv :
  queue_status srv = IDLE
  ↔ queued_ages srv ≠ [] ∧ ∀ age, age ∈ queued_ages srv → 120000000 ≤ age.
Proof.
  assert (Hages : ∀ age, age ∈ queued_ages srv
            ↔ ∃ ws, ws ∈ joined srv
                ∧ TIMESTAMPDIFF_MICROSECOND
                    (LAST_QUEUED_TRANSACTION_ORIGINAL_COMMIT_TIMESTAMP ws.2)
                    (NOW 0 srv) = Some age).
  { intros age. unfold queued_ages. apply list_elem_of_omap. }
  assert (Hmins : ∀ x,
     Some x ∈ map (λ ws : applier_status_by_worker * connection_status,
                     TIMESTAMPDIFF_MINUTE
                       (LAST_QUEUED_TRANSACTION_ORIGINAL_COMMIT_TIMESTAMP ws.2)
                       (NOW 0 srv)) (joined srv)
     ↔ ∃ age, age ∈ queued_ages srv ∧ x = Z.quot age 60000000).
  { intros x. split.
    - intros (ws & Hx & Hin)%list_elem_of_fmap.
      destruct (LAST_QUEUED_TRANSACTION_ORIGINAL_COMMIT_TIMESTAMP ws.2)
        as [t|] eqn:Ht; [|done].
      simpl in Hx. injection Hx as ->. eexists. split; [|done].
      apply Hages. exists ws. split; [done|]. by rewrite Ht.
    - intros (age & (ws & Hin & Hd)%Hages & ->).
      apply list_elem_of_fmap. exists ws. split; [|done].
      destruct (LAST_QUEUED_TRANSACTION_ORIGINAL_COMMIT_TIMESTAMP ws.2)
        as [t|]; [|done].
      simpl in Hd |- *. by injection Hd as <-. }
  unfold queue_status, queue_minutes. split.
  - destruct (MIN_Z _) as [m|] eqn:Hm; [|done].
    case_bool_decide as Hgt; [|done]. intros _. split.
    + intros Hnil.
      assert (Hin : ∃ x, Some x ∈ map (λ ws : applier_status_by_worker * connection_status,
                     TIMESTAMPDIFF_MINUTE
                       (LAST_QUEUED_TRANSACTION_ORIGINAL_COMMIT_TIMESTAMP ws.2)
                       (NOW 0 srv)) (joined srv)).
      { clear -Hm. induction (map _ _) as [|[y|] ys IH]; [done| |].
        - exists y. by left.
        - destruct IH as [x Hx]; [done|]. exists x. by right. }
      destruct Hin as (x & (age & Hage & _)%Hmins).
      rewrite Hnil in Hage. by apply elem_of_nil in Hage.
    + intros age Hage.
      assert (m ≤ Z.quot age 60000000).
      { apply (MIN_Z_le _ _ _ Hm). apply Hmins. eauto. }
      destruct (decide (120000000 ≤ age)) as [|Hlt]; [done|]. exfalso.
      assert (Z.quot age 60000000 ≤ 1); [|lia].
      destruct (decide (0 ≤ age)).
      * apply Z.lt_succ_r. apply Z.quot_lt_upper_bound; lia.
      * assert (Z.quot age 60000000 ≤ 0); [|lia].
        rewrite <- (Z.opp_involutive age), Z.quot_opp_l by lia.
        assert (0 ≤ Z.quot (- age) 60000000); [|lia].
        apply Z.quot_pos; lia.
  - intros [Hsome Hold].
    destruct (MIN_Z_bound 2 (map (λ ws : applier_status_by_worker * connection_status,
                     TIMESTAMPDIFF_MINUTE
                       (LAST_QUEUED_TRANSACTION_ORIGINAL_COMMIT_TIMESTAMP ws.2)
                       (NOW 0 srv)) (joined srv))) as (m & -> & Hm).
    + intros x (age & Hage & ->)%Hmins.
      apply Z.quot_le_lower_bound; [lia|]. specialize (Hold age Hage). lia.
    + destruct (queued_ages srv) as [|age ages] eqn:Hq; [done|].
      exists (Z.quot age 60000000). apply Hmins. exists age. split; [by left|done].
    + by rewrite bool_decide_eq_true_2 by lia.
Qed.

Lemma latest_applied_Some srv w ws :
  replication_applier_status_by_worker srv = w :: ws →
  is_Some (latest_applied srv).
Proof.
  unfold latest_applied. intros ->. simpl.
  destruct (foldr _ _ ws); [case_bool_decide|]; by eauto.
Qed.

Lemma joined_workers srv ws :
  ws ∈ joined srv → replication_applier_status_by_worker srv ≠ [].
Proof.
  unfold joined. intros Hin Hnil. rewrite Hnil in Hin.
  by apply elem_of_nil in Hin.
Qed.

(** C9.  When every transaction queued on the joined channels, hence the
    most recent one, is at least two whole minutes older than [NOW()],
    the query returns one row and its [lagMs] is exactly 0, whatever the
    applier and queue latencies are. *)
Theorem idle_channel_lag_is_zero srv :
  queued_ages srv ≠ [] →
  (∀ age, age ∈ queued_ages srv → 120000000 ≤ age) →
  lagMs GTID_SUBTRACT srv = Some (Some 0%Q).
Proof.
  intros Hsome Hold.
  assert (Hidle : queue_status srv = IDLE) by (by apply queue_status_IDLE).
  assert (Hrow : is_Some (latest_applied srv)).
  { destruct (queued_ages srv) as [|age ages] eqn:Hages; [done|].
    assert (Hin : age ∈ queued_ages srv) by (rewrite Hages; by left).
    unfold queued_ages in Hin.
    apply list_elem_of_omap in Hin as (ws & Hin & _).
    apply joined_workers in Hin.
    destruct (replication_applier_status_by_worker srv) as [|w ws'] eqn:Hw;
      [done|]. by eapply latest_applied_Some. }
  destruct Hrow as [w Hw].
  unfold lagMs, applier_latency. by rewrite Hw, Hidle.
Qed.

End QueryFacts.

(** ** The statements on concrete servers and plans *)

Section Runs.

Import repllag scenario.

Lemma replica_db_probe : @probe_succeeds external pfs replica_db.
Proof.
  intros c levelName Hdb. simpl. unfold collectPFS. rewrite Hdb.
  destruct (decide (replCheck c ≠ "")); reflexivity.
Defined.

Lemma lag_level_explicit name freq writer :
  writer = LAG_WRITER_BLIP ∨ writer = LAG_WRITER_PFS →
  @explicit_writer (lag_level name freq {[ OPT_WRITER := writer ]}) writer.
Proof.
  intros Hw. eexists. split; [apply lookup_singleton_eq|]. simpl.
  split; [|done]. unfold index. by rewrite lookup_singleton_eq.
Defined.

Lemma mixed_plan_explicit name level :
  blip.Levels mixed_plan !! name = Some level → ∃ writer, explicit_writer level writer.
Proof.
  intros Hl. simpl in Hl.
  apply lookup_insert_Some in Hl as [[_ <-]|[_ Hl]].
  { eexists. apply lag_level_explicit. by left. }
  apply lookup_insert_Some in Hl as [[_ <-]|[_ Hl]].
  { eexists. apply lag_level_explicit. by right. }
  by rewrite lookup_empty in Hl.
Defined.

Lemma two_blip_plan_explicit name level :
  blip.Levels two_blip_plan !! name = Some level →
  explicit_writer level LAG_WRITER_BLIP.
Proof.
  intros Hl. simpl in Hl.
  apply lookup_insert_Some in Hl as [[_ <-]|[_ Hl]].
  { apply lag_level_explicit. by left. }
  apply lookup_insert_Some in Hl as [[_ <-]|[_ Hl]].
  { apply lag_level_explicit. by left. }
  by rewrite lookup_empty in Hl.
Defined.

(** Levels [a] on [blip] and [b] on [pfs], in both orders of visit: no
    error, both writers recorded, one reader running. *)
Example mixed_plan_is_accepted :
  let p := @Prepare external pfs forwards (NewLag replica_db) mixed_plan in
  let q := @Prepare external pfs backwards (NewLag replica_db) mixed_plan in
  returned p = Ok (Some (StopReader "db1"))
  ∧ lagWriterIn (receiver p) !! "a" = Some "blip"
  ∧ lagWriterIn (receiver p) !! "b" = Some "pfs"
  ∧ length (started p) = 1%nat
  ∧ returned q = Ok (Some (StopReader "db1"))
  ∧ lagWriterIn (receiver q) !! "a" = Some "blip"
  ∧ lagWriterIn (receiver q) !! "b" = Some "pfs"
  ∧ length (started q) = 1%nat.
Proof. cbv zeta. split_and!; reflexivity. Qed.

(** The same plan on a server without performance schema, [blip] visited
    first: the probe's error is returned, with the reader already
    running and no function to stop it. *)
Example mixed_plan_failed_probe_leaves_reader :
  let p := @Prepare external pfs forwards (NewLag bare_db) mixed_plan in
  is_Err (returned p) = true ∧ length (started p) = 1%nat.
Proof. cbv zeta. split_and!; reflexivity. Qed.

Lemma Prepare_accepts_different_writers_witness :
  let p := @Prepare external pfs forwards (NewLag replica_db) mixed_plan in
  is_Err (returned p) = false
  ∧ ((∃ name level, blip.Levels mixed_plan !! name = Some level
        ∧ explicit_writer level LAG_WRITER_BLIP) →
     length (started p) = 1%nat).
Proof.
  exact (@Prepare_accepts_different_writers external pfs forwards
           (NewLag replica_db) mixed_plan valid_range_forwards
           replica_db_probe eq_refl mixed_plan_explicit).
Defined.

(** Two levels on [blip]: the function returned is nil. *)
Example two_blip_plan_returns_nil :
  let p := @Prepare external pfs forwards (NewLag replica_db) two_blip_plan in
  let q := @Prepare external pfs backwards (NewLag replica_db) two_blip_plan in
  returned p = Ok None ∧ length (started p) = 1%nat
  ∧ returned q = Ok None ∧ length (started q) = 1%nat.
Proof. cbv zeta. split_and!; reflexivity. Qed.

Lemma two_blip_plan_size : (2 ≤ size (blip.Levels two_blip_plan))%nat.
Proof. vm_compute. constructor. Defined.

Lemma Prepare_blip_twice_returns_nil_cleanup_witness :
  let p := @Prepare external pfs forwards (NewLag replica_db) two_blip_plan in
  returned p = Ok None ∧ length (started p) = 1%nat.
Proof.
  exact (@Prepare_blip_twice_returns_nil_cleanup external pfs forwards
           (NewLag replica_db) two_blip_plan valid_range_forwards eq_refl
           two_blip_plan_size two_blip_plan_explicit).
Defined.

(** A single level on auto-detection, on a server where the probe fails:
    [Prepare] returns the stop function and no error, with one reader
    running. *)
Example auto_plan_starts_the_reader :
  let p := @Prepare external pfs forwards (NewLag bare_db) auto_plan in
  is_Err (@collectPFSv2 external pfs (NewLag bare_db) "a") = true
  ∧ returned p = Ok (Some (StopReader "db1"))
  ∧ length (started p) = 1%nat.
Proof. cbv zeta. split_and!; reflexivity. Qed.


(** The four cases of the drop policy on a source: heartbeat and
    performance schema, report-not-a-replica unset and [yes]. *)
Example not_a_replica_runs :
  let drop := receiver (@Prepare external pfs forwards (NewLag source_db)
                          two_blip_plan) in
  let report := receiver (@Prepare external pfs forwards (NewLag source_db)
                            report_plan) in
  @Collect external pfs source_sample drop "a" = Returns (Ok [])
  ∧ @Collect external pfs source_sample report "a"
    = Returns (Ok [@current external 0 {[ "source" := "src1" ]}])
  ∧ @collectPFS external (set_replCheck "read_only" drop) "a" = Ok []
  ∧ @collectPFS external (set_replCheck "read_only" report) "a"
    = Ok [@current external (-1) ∅].
Proof. cbv zeta. split_and!; reflexivity. Qed.

(** On the inconsistent server with a check configured the call is an
    error; with none, the default: here nothing is recorded for the
    level, so the sentinel -1. *)
Example collectPFS_null_lag_runs :
  is_Err (@collectPFS external
            (set_replCheck "read_only" (NewLag inconsistent_db)) "a") = true
  ∧ @collectPFS external (NewLag inconsistent_db) "a"
    = Ok [@current external (-1) ∅].
Proof. cbv zeta. split_and!; reflexivity. Qed.

Lemma Collect_unprepared_level_panics_witness :
  let c := receiver (@Prepare external pfs forwards (NewLag replica_db) report_plan) in
  @Collect external pfs source_sample c "b"
  = Panics ("invalid lag writer in Collect " +:+ @fmt_q external ""
            +:+ " in level " +:+ @fmt_q external "b"
            +:+ ". All levels: " +:+ @fmt_v external (lagWriterIn c)).
Proof.
  apply (@Collect_unprepared_level_panics external pfs).
  vm_compute. reflexivity.
Defined.

(** The two visits of the plan whose levels carry [read_only] and
    [super_read_only]. *)
Example checks_plan_runs :
  replCheck (receiver (@Prepare external pfs forwards (NewLag replica_db)
               (checks_plan "read_only" "super_read_only"))) = "super_read_only"
  ∧ replCheck (receiver (@Prepare external pfs backwards (NewLag replica_db)
                 (checks_plan "read_only" "super_read_only"))) = "read_only".
Proof. cbv zeta. split_and!; reflexivity. Qed.

(** C9, as stated, fails here: the last transaction was queued 90
    seconds before [NOW()], more than one minute, and the lag reported is
    the applier latency, 5000 ms. *)
Lemma quiet_channel_reports_latency :
  mysql.queued_ages quiet_server = [90000000]
  ∧ mysql.queue_status quiet_server = mysql.ACTIVE
  ∧ mysql.lagMs no_gtid quiet_server = Some (Some (5000000 # 1000)%Q)
  ∧ Qeq_bool (5000000 # 1000) 0 = false.
Proof. cbv zeta. split_and!; reflexivity. Qed.

Lemma idle_server_ages age :
  age ∈ mysql.queued_ages idle_server → 120000000 ≤ age.
Proof.
  intros Hin. change (mysql.queued_ages idle_server) with [270000000] in Hin.
  apply list_elem_of_singleton in Hin. subst. discriminate.
Defined.

Lemma idle_channel_lag_is_zero_witness :
  mysql.lagMs no_gtid idle_server = Some (Some 0%Q).
Proof.
  apply (idle_channel_lag_is_zero no_gtid idle_server).
  - discriminate.
  - apply idle_server_ages.
Defined.

End Runs.


(** * Further properties *)

(** ** The interpolation passes *)

Section MorePlanFacts.

Import blip.

Context {ConfigMonitor : Type}.
Variable interpolateEnv : string → string.
Variable interpolateMon : ConfigMonitor → string → string.

Lemma mapPlanOptions_ext f g p :
  (∀ levelName domainName k v,
     optionsOf p levelName domainName !! k = Some v → f v = g v) →
  mapPlanOptions f p = mapPlanOptions g p.
Proof.
  intros Hfg. unfold mapPlanOptions. f_equal.
  apply map_fmap_ext; intros l lv Hl.
  unfold mapLevelOptions. f_equal.
  apply map_fmap_ext; intros d dm Hd.
  unfold mapDomainOptions. f_equal.
  apply map_fmap_ext; intros k v Hk.
  apply (Hfg l d k). unfold optionsOf, collectOf. by rewrite Hl, Hd.
Qed.

Lemma mapPlanOptions_id p : mapPlanOptions (λ v, v) p = p.
Proof.
  destruct p as [n ls mid]. unfold mapPlanOptions; simpl. f_equal.
  rewrite <- (map_fmap_id ls) at 2. apply map_fmap_ext; intros l [ln fr co] _.
  unfold mapLevelOptions; simpl. f_equal.
  rewrite <- (map_fmap_id co) at 2. apply map_fmap_ext; intros d [dn os ms] _.
  unfold mapDomainOptions; simpl. f_equal. apply map_fmap_id.
Qed.

(** X1.  The plan each interpolation pass leaves does not depend on the
    order in which the three loops visit the maps: two visits in any two
    orders give the same plan. *)
Theorem Interpolate_order_independent
    (range1 range2 : range_order) (mon : ConfigMonitor) (p : Plan) :
  valid_range range1 → valid_range range2 →
  InterpolateEnvVars interpolateEnv range1 p
  = InterpolateEnvVars interpolateEnv range2 p
  ∧ InterpolateMonitor interpolateMon range1 mon p
    = InterpolateMonitor interpolateMon range2 mon p.
Proof.
  intros H1 H2. unfold InterpolateEnvVars, InterpolateMonitor.
  by rewrite !rangeLevels_map.
Qed.

(** X2.  When the substitution leaves its own results alone on the
    option values of the plan, running [InterpolateEnvVars] a second time
    changes nothing. *)
Theorem InterpolateEnvVars_twice
    (range1 range2 : range_order) (p : Plan) :
  valid_range range1 → valid_range range2 →
  (∀ levelName domainName k v,
     optionsOf p levelName domainName !! k = Some v →
     interpolateEnv (interpolateEnv v) = interpolateEnv v) →
  InterpolateEnvVars interpolateEnv range2
    (InterpolateEnvVars interpolateEnv range1 p)
  = InterpolateEnvVars interpolateEnv range1 p.
Proof.
  intros H1 H2 Hidem. unfold InterpolateEnvVars.
  rewrite !rangeLevels_map by done. rewrite mapPlanOptions_compose.
  apply mapPlanOptions_ext. intros l d k v Hv. simpl. by apply (Hidem l d k).
Qed.

(** X3.  A plan none of whose domains carries an option comes out of
    both passes as it went in, whatever the substitutions are. *)
Theorem Interpolate_without_options
    (range1 range2 : range_order) (mon : ConfigMonitor) (p : Plan) :
  valid_range range1 → valid_range range2 →
  no_options p →
  InterpolateMonitor interpolateMon range2 mon
    (InterpolateEnvVars interpolateEnv range1 p) = p.
Proof.
  intros H1 H2 Hno. unfold InterpolateEnvVars, InterpolateMonitor.
  rewrite !rangeLevels_map by done. rewrite mapPlanOptions_compose.
  rewrite <- (mapPlanOptions_id p) at 2.
  apply mapPlanOptions_ext. intros l d k v Hv. exfalso.
  unfold optionsOf, collectOf in Hv.
  destruct (Levels p !! l) as [lv|] eqn:Hl; [|by rewrite lookup_empty in Hv].
  destruct (Collect lv !! d) as [dm|] eqn:Hd; [|by rewrite lookup_empty in Hv].
  rewrite (Hno l lv d dm Hl Hd) in Hv. by rewrite lookup_empty in Hv.
Qed.

End MorePlanFacts.

(** ** The built-in plans *)

Section BuiltinPlans.

Import blip.

(** X23.  The names in the two built-in plans.  In [PromPlan] every level
    and every domain carries the key of its map as its [Name].  In
    [InternalLevelPlan] every level does, and every domain but one: the
    domain held under [innodb] in the level [performance] has an empty
    [Name]. *)
Theorem builtin_plans_names :
  named_by_key PromPlan
  ∧ (∀ levelName level,
       Levels InternalLevelPlan !! levelName = Some level →
       Level_Name level = levelName
       ∧ ∀ domainName dom, Collect level !! domainName = Some dom →
           Domain_Name dom = domainName
           ∨ (levelName = "performance" ∧ domainName = "innodb"
              ∧ Domain_Name dom = ""))
  ∧ ¬ named_by_key InternalLevelPlan.
Proof.
  split_and!.
  - intros l lv Hl. unfold PromPlan in Hl. simpl in Hl.
    apply lookup_singleton_Some in Hl as [<- <-].
    split; [done|]. intros d dom Hd. simpl in Hd.
    repeat (apply lookup_insert_Some in Hd as [[<- <-]|[_ Hd]]; [done|]).
    by rewrite lookup_empty in Hd.
  - intros l lv Hl. simpl in Hl.
    repeat (apply lookup_insert_Some in Hl as [[<- <-]|[_ Hl]];
      [split; [done|]; intros d dom Hd; simpl in Hd;
       repeat (apply lookup_insert_Some in Hd as [[<- <-]|[_ Hd]];
                 [by auto|]);
       first [ by rewrite lookup_empty in Hd
             | apply lookup_singleton_Some in Hd as [<- <-]; by left ]|]).
    by rewrite lookup_empty in Hl.
  - intros Hnamed.
    destruct (Hnamed "performance" _ eq_refl) as [_ Hdom].
    by specialize (Hdom "innodb" _ eq_refl).
Qed.

End BuiltinPlans.


(** ** Prepare *)

Section MorePrepareFacts.

Import repllag.

Context `{V : PFSv2}.

Lemma Prepare_loop_no_domain plan entries c cleanup gs :
  (∀ name level, (name, level) ∈ entries → blip.Collect level !! DOMAIN = None) →
  Prepare_loop plan entries "" c cleanup gs
  = {| returned := Ok cleanup; receiver := c; started := gs |}.
Proof.
  induction entries as [|[levelName level] entries IH]; intros Hall; [done|].
  rewrite Prepare_loop_skip by (apply (Hall levelName); by left).
  apply IH. intros name lv Hin. apply (Hall name). by right.
Qed.

(** X4.  On a plan in which no level collects the domain, [Prepare]
    does nothing: it returns a nil function and a nil error, leaves the
    collector as it was, and starts no reader. *)
Theorem Prepare_without_domain range c plan :
  valid_range range →
  (∀ name level, blip.Levels plan !! name = Some level →
     blip.Collect level !! DOMAIN = None) →
  Prepare range c plan
  = {| returned := Ok None; receiver := c; started := [] |}.
Proof.
  intros Hrange Hall. unfold Prepare. apply Prepare_loop_no_domain.
  intros name level Hin. apply (Hall name). by apply (elem_of_range range).
Qed.

(** X5.  Whatever the plan, the order of visit and the outcome, [Prepare]
    on a collector without a reader starts at most one reader, and the
    reader it started is the one the collector holds afterwards. *)
Theorem Prepare_starts_at_most_one_reader range c plan :
  lagReader c = None →
  let p := Prepare range c plan in
  started p = match lagReader (receiver p) with Some r => [r] | None => [] end
  ∧ (length (started p) ≤ 1)%nat.
Proof.
  intros Hrd. simpl. unfold Prepare.
  pose proof (Prepare_loop_one_reader plan (range _ (blip.Levels plan)) c None [])
    as Hone.
  unfold one_reader in Hone. rewrite Hrd in Hone. specialize (Hone eq_refl).
  split; [done|]. rewrite Hone.
  case_match; simpl; lia.
Qed.

Lemma Prepare_switch_started_with_reader plan levelName dom writer c cleanup gs rd :
  lagReader c = Some rd →
  match Prepare_switch plan levelName dom writer c cleanup gs with
  | Return r => started r = gs
  | Next _ _ gs' _ => gs' = gs
  end.
Proof.
  intros Hrd. unfold Prepare_switch.
  rewrite !(prepareBlip_reader _ rd) by done.
  repeat case_decide;
    repeat match goal with
    | |- context [collectPFSv2 ?a ?b] => destruct (collectPFSv2 a b)
    end; simpl; by rewrite ?app_nil_r.
Qed.

Lemma Prepare_loop_started_with_reader plan entries :
  ∀ c cleanup gs rd,
  lagReader c = Some rd →
  started (Prepare_loop plan entries "" c cleanup gs) = gs.
Proof.
  induction entries as [|[levelName level] entries IH]; intros c cleanup gs rd Hrd;
    [done|].
  destruct (blip.Collect level !! DOMAIN) as [dom|] eqn:Hdom.
  - rewrite (Prepare_loop_level _ _ _ dom) by done.
    pose proof (Prepare_switch_started_with_reader plan levelName dom
      (index (blip.Options dom) OPT_WRITER) c cleanup gs rd Hrd) as Hgs.
    pose proof (Prepare_switch_keeps_reader plan levelName dom
      (index (blip.Options dom) OPT_WRITER) c cleanup gs rd Hrd) as Hkeep.
    destruct (Prepare_switch _ _ _ _ _ _ _) as [r|c1 cleanup1 gs1 writer1];
      [done|]. subst gs1. by apply (IH _ _ _ rd).
  - rewrite Prepare_loop_skip by done. by apply (IH _ _ _ rd).
Qed.

(** X6.  [Prepare] on a collector that already holds a reader keeps that
    reader and starts none, whatever the plan asks for. *)
Theorem Prepare_keeps_existing_reader range c plan rd :
  lagReader c = Some rd →
  let p := Prepare range c plan in
  lagReader (receiver p) = Some rd ∧ started p = [].
Proof.
  intros Hrd. simpl. unfold Prepare. split.
  - by apply Prepare_loop_keeps_reader.
  - by apply (Prepare_loop_started_with_reader _ _ _ _ _ rd).
Qed.

Lemma Prepare_switch_invalid plan levelName dom writer c cleanup gs :
  writer ≠ LAG_WRITER_PFS → writer ≠ LAG_WRITER_BLIP →
  writer ≠ "auto" → writer ≠ "" →
  Prepare_switch plan levelName dom writer c cleanup gs
  = Return {| returned :=
                Err ("invalid lag writer: " +:+ fmt_q writer
                     +:+ "; valid values: auto, pfs, blip");
              receiver := c; started := gs |}.
Proof.
  intros H1 H2 H3 H4. unfold Prepare_switch.
  rewrite decide_False by done. rewrite decide_False by done.
  rewrite decide_False by (by intros [?|?]). done.
Qed.

Lemma Prepare_loop_invalid plan entries :
  ∀ c cleanup gs,
  (∃ name level, (name, level) ∈ entries ∧ invalid_writer level) →
  is_Err (returned (Prepare_loop plan entries "" c cleanup gs)) = true.
Proof.
  induction entries as [|[levelName level] entries IH]; intros c cleanup gs
    (name & lv & Hin & Hinv).
  { by apply elem_of_nil in Hin. }
  apply elem_of_cons in Hin as [[= -> ->]|Hin].
  - destruct Hinv as (dom & Hdom & H1 & H2 & H3 & H4).
    rewrite (Prepare_loop_level _ _ _ dom) by done.
    by rewrite Prepare_switch_invalid.
  - destruct (blip.Collect level !! DOMAIN) as [dom|] eqn:Hdom.
    + rewrite (Prepare_loop_level _ _ _ dom) by done.
      destruct (Prepare_switch _ _ _ _ _ _ _) as [r|c1 cleanup1 gs1 writer1] eqn:Hsw.
      * by apply Prepare_switch_Return in Hsw.
      * apply IH. eauto.
    + rewrite Prepare_loop_skip by done. apply IH. eauto.
Qed.

(** X7.  A plan with a level whose writer option is none of [pfs],
    [blip], [auto] and the empty string is refused: in every order of
    visit [Prepare] returns an error.  When that level is the only one,
    the error is the one that quotes the level's own writer option, the
    collector is left as it was and no reader is started. *)
Theorem Prepare_refuses_invalid_writer range c plan name level dom :
  valid_range range →
  blip.Levels plan !! name = Some level →
  blip.Collect level !! DOMAIN = Some dom →
  invalid_writer level →
  let p := Prepare range c plan in
  is_Err (returned p) = true
  ∧ (blip.Levels plan = {[ name := level ]} →
     p = {| returned :=
              Err ("invalid lag writer: "
                   +:+ fmt_q (index (blip.Options dom) OPT_WRITER)
                   +:+ "; valid values: auto, pfs, blip");
            receiver := c; started := [] |}).
Proof.
  intros Hrange Hlv Hdom Hinv. simpl. unfold Prepare. split.
  - apply Prepare_loop_invalid. exists name, level. split; [|done].
    by apply (elem_of_range range).
  - intros Hone. rewrite Hone, (range_singleton range) by done.
    destruct Hinv as (dom' & Hdom' & H1 & H2 & H3 & H4).
    assert (dom' = dom) as -> by congruence.
    rewrite (Prepare_loop_level _ _ _ dom) by done.
    by rewrite Prepare_switch_invalid.
Qed.

(** The writer the [switch] hands on: a resolved one, and the level's own
    when the level names [blip] or [pfs]; with [blip], a reader exists. *)
Lemma Prepare_switch_writer plan levelName dom writer c cleanup gs c' cleanup' gs' writer' :
  Prepare_switch plan levelName dom writer c cleanup gs = Next c' cleanup' gs' writer' →
  (writer' = LAG_WRITER_BLIP ∨ writer' = LAG_WRITER_PFS)
  ∧ (writer = LAG_WRITER_BLIP ∨ writer = LAG_WRITER_PFS → writer' = writer)
  ∧ (writer' = LAG_WRITER_BLIP → is_Some (lagReader c'))
  ∧ (is_Some (lagReader c) → is_Some (lagReader c'))
  ∧ db c' = db c.
Proof.
  unfold Prepare_switch. intros Hsw.
  assert (Hblip : ∀ c1 new r,
    prepareBlip c levelName (blip.MonitorId plan) (blip.Plan_Name plan) (blip.Options dom)
      = (c1, new, r) → is_Some (lagReader c1) ∧ db c1 = db c).
  { intros c1 new r. destruct (lagReader c) as [rd|] eqn:Hrd.
    - rewrite (prepareBlip_reader _ rd) by done. intros [= <- _ _].
      by rewrite Hrd.
    - destruct (prepareBlip_no_reader c levelName (blip.MonitorId plan)
        (blip.Plan_Name plan) (blip.Options dom) Hrd)
        as (c2 & rd & -> & Hrd' & _ & _ & _ & _ & Hdb).
      intros [= <- _ _]. by rewrite Hrd'. }
  repeat case_decide;
    repeat match type of Hsw with
    | context [collectPFSv2 ?a ?b] => destruct (collectPFSv2 a b)
    | context [prepareBlip ?a ?b ?c ?d ?e] =>
        destruct (prepareBlip a b c d e) as [[??] []];
        destruct (Hblip _ _ _ eq_refl)
    end; simplify_eq; split_and!; try done; auto;
    try (by intros [?|?]); by intros ?.
Qed.

Lemma Prepare_loop_recorded plan entries :
  ∀ c cleanup gs,
  NoDup entries.*1 →
  is_Err (returned (Prepare_loop plan entries "" c cleanup gs)) = false →
  ∀ name level dom,
    (name, level) ∈ entries →
    blip.Collect level !! DOMAIN = Some dom →
    ∃ writer,
      lagWriterIn (receiver (Prepare_loop plan entries "" c cleanup gs)) !! name
      = Some writer
      ∧ (writer = LAG_WRITER_BLIP ∨ writer = LAG_WRITER_PFS)
      ∧ (index (blip.Options dom) OPT_WRITER = LAG_WRITER_BLIP
         ∨ index (blip.Options dom) OPT_WRITER = LAG_WRITER_PFS →
         writer = index (blip.Options dom) OPT_WRITER).
Proof.
  induction entries as [|[levelName level] entries IH];
    intros c cleanup gs Hnd Hok name lv dm Hin Hdm.
  { by apply elem_of_nil in Hin. }
  apply NoDup_cons in Hnd as [Hfresh Hnd].
  destruct (blip.Collect level !! DOMAIN) as [dom|] eqn:Hdom.
  - rewrite (Prepare_loop_level _ _ _ dom) in Hok |- * by done.
    destruct (Prepare_switch _ _ _ _ _ _ _) as [r|c1 cleanup1 gs1 writer1] eqn:Hsw.
    { apply Prepare_switch_Return in Hsw. congruence. }
    apply elem_of_cons in Hin as [[= -> ->]|Hin].
    + rewrite Hdom in Hdm. injection Hdm as <-.
      apply Prepare_switch_writer in Hsw as (Hres & Hexp & _).
      exists writer1.
      destruct (Prepare_loop_writers plan entries
        (Prepare_record levelName writer1 dom c1) cleanup1 gs1) as [_ Hother].
      rewrite Hother by done. simpl. rewrite lookup_insert_eq.
      split_and!; [done|done|]. intros Hw. by apply Hexp.
    + by apply (IH _ _ _ Hnd Hok name lv dm).
  - rewrite Prepare_loop_skip in Hok |- * by done.
    apply elem_of_cons in Hin as [[= -> ->]|Hin]; [congruence|].
    by apply (IH _ _ _ Hnd Hok name lv dm).
Qed.

(** X8.  After a [Prepare] that returns no error, every level of the plan
    that collects the domain has a writer recorded, [blip] or [pfs]; a
    level that names [blip] or [pfs] has the writer it names. *)
Theorem Prepare_records_a_writer range c plan name level dom :
  valid_range range →
  let p := Prepare range c plan in
  is_Err (returned p) = false →
  blip.Levels plan !! name = Some level →
  blip.Collect level !! DOMAIN = Some dom →
  ∃ writer,
    lagWriterIn (receiver p) !! name = Some writer
    ∧ (writer = LAG_WRITER_BLIP ∨ writer = LAG_WRITER_PFS)
    ∧ (index (blip.Options dom) OPT_WRITER = LAG_WRITER_BLIP
       ∨ index (blip.Options dom) OPT_WRITER = LAG_WRITER_PFS →
       writer = index (blip.Options dom) OPT_WRITER).
Proof.
  intros Hrange. simpl. unfold Prepare. intros Hok Hlv Hdom.
  apply (Prepare_loop_recorded plan _ c None [] (NoDup_range range _ Hrange) Hok
           name level dom); [|done].
  by apply (elem_of_range range).
Qed.

Lemma Prepare_record_blip_has_reader levelName writer dom c :
  blip_has_reader c →
  (writer = LAG_WRITER_BLIP → is_Some (lagReader c)) →
  blip_has_reader (Prepare_record levelName writer dom c).
Proof.
  intros Hinv Hw (l & Hl). simpl in Hl |- *.
  destruct (decide (l = levelName)) as [->|Hne].
  - rewrite lookup_insert_eq in Hl. injection Hl as ->. by apply Hw.
  - rewrite lookup_insert_ne in Hl by done. apply Hinv. eauto.
Qed.

Lemma Prepare_switch_same_or_reader plan levelName dom writer c cleanup gs c' cleanup' gs' writer' :
  Prepare_switch plan levelName dom writer c cleanup gs = Next c' cleanup' gs' writer' →
  c' = c ∨ is_Some (lagReader c').
Proof.
  unfold Prepare_switch. intros Hsw.
  assert (Hblip : ∀ c1 new r,
    prepareBlip c levelName (blip.MonitorId plan) (blip.Plan_Name plan) (blip.Options dom)
      = (c1, new, r) → is_Some (lagReader c1)).
  { intros c1 new r. destruct (lagReader c) as [rd|] eqn:Hrd.
    - rewrite (prepareBlip_reader _ rd) by done. intros [= <- _ _].
      by rewrite Hrd.
    - destruct (prepareBlip_no_reader c levelName (blip.MonitorId plan)
        (blip.Plan_Name plan) (blip.Options dom) Hrd)
        as (c2 & rd & -> & Hrd' & _).
      intros [= <- _ _]. by rewrite Hrd'. }
  repeat case_decide;
    repeat match type of Hsw with
    | context [collectPFSv2 ?a ?b] => destruct (collectPFSv2 a b)
    | context [prepareBlip ?a ?b ?c ?d ?e] =>
        destruct (prepareBlip a b c d e) as [[??] []];
        specialize (Hblip _ _ _ eq_refl)
    end; simplify_eq; auto.
Qed.

Lemma Prepare_loop_blip_has_reader plan entries :
  ∀ c cleanup gs,
  blip_has_reader c →
  is_Err (returned (Prepare_loop plan entries "" c cleanup gs)) = false →
  blip_has_reader (receiver (Prepare_loop plan entries "" c cleanup gs)).
Proof.
  induction entries as [|[levelName level] entries IH]; intros c cleanup gs Hinv Hok;
    [done|].
  destruct (blip.Collect level !! DOMAIN) as [dom|] eqn:Hdom.
  - rewrite (Prepare_loop_level _ _ _ dom) in Hok |- * by done.
    destruct (Prepare_switch _ _ _ _ _ _ _) as [r|c1 cleanup1 gs1 writer1] eqn:Hsw.
    { apply Prepare_switch_Return in Hsw. congruence. }
    apply IH; [|done]. apply Prepare_record_blip_has_reader.
    + destruct (Prepare_switch_same_or_reader _ _ _ _ _ _ _ _ _ _ _ Hsw)
        as [->|Hrd]; [done|]. by intros _.
    + by apply (Prepare_switch_writer _ _ _ _ _ _ _ _ _ _ _ Hsw).
  - rewrite Prepare_loop_skip in Hok |- * by done. by apply IH.
Qed.

(** X9.  After a [Prepare] that returns no error, [Collect] on a level
    of the plan that collects the domain returns: it does not panic,
    neither for want of a writer nor for want of a reader.  The collector
    given to [Prepare] is one in which a level on [blip] has a reader, as
    a new collector is. *)
Theorem Collect_after_Prepare_returns range c plan sample name level dom :
  valid_range range →
  blip_has_reader c →
  let p := Prepare range c plan in
  is_Err (returned p) = false →
  blip.Levels plan !! name = Some level →
  blip.Collect level !! DOMAIN = Some dom →
  ∃ r, Collect sample (receiver p) name = Returns r.
Proof.
  intros Hrange Hinv. simpl. unfold Prepare. intros Hok Hlv Hdom.
  destruct (Prepare_loop_recorded plan _ c None [] (NoDup_range range _ Hrange) Hok
    name level dom) as (w & Hw & Hres & _);
    [by apply (elem_of_range range)|done|].
  pose proof (Prepare_loop_blip_has_reader plan _ c None [] Hinv Hok) as Hinv'.
  destruct Hres as [-> | ->].
  - rewrite Collect_blip by (unfold index; by rewrite Hw).
    destruct Hinv' as [rd Hrd]; [by eauto|].
    unfold collectBlip. rewrite Hrd.
    destruct (sample rd) as [lag|e]; [|by eauto].
    repeat case_match; by eauto.
  - rewrite Collect_pfs by (unfold index; by rewrite Hw). by eauto.
Qed.

Lemma Prepare_switch_pfs_or_auto plan levelName dom writer c cleanup gs :
  probe_succeeds (db c) →
  writer = LAG_WRITER_PFS ∨ writer = "auto" ∨ writer = "" →
  Prepare_switch plan levelName dom writer c cleanup gs
  = Next c cleanup gs LAG_WRITER_PFS.
Proof.
  intros Hprobe Hw. specialize (Hprobe c levelName eq_refl).
  unfold Prepare_switch. destruct Hw as [->|Hw].
  - rewrite decide_True by done. by destruct (collectPFSv2 c levelName).
  - rewrite decide_False by (by destruct Hw as [-> | ->]).
    rewrite decide_False by (by destruct Hw as [-> | ->]).
    rewrite decide_True by done. by destruct (collectPFSv2 c levelName).
Qed.

Lemma Prepare_loop_pfs_or_auto plan entries :
  ∀ c cleanup gs,
  probe_succeeds (db c) →
  NoDup entries.*1 →
  (∀ name level, (name, level) ∈ entries → pfs_or_auto level) →
  let p := Prepare_loop plan entries "" c cleanup gs in
  returned p = Ok cleanup ∧ started p = gs
  ∧ lagReader (receiver p) = lagReader c
  ∧ ∀ name level dom, (name, level) ∈ entries →
      blip.Collect level !! DOMAIN = Some dom →
      lagWriterIn (receiver p) !! name = Some LAG_WRITER_PFS.
Proof.
  induction entries as [|[levelName level] entries IH];
    intros c cleanup gs Hprobe Hnd Hall.
  { simpl. split_and!; try done. intros ??? Hin. by apply elem_of_nil in Hin. }
  apply NoDup_cons in Hnd as [Hfresh Hnd]. cbv zeta.
  assert (Hrest : ∀ name lv, (name, lv) ∈ entries → pfs_or_auto lv).
  { intros name lv Hin. apply (Hall name). by right. }
  destruct (blip.Collect level !! DOMAIN) as [dom|] eqn:Hdom.
  - rewrite (Prepare_loop_level _ _ _ dom) by done.
    rewrite Prepare_switch_pfs_or_auto;
      [|done|by apply (Hall levelName level); [left|]].
    destruct (IH (Prepare_record levelName LAG_WRITER_PFS dom c) cleanup gs)
      as (Hret & Hgs & Hrd & Hw); [done|done|done|].
    split_and!; [done|done|done|].
    intros name lv dm [[= -> ->]|Hin]%elem_of_cons Hdm.
    + destruct (Prepare_loop_writers plan entries
        (Prepare_record levelName LAG_WRITER_PFS dom c) cleanup gs) as [_ Hother].
      rewrite Hother by done. simpl. by rewrite lookup_insert_eq.
    + by apply (Hw name lv dm).
  - rewrite Prepare_loop_skip by done.
    destruct (IH c cleanup gs) as (Hret & Hgs & Hrd & Hw); [done|done|done|].
    split_and!; [done|done|done|].
    intros name lv dm [[= -> ->]|Hin]%elem_of_cons Hdm; [congruence|].
    by apply (Hw name lv dm).
Qed.

(** X10.  When no level of the plan names [blip] and the probe succeeds
    on the collector's database, [Prepare] returns a nil function and a
    nil error, starts no reader and creates none, and records [pfs] for
    every level that collects the domain, also for those that leave the
    writer to auto-detection. *)
Theorem Prepare_performance_schema_only range c plan :
  valid_range range →
  probe_succeeds (db c) →
  (∀ name level, blip.Levels plan !! name = Some level → pfs_or_auto level) →
  let p := Prepare range c plan in
  returned p = Ok None ∧ started p = []
  ∧ lagReader (receiver p) = lagReader c
  ∧ ∀ name level dom, blip.Levels plan !! name = Some level →
      blip.Collect level !! DOMAIN = Some dom →
      lagWriterIn (receiver p) !! name = Some LAG_WRITER_PFS.
Proof.
  intros Hrange Hprobe Hall. simpl. unfold Prepare.
  destruct (Prepare_loop_pfs_or_auto plan (range _ (blip.Levels plan)) c None []
    Hprobe (NoDup_range range _ Hrange)) as (Hret & Hgs & Hrd & Hw).
  { intros name level Hin. apply (Hall name). by apply (elem_of_range range). }
  split_and!; [done|done|done|].
  intros name level dom Hlv Hdom. apply (Hw name level dom); [|done].
  by apply (elem_of_range range).
Qed.

Lemma Prepare_loop_db plan entries :
  ∀ c cleanup gs,
  db (receiver (Prepare_loop plan entries "" c cleanup gs)) = db c.
Proof.
  induction entries as [|[levelName level] entries IH]; intros c cleanup gs;
    [done|].
  destruct (blip.Collect level !! DOMAIN) as [dom|] eqn:Hdom.
  - rewrite (Prepare_loop_level _ _ _ dom) by done.
    destruct (Prepare_switch _ _ _ _ _ _ _) as [r|c1 cleanup1 gs1 writer1] eqn:Hsw.
    + unfold Prepare_switch in Hsw.
      destruct (prepareBlip_Ok c levelName (blip.MonitorId plan)
        (blip.Plan_Name plan) (blip.Options dom)) as (c' & new & f & Hp).
      rewrite Hp in Hsw.
      repeat case_decide;
        repeat match type of Hsw with
        | context [collectPFSv2 ?a ?b] => destruct (collectPFSv2 a b)
        end; by simplify_eq.
    + rewrite IH. simpl.
      by apply (Prepare_switch_writer _ _ _ _ _ _ _ _ _ _ _ Hsw).
  - rewrite Prepare_loop_skip by done. apply IH.
Qed.

Lemma Prepare_loop_failed_probe plan entries :
  ∀ c cleanup gs,
  probe_fails (db c) →
  (∃ name level dom, (name, level) ∈ entries
     ∧ blip.Collect level !! DOMAIN = Some dom
     ∧ index (blip.Options dom) OPT_WRITER = LAG_WRITER_PFS) →
  is_Err (returned (Prepare_loop plan entries "" c cleanup gs)) = true.
Proof.
  induction entries as [|[levelName level] entries IH]; intros c cleanup gs Hprobe
    (name & lv & dm & Hin & Hdm & Hw).
  { by apply elem_of_nil in Hin. }
  apply elem_of_cons in Hin as [[= -> ->]|Hin].
  - rewrite (Prepare_loop_level _ _ _ dm) by done. rewrite Hw.
    unfold Prepare_switch. rewrite decide_True by done.
    specialize (Hprobe c levelName eq_refl).
    by destruct (collectPFSv2 c levelName).
  - destruct (blip.Collect level !! DOMAIN) as [dom|] eqn:Hdom.
    + rewrite (Prepare_loop_level _ _ _ dom) by done.
      destruct (Prepare_switch _ _ _ _ _ _ _) as [r|c1 cleanup1 gs1 writer1] eqn:Hsw.
      * by apply Prepare_switch_Return in Hsw.
      * apply IH; [|by eauto 6]. simpl.
        by rewrite (proj2 (proj2 (proj2 (proj2
             (Prepare_switch_writer _ _ _ _ _ _ _ _ _ _ _ Hsw))))).
    + rewrite Prepare_loop_skip by done. apply IH; [done|by eauto 6].
Qed.

(** X11.  When the probe fails on the collector's database, a plan with a
    level that names [pfs] is refused in every order of visit; when that
    level is the only one, the error returned is the probe's own, the
    collector is left as it was and no reader is started. *)
Theorem Prepare_pfs_with_failing_probe range c plan name level dom :
  valid_range range →
  probe_fails (db c) →
  blip.Levels plan !! name = Some level →
  blip.Collect level !! DOMAIN = Some dom →
  index (blip.Options dom) OPT_WRITER = LAG_WRITER_PFS →
  let p := Prepare range c plan in
  is_Err (returned p) = true
  ∧ (blip.Levels plan = {[ name := level ]} →
     ∃ e, collectPFSv2 c name = Err e
          ∧ p = {| returned := Err e; receiver := c; started := [] |}).
Proof.
  intros Hrange Hprobe Hlv Hdom Hw. simpl. unfold Prepare. split.
  - apply Prepare_loop_failed_probe; [done|].
    exists name, level, dom. split_and!; [|done|done].
    by apply (elem_of_range range).
  - intros Hone. rewrite Hone, (range_singleton range) by done.
    rewrite (Prepare_loop_level _ _ _ dom) by done. rewrite Hw.
    unfold Prepare_switch. rewrite decide_True by done.
    specialize (Hprobe c name eq_refl).
    destruct (collectPFSv2 c name) as [|e]; [done|]. by eauto.
Qed.

(** X12.  The reader is built before the level's own [repl-check] is
    stored.  For a plan whose only level names [blip], on a collector
    without a reader, the one reader started is given the replica check
    the collector held before the call (none on a new collector), the
    collector's database and the plan's monitor id; the collector holds
    the level's own cleaned [repl-check] only afterwards. *)
Theorem Prepare_reader_gets_previous_replCheck range c plan name level dom :
  valid_range range →
  lagReader c = None →
  blip.Levels plan = {[ name := level ]} →
  blip.Collect level !! DOMAIN = Some dom →
  index (blip.Options dom) OPT_WRITER = LAG_WRITER_BLIP →
  let p := Prepare range c plan in
  ∃ reader,
    started p = [reader]
    ∧ lagReader (receiver p) = Some reader
    ∧ heartbeat.ReplCheck (heartbeat.args reader) = replCheck c
    ∧ heartbeat.DB (heartbeat.args reader) = db c
    ∧ heartbeat.MonitorId (heartbeat.args reader) = blip.MonitorId plan
    ∧ replCheck (receiver p)
      = sqlutil_CleanObjectName (index (blip.Options dom) OPT_REPL_CHECK).
Proof.
  intros Hrange Hrd Hone Hdom Hw. simpl. unfold Prepare.
  rewrite Hone, (range_singleton range) by done.
  rewrite (Prepare_loop_level _ _ _ dom) by done. rewrite Hw.
  unfold Prepare_switch. rewrite decide_False by done.
  rewrite decide_True by done. unfold prepareBlip. rewrite Hrd. simpl.
  eexists. split_and!; reflexivity.
Qed.

Lemma wrap64_in_range n : - 2 ^ 63 ≤ n < 2 ^ 63 → wrap64 n = n.
Proof. intros Hn. unfold wrap64. rewrite Z.mod_small; lia. Qed.

(** X13.  [prepareBlip] never fails on the [network-latency] option.
    Left out, or set to text [strconv.Atoi] refuses, it gives the reader
    50 ms; set to a number of milliseconds that fits a duration, it gives
    that number, negative ones included. *)
Theorem prepareBlip_network_latency c levelName monitorID planName options latency :
  lagReader c = None →
  (options !! OPT_NETWORK_LATENCY = None ∧ latency = 50000000)
  ∨ (∃ s e, options !! OPT_NETWORK_LATENCY = Some s
            ∧ strconv_Atoi s = Err e ∧ latency = 50000000)
  ∨ (∃ s n, options !! OPT_NETWORK_LATENCY = Some s
            ∧ strconv_Atoi s = Ok n
            ∧ -9223372036854 ≤ n ≤ 9223372036854
            ∧ latency = n * 1000000) →
  ∃ c' reader,
    prepareBlip c levelName monitorID planName options
    = (c', [reader], Ok (Some (StopReader monitorID)))
    ∧ heartbeat.NetworkLatency (heartbeat.Waiter (heartbeat.args reader))
      = latency.
Proof.
  intros Hrd Hopt. unfold prepareBlip. rewrite Hrd.
  eexists _, _. split; [reflexivity|]. simpl.
  destruct Hopt as [[-> ->]|[(s & e & -> & -> & ->)|(s & n & -> & -> & Hn & ->)]];
    [done|done|].
  apply wrap64_in_range. unfold Millisecond. lia.
Qed.

Lemma lookup_insert_delete_ne (m : gmap string string) k k' v :
  k ≠ k' → <[ k := v ]> m !! k' = delete k m !! k'.
Proof. intros Hk. by rewrite lookup_insert_ne, lookup_delete_ne. Qed.

Lemma documented_defaults :
  documented_default OPT_WRITER = "auto"
  ∧ documented_default OPT_HEARTBEAT_TABLE = blip_DEFAULT_HEARTBEAT_TABLE
  ∧ documented_default OPT_NETWORK_LATENCY = "50"
  ∧ documented_default OPT_REPORT_NO_HEARTBEAT = "no"
  ∧ documented_default OPT_REPORT_NOT_A_REPLICA = "no".
Proof. split_and!; reflexivity. Qed.

(** X14.  The defaults [Help] documents are the ones the code applies: an
    option set to its documented default gives what leaving the option
    out gives, for the heartbeat table, the network latency and the
    report-no-heartbeat flag in [prepareBlip], for the writer in the
    [switch], and for the report-not-a-replica flag recorded at the end
    of the loop body.  [strconv.Atoi] is taken to read [50] as 50, and
    [blip.Bool] to read [no] as it reads the empty string. *)
Theorem documented_defaults_are_applied
    c levelName monitorID planName options plan dom writer cleanup gs :
  strconv_Atoi "50" = Ok 50 →
  blip_Bool "no" = blip_Bool "" →
  (∀ option,
     option = OPT_HEARTBEAT_TABLE ∨ option = OPT_NETWORK_LATENCY
     ∨ option = OPT_REPORT_NO_HEARTBEAT →
     prepareBlip c levelName monitorID planName
       (<[ option := documented_default option ]> options)
     = prepareBlip c levelName monitorID planName (delete option options))
  ∧ Prepare_switch plan levelName dom (documented_default OPT_WRITER) c cleanup gs
    = Prepare_switch plan levelName dom "" c cleanup gs
  ∧ Prepare_record levelName writer
      (blip.withOptions
         <[ OPT_REPORT_NOT_A_REPLICA :=
              documented_default OPT_REPORT_NOT_A_REPLICA ]> dom) c
    = Prepare_record levelName writer
        (blip.withOptions (delete OPT_REPORT_NOT_A_REPLICA) dom) c.
Proof.
  intros Hatoi Hbool.
  destruct documented_defaults as (Hw & Ht & Hl & Hh & Hr).
  split_and!.
  - intros option [->|[->| ->]].
    + rewrite Ht. unfold prepareBlip, index.
      rewrite (lookup_insert_delete_ne options OPT_HEARTBEAT_TABLE
                 OPT_REPORT_NO_HEARTBEAT) by done.
      rewrite (lookup_insert_delete_ne options OPT_HEARTBEAT_TABLE
                 OPT_NETWORK_LATENCY) by done.
      rewrite (lookup_insert_delete_ne options OPT_HEARTBEAT_TABLE
                 OPT_HEARTBEAT_SOURCE_ID) by done.
      rewrite (lookup_insert_delete_ne options OPT_HEARTBEAT_TABLE
                 OPT_HEARTBEAT_SOURCE_ROLE) by done.
      rewrite lookup_insert_eq, lookup_delete_eq. simpl.
      by destruct (decide (blip_DEFAULT_HEARTBEAT_TABLE = "")) as [->|].
    + rewrite Hl. unfold prepareBlip, index.
      rewrite (lookup_insert_delete_ne options OPT_NETWORK_LATENCY
                 OPT_REPORT_NO_HEARTBEAT) by done.
      rewrite (lookup_insert_delete_ne options OPT_NETWORK_LATENCY
                 OPT_HEARTBEAT_TABLE) by done.
      rewrite (lookup_insert_delete_ne options OPT_NETWORK_LATENCY
                 OPT_HEARTBEAT_SOURCE_ID) by done.
      rewrite (lookup_insert_delete_ne options OPT_NETWORK_LATENCY
                 OPT_HEARTBEAT_SOURCE_ROLE) by done.
      rewrite lookup_insert_eq, lookup_delete_eq, Hatoi.
      by rewrite wrap64_in_range by (unfold Millisecond; lia).
    + rewrite Hh. unfold prepareBlip, index.
      rewrite (lookup_insert_delete_ne options OPT_REPORT_NO_HEARTBEAT
                 OPT_HEARTBEAT_TABLE) by done.
      rewrite (lookup_insert_delete_ne options OPT_REPORT_NO_HEARTBEAT
                 OPT_NETWORK_LATENCY) by done.
      rewrite (lookup_insert_delete_ne options OPT_REPORT_NO_HEARTBEAT
                 OPT_HEARTBEAT_SOURCE_ID) by done.
      rewrite (lookup_insert_delete_ne options OPT_REPORT_NO_HEARTBEAT
                 OPT_HEARTBEAT_SOURCE_ROLE) by done.
      rewrite lookup_insert_eq, lookup_delete_eq. simpl. by rewrite Hbool.
  - rewrite Hw. unfold Prepare_switch.
    rewrite !(decide_False (P := _ = LAG_WRITER_PFS)) by done.
    rewrite !(decide_False (P := _ = LAG_WRITER_BLIP)) by done.
    rewrite !(decide_True (P := _ ∨ _)) by auto. done.
  - rewrite Hr. unfold Prepare_record, index. simpl.
    rewrite (lookup_insert_delete_ne (blip.Options dom) OPT_REPORT_NOT_A_REPLICA
               OPT_RENAME_DEFAULT_REPLICATION_CHANNEL) by done.
    rewrite (lookup_insert_delete_ne (blip.Options dom) OPT_REPORT_NOT_A_REPLICA
               OPT_REPL_CHECK) by done.
    rewrite lookup_insert_eq, lookup_delete_eq. simpl. by rewrite Hbool.
Qed.

End MorePrepareFacts.

(** ** Collect *)

Section MoreCollectFacts.

Import repllag.

Context `{V : PFSv2}.

Lemma Prepare_switch_no_heartbeat plan levelName dom writer c cleanup gs :
  match Prepare_switch plan levelName dom writer c cleanup gs with
  | Return r => dropNoHeartbeat (receiver r) = dropNoHeartbeat c
  | Next c' _ _ _ =>
    dropNoHeartbeat c' = dropNoHeartbeat c
    ∨ (lagReader c = None ∧ is_Some (lagReader c')
       ∧ dropNoHeartbeat c'
         = <[ levelName := noHeartbeatFlag dom ]> (dropNoHeartbeat c))
  end.
Proof.
  assert (Hblip : ∀ monitorID planName,
    match prepareBlip c levelName monitorID planName (blip.Options dom) with
    | (c', _, Ok _) =>
      dropNoHeartbeat c' = dropNoHeartbeat c
      ∨ (lagReader c = None ∧ is_Some (lagReader c')
         ∧ dropNoHeartbeat c'
           = <[ levelName := noHeartbeatFlag dom ]> (dropNoHeartbeat c))
    | (_, _, Err _) => False
    end).
  { intros monitorID planName. destruct (lagReader c) as [rd|] eqn:Hrd.
    - rewrite (prepareBlip_reader c rd) by done. by left.
    - destruct (prepareBlip_no_reader c levelName monitorID planName
        (blip.Options dom) Hrd) as (c' & rd & -> & Hr & _ & Hd & _).
      right. split_and!; [done|by eauto|done]. }
  unfold Prepare_switch.
  destruct (decide (writer = LAG_WRITER_PFS)).
  { destruct (collectPFSv2 c levelName); simpl; by auto. }
  destruct (decide (writer = LAG_WRITER_BLIP)).
  { specialize (Hblip (blip.MonitorId plan) (blip.Plan_Name plan)).
    by destruct (prepareBlip _ _ _ _ _) as [[??] []]. }
  destruct (decide (writer = "auto" ∨ writer = "")); [|done].
  destruct (collectPFSv2 c levelName); [by left|].
  specialize (Hblip (blip.MonitorId plan) (blip.Plan_Name plan)).
  by destruct (prepareBlip _ _ _ _ _) as [[??] []].
Qed.

Lemma Prepare_loop_no_heartbeat_with_reader plan entries :
  ∀ c cleanup gs,
  is_Some (lagReader c) →
  dropNoHeartbeat (receiver (Prepare_loop plan entries "" c cleanup gs))
  = dropNoHeartbeat c.
Proof.
  induction entries as [|[levelName level] entries IH]; intros c cleanup gs [rd Hrd];
    [done|].
  destruct (blip.Collect level !! DOMAIN) as [dom|] eqn:Hdom.
  - rewrite (Prepare_loop_level _ _ _ dom) by done.
    pose proof (Prepare_switch_no_heartbeat plan levelName dom
      (index (blip.Options dom) OPT_WRITER) c cleanup gs) as Hsw.
    pose proof (Prepare_switch_keeps_reader plan levelName dom
      (index (blip.Options dom) OPT_WRITER) c cleanup gs rd Hrd) as Hkeep.
    destruct (Prepare_switch _ _ _ _ _ _ _) as [r|c' cleanup' gs' writer']; [done|].
    rewrite IH by (rewrite Prepare_record_lagReader; by eauto).
    destruct Hsw as [Hsw|[Hnone _]]; [done|congruence].
  - rewrite Prepare_loop_skip by done. apply IH. by eauto.
Qed.

Lemma Prepare_loop_one_no_heartbeat_flag plan entries :
  ∀ c cleanup gs,
  let c' := receiver (Prepare_loop plan entries "" c cleanup gs) in
  dropNoHeartbeat c' = dropNoHeartbeat c
  ∨ (lagReader c = None
     ∧ ∃ name level dom,
         (name, level) ∈ entries
         ∧ blip.Collect level !! DOMAIN = Some dom
         ∧ dropNoHeartbeat c'
           = <[ name := noHeartbeatFlag dom ]> (dropNoHeartbeat c)).
Proof.
  induction entries as [|[levelName level] entries IH]; intros c cleanup gs;
    cbv zeta; [by left|].
  destruct (blip.Collect level !! DOMAIN) as [dom|] eqn:Hdom.
  - rewrite (Prepare_loop_level _ _ _ dom) by done.
    pose proof (Prepare_switch_no_heartbeat plan levelName dom
      (index (blip.Options dom) OPT_WRITER) c cleanup gs) as Hsw.
    pose proof (λ rd, Prepare_switch_keeps_reader plan levelName dom
      (index (blip.Options dom) OPT_WRITER) c cleanup gs rd) as Hkeep.
    destruct (Prepare_switch _ _ _ _ _ _ _) as [r|c' cleanup' gs' writer'];
      [by left|].
    destruct Hsw as [Hsame|(Hnone & Hsome & Hset)].
    + destruct (IH (Prepare_record levelName writer' dom c') cleanup' gs')
        as [Hrest|(Hnone & name & lv & dm & Hin & Hdm & Hrest)].
      * left. by rewrite Hrest.
      * right. rewrite Prepare_record_lagReader in Hnone. split.
        { destruct (lagReader c) as [rd|] eqn:Hc; [|done].
          specialize (Hkeep rd eq_refl). congruence. }
        exists name, lv, dm. split_and!; [by right|done|].
        etrans; [exact Hrest|]. f_equal. exact Hsame.
    + right. split; [done|]. exists levelName, level, dom.
      split_and!; [by left|done|].
      rewrite Prepare_loop_no_heartbeat_with_reader
        by (by rewrite Prepare_record_lagReader).
      done.
  - rewrite Prepare_loop_skip by done.
    destruct (IH c cleanup gs) as [Hrest|(Hnone & name & lv & dm & Hin & Hdm & Hrest)].
    + by left.
    + right. split; [done|]. exists name, lv, dm. split_and!; [by right|done|done].
Qed.

(** X15.  [Prepare] records the report-no-heartbeat flag of at most one
    level: the call leaves the flags as they were, or, on a collector
    without a reader, adds the flag of exactly one level of the plan that
    collects the domain, read from that level's own options.  The other
    levels of the plan get no flag. *)
Theorem Prepare_records_one_no_heartbeat_flag range c plan :
  valid_range range →
  let p := Prepare range c plan in
  dropNoHeartbeat (receiver p) = dropNoHeartbeat c
  ∨ (lagReader c = None
     ∧ ∃ name level dom,
         blip.Levels plan !! name = Some level
         ∧ blip.Collect level !! DOMAIN = Some dom
         ∧ dropNoHeartbeat (receiver p)
           = <[ name := noHeartbeatFlag dom ]> (dropNoHeartbeat c)).
Proof.
  intros Hrange. cbv zeta. unfold Prepare.
  destruct (Prepare_loop_one_no_heartbeat_flag plan
    (range _ (blip.Levels plan)) c None [])
    as [Hsame|(Hnone & name & level & dom & Hin & Hdom & Hset)]; [by left|].
  right. split; [done|]. exists name, level, dom.
  split_and!; [|done|done]. by apply (elem_of_range range).
Qed.

(** X16.  On a collector that already holds a reader, [Prepare] records
    no report-no-heartbeat flag at all, whatever the plan's levels ask
    for: a level prepared onto an existing reader is collected with the
    flag the collector held for its name before, false when it held
    none. *)
Theorem Prepare_with_reader_keeps_no_heartbeat_flags range c plan rd name :
  lagReader c = Some rd →
  let p := Prepare range c plan in
  dropNoHeartbeat (receiver p) = dropNoHeartbeat c
  ∧ indexb (dropNoHeartbeat (receiver p)) name
    = indexb (dropNoHeartbeat c) name.
Proof.
  intros Hrd. cbv zeta. unfold Prepare.
  rewrite Prepare_loop_no_heartbeat_with_reader by (by eauto). done.
Qed.

(** X17.  The report-no-heartbeat policy, from the option to the metric.
    For a plan whose only level names [blip], prepared on a collector
    without a reader, when the reader's sample is that of a replica:
    [Collect] returns no metric and no error exactly when the sample
    carries -1 milliseconds and the level's report-no-heartbeat option
    does not read as true; in every other case it returns the one gauge
    [current] with the sample's milliseconds and source. *)
Theorem Collect_no_heartbeat_policy range c plan name level dom lag :
  valid_range range →
  lagReader c = None →
  blip.Levels plan = {[ name := level ]} →
  blip.Collect level !! DOMAIN = Some dom →
  index (blip.Options dom) OPT_WRITER = LAG_WRITER_BLIP →
  heartbeat.Replica lag = true →
  let p := Prepare range c plan in
  let m := current (float64_of_int64 (heartbeat.Milliseconds lag))
                   {[ "source" := heartbeat.SourceId lag ]} in
  Collect (λ _, Ok lag) (receiver p) name
  = Returns (Ok (if bool_decide (heartbeat.Milliseconds lag = -1)
                    && negb (blip_Bool (index (blip.Options dom)
                                              OPT_REPORT_NO_HEARTBEAT))
                 then [] else [m])).
Proof.
  intros Hrange Hrd Hone Hdom Hw Hrep. cbv zeta. unfold Prepare.
  rewrite Hone, (range_singleton range) by done.
  rewrite (Prepare_loop_level _ _ _ dom) by done. rewrite Hw.
  unfold Prepare_switch. rewrite decide_False by done.
  rewrite decide_True by done. unfold prepareBlip. rewrite Hrd. simpl.
  unfold Collect, index. simpl. rewrite lookup_insert_eq. simpl.
  unfold collectBlip, indexb. simpl. rewrite Hrep. simpl.
  rewrite lookup_insert_eq. simpl.
  by destruct (bool_decide _), (blip_Bool _).
Qed.

(** X18.  Whatever [collectBlip] and [collectPFS] return without an
    error is at most one metric, and it is the metric [Help] declares:
    the gauge named [current]. *)
Theorem collected_metrics_are_declared sample c levelName metrics :
  collectBlip sample c levelName = Returns (Ok metrics)
  ∨ collectPFS c levelName = Ok metrics →
  (length metrics ≤ 1)%nat ∧ ∀ m, m ∈ metrics → declared m.
Proof.
  assert (Hcur : ∀ v meta, declared (current v meta)).
  { intros v meta. eexists. split; [by left|done]. }
  assert (Hone : ∀ v meta,
    (length [current v meta] ≤ 1)%nat ∧ ∀ m, m ∈ [current v meta] → declared m).
  { intros v meta. split; [done|]. by intros m ->%list_elem_of_singleton. }
  assert (Hnil : (length (@nil MetricValue) ≤ 1)%nat
                 ∧ ∀ m, m ∈ @nil MetricValue → declared m).
  { split; [simpl; lia|]. by intros m ?%elem_of_nil. }
  assert (Hdef : (length (defaultLag c levelName) ≤ 1)%nat
                 ∧ ∀ m, m ∈ defaultLag c levelName → declared m).
  { unfold defaultLag. by destruct (indexb _ _). }
  intros [Hb|Hp].
  - unfold collectBlip in Hb.
    destruct (lagReader c) as [rd|]; [|done].
    destruct (sample rd) as [lag|e]; [|by simplify_eq].
    repeat case_match; by simplify_eq.
  - unfold collectPFS in Hp.
    repeat (case_match; simplify_eq; try done).
Qed.

(** X19.  The main path of [collectPFS].  When no replica check is
    configured or the check answers a non-zero value, the lag query
    answers a non-NULL text and [sqlutil.Float64] reads it as a number,
    [collectPFS] returns exactly one metric, the gauge [current] with
    that number and no meta, whatever the level and its drop flags. *)
Theorem collectPFS_reports_the_query_value c levelName text f :
  pfs_is_replica c →
  sql.QueryRow_NullString (db c) MySQL8LagQuery
  = Ok {| sql.NullString_String := text; sql.Valid := true |} →
  sqlutil_Float64 text = Some f →
  collectPFS c levelName = Ok [current f ∅].
Proof.
  intros Hrepl Hq Hf. unfold collectPFS.
  destruct Hrepl as [Hnone|(isRepl & Hi & Hnz)].
  - rewrite decide_False by (by intros ?). rewrite decide_False by done.
    rewrite Hq. simpl. by rewrite Hf.
  - destruct (decide (replCheck c ≠ "")) as [_|_].
    + rewrite Hi. rewrite decide_False by done. rewrite Hq. simpl.
      by rewrite Hf.
    + rewrite decide_False by done. rewrite Hq. simpl. by rewrite Hf.
Qed.

End MoreCollectFacts.

(** ** The lag query *)

Section MoreQueryFacts.

Import mysql.

Variable GTID_SUBTRACT : string → string → string.

Lemma MIN_Q_zeros (xs : list (option Q)) :
  xs ≠ [] → (∀ x, x ∈ xs → x = Some 0%Q) → MIN_Q xs = Some 0%Q.
Proof.
  induction xs as [|x xs IH]; intros Hne Hall; [done|].
  rewrite (Hall x) by (by left). simpl. fold (MIN_Q xs).
  destruct xs as [|y ys]; [done|].
  rewrite IH; [done|done|]. intros z Hz. apply Hall. by right.
Qed.

Lemma elem_of_joined srv w s :
  (w, s) ∈ joined srv
  ↔ w ∈ replication_applier_status_by_worker srv
    ∧ s ∈ replication_connection_status srv
    ∧ s_channel_name s = w_channel_name w.
Proof.
  unfold joined. rewrite list_elem_of_bind. split.
  - intros (w' & (s' & Hin & Hs)%list_elem_of_bind & Hw).
    destruct (decide (s_channel_name s' = w_channel_name w')) as [Heq|];
      [|by apply elem_of_nil in Hin].
    apply list_elem_of_singleton in Hin. by simplify_eq.
  - intros (Hw & Hs & Heq). exists w. split; [|done].
    apply list_elem_of_bind. exists s. split; [|done].
    rewrite decide_True by done. by left.
Qed.

(** X20.  The query returns no row exactly when the worker table is
    empty; with one worker row or more it returns one row. *)
Theorem lagMs_no_row_iff_no_worker srv :
  lagMs GTID_SUBTRACT srv = None
  ↔ replication_applier_status_by_worker srv = [].
Proof.
  unfold lagMs, applier_latency. split.
  - destruct (replication_applier_status_by_worker srv) as [|w ws] eqn:Hw;
      [done|].
    destruct (latest_applied_Some srv w ws Hw) as [w' ->]. done.
  - intros Hnil. unfold latest_applied. by rewrite Hnil.
Qed.

(** X21.  With worker rows and no row of the connection table on the
    same channel, the join is empty: both aggregates are [NULL], the
    channel counts as active, and the one row returned holds a [NULL]
    [lagMs], whatever the applier latency is. *)
Theorem lagMs_null_without_joined_rows srv :
  replication_applier_status_by_worker srv ≠ [] →
  (∀ w s, w ∈ replication_applier_status_by_worker srv →
          s ∈ replication_connection_status srv →
          s_channel_name s ≠ w_channel_name w) →
  queue_status srv = ACTIVE
  ∧ lagMs GTID_SUBTRACT srv = Some None.
Proof.
  intros Hw Hch.
  assert (Hj : joined srv = []).
  { apply elem_of_nil_inv. intros [w s] Hin.
    apply elem_of_joined in Hin as (Hinw & Hins & Heq).
    by apply (Hch w s). }
  assert (Hq : queue_status srv = ACTIVE).
  { unfold queue_status, queue_minutes. by rewrite Hj. }
  split; [done|].
  unfold lagMs, applier_latency.
  destruct (replication_applier_status_by_worker srv) as [|w ws] eqn:Hws;
    [done|].
  destruct (latest_applied_Some srv w ws Hws) as [w' ->].
  rewrite Hq. unfold queue_latency_ms. rewrite Hj. simpl.
  by destruct (div1000 _).
Qed.

(** X22.  A replica that has applied everything it queued, or that
    replicates without GTIDs.  When on every joined row one of the two
    transactions is [ANONYMOUS] or [GTID_SUBTRACT] leaves nothing, the
    queue latency is 0 and not the age of the last applied transaction:
    on an active channel [lagMs] is the applier latency, or 0 when that
    latency is negative. *)
Theorem lagMs_when_caught_up srv a :
  joined srv ≠ [] →
  (∀ w s, (w, s) ∈ joined srv →
     LAST_QUEUED_TRANSACTION s = "ANONYMOUS"
     ∨ LAST_APPLIED_TRANSACTION w = "ANONYMOUS"
     ∨ GTID_SUBTRACT (LAST_QUEUED_TRANSACTION s) (LAST_APPLIED_TRANSACTION w)
       = "") →
  queue_status srv = ACTIVE →
  applier_latency srv = Some (Some a) →
  queue_latency_ms GTID_SUBTRACT srv = Some 0%Q
  ∧ lagMs GTID_SUBTRACT srv = Some (Some (if Qle_bool a 0 then 0%Q else a)).
Proof.
  intros Hne Hall Hq Ha.
  assert (Hz : queue_latency_ms GTID_SUBTRACT srv = Some 0%Q).
  { unfold queue_latency_ms. apply MIN_Q_zeros.
    - by destruct (joined srv).
    - intros x ([w s] & -> & Hin)%list_elem_of_fmap.
      assert (Hcase :
        bool_decide (LAST_QUEUED_TRANSACTION s = "ANONYMOUS")
        || bool_decide (LAST_APPLIED_TRANSACTION w = "ANONYMOUS")
        || bool_decide (GTID_SUBTRACT (LAST_QUEUED_TRANSACTION s)
                          (LAST_APPLIED_TRANSACTION w) = "") = true).
      { destruct (Hall w s Hin) as [Hx | [Hx | Hx]].
        - by rewrite (bool_decide_eq_true_2 _ Hx).
        - rewrite (bool_decide_eq_true_2 _ Hx). by rewrite orb_true_r.
        - rewrite (bool_decide_eq_true_2 _ Hx). by rewrite orb_true_r. }
      by rewrite Hcase. }
  split; [done|].
  unfold lagMs. by rewrite Ha, Hq, Hz.
Qed.

End MoreQueryFacts.

(** ** The further properties on concrete servers and plans *)

Section MoreRuns.

Import repllag scenario.

Lemma InternalLevelPlan_no_options : blip.no_options blip.InternalLevelPlan.
Proof.
  intros l lv d dom Hl Hd. simpl in Hl.
  repeat (apply lookup_insert_Some in Hl as [[<- <-]|[_ Hl]];
    [simpl in Hd;
     repeat (apply lookup_insert_Some in Hd as [[<- <-]|[_ Hd]]; [done|]);
     first [ by rewrite lookup_empty in Hd
           | by apply lookup_singleton_Some in Hd as [<- <-] ]|]).
  by rewrite lookup_empty in Hl.
Defined.

Lemma PromPlan_no_lag name level :
  blip.Levels blip.PromPlan !! name = Some level →
  blip.Collect level !! DOMAIN = None.
Proof.
  intros Hl. unfold blip.PromPlan in Hl. simpl in Hl.
  apply lookup_singleton_Some in Hl as [<- <-]. reflexivity.
Defined.

Lemma bare_db_probe : @probe_fails external pfs bare_db.
Proof.
  intros c levelName Hdb. simpl. unfold collectPFS. rewrite Hdb.
  destruct (decide (replCheck c ≠ "")); reflexivity.
Defined.

Lemma pfs_auto_plan_levels name level :
  blip.Levels pfs_auto_plan !! name = Some level → @pfs_or_auto level.
Proof.
  intros Hl dom Hdom. simpl in Hl.
  apply lookup_insert_Some in Hl as [[_ <-]|[_ Hl]].
  { simpl in Hdom. apply lookup_singleton_Some in Hdom as [_ <-]. by left. }
  apply lookup_insert_Some in Hl as [[_ <-]|[_ Hl]].
  { simpl in Hdom. apply lookup_singleton_Some in Hdom as [_ <-].
    right. by right. }
  by rewrite lookup_empty in Hl.
Defined.

Lemma Interpolate_order_independent_witness :
  let env := λ v : string, if decide (v = "${SRC}") then "src1" else v in
  let mon := λ (id : string) (v : string),
               if decide (v = "%{monitor.id}") then id else v in
  blip.InterpolateEnvVars env forwards templated_plan
  = blip.InterpolateEnvVars env backwards templated_plan
  ∧ blip.InterpolateMonitor mon forwards "db1" templated_plan
    = blip.InterpolateMonitor mon backwards "db1" templated_plan.
Proof.
  exact (Interpolate_order_independent _ _ forwards backwards "db1"
           templated_plan valid_range_forwards valid_range_backwards).
Defined.

Lemma InterpolateEnvVars_twice_witness :
  let env := λ v : string, if decide (v = "${SRC}") then "src1" else v in
  blip.InterpolateEnvVars env backwards
    (blip.InterpolateEnvVars env forwards templated_plan)
  = blip.InterpolateEnvVars env forwards templated_plan.
Proof.
  apply (InterpolateEnvVars_twice
           (λ v : string, if decide (v = "${SRC}") then "src1" else v)
           forwards backwards templated_plan
           valid_range_forwards valid_range_backwards).
  intros l d k v _. destruct (decide (v = "${SRC}")) as [->|Hv].
  - reflexivity.
  - by rewrite decide_False.
Defined.

Lemma Interpolate_without_options_witness :
  let env := λ v : string, if decide (v = "${SRC}") then "src1" else v in
  let mon := λ (id : string) (v : string),
               if decide (v = "%{monitor.id}") then id else v in
  blip.InterpolateMonitor mon backwards "db1"
    (blip.InterpolateEnvVars env forwards blip.InternalLevelPlan)
  = blip.InternalLevelPlan.
Proof.
  exact (Interpolate_without_options _ _ forwards backwards "db1"
           blip.InternalLevelPlan valid_range_forwards valid_range_backwards
           InternalLevelPlan_no_options).
Defined.

Lemma Prepare_without_domain_witness :
  @Prepare external pfs backwards (NewLag replica_db) blip.PromPlan
  = {| returned := Ok None; receiver := NewLag replica_db; started := [] |}.
Proof.
  exact (@Prepare_without_domain external pfs backwards (NewLag replica_db)
           blip.PromPlan valid_range_backwards PromPlan_no_lag).
Defined.

Lemma Prepare_starts_at_most_one_reader_witness :
  let p := @Prepare external pfs forwards (NewLag replica_db) two_blip_plan in
  started p = match lagReader (receiver p) with Some r => [r] | None => [] end
  ∧ (length (started p) ≤ 1)%nat.
Proof.
  exact (@Prepare_starts_at_most_one_reader external pfs forwards
           (NewLag replica_db) two_blip_plan eq_refl).
Defined.

Lemma Prepare_keeps_existing_reader_witness :
  let c := receiver (@Prepare external pfs forwards (NewLag replica_db)
                       report_plan) in
  let p := @Prepare external pfs backwards c two_blip_plan in
  ∃ rd, lagReader c = Some rd
        ∧ lagReader (receiver p) = Some rd ∧ started p = [].
Proof.
  cbv zeta. eexists. split; [reflexivity|].
  apply (@Prepare_keeps_existing_reader external pfs backwards _ two_blip_plan).
  reflexivity.
Defined.

Lemma Prepare_refuses_invalid_writer_witness :
  let level := lag_level "b" "20s" {[ OPT_WRITER := "legacy" ]} in
  let plan := plan_of {[ "b" := level ]} in
  let p := @Prepare external pfs forwards (NewLag replica_db) plan in
  is_Err (returned p) = true
  ∧ (blip.Levels plan = {[ "b" := level ]} →
     p = {| returned :=
              Err ("invalid lag writer: " +:+ @fmt_q external "legacy"
                   +:+ "; valid values: auto, pfs, blip");
            receiver := NewLag replica_db; started := [] |}).
Proof.
  refine (@Prepare_refuses_invalid_writer external pfs forwards
           (NewLag replica_db)
           (plan_of {[ "b" := lag_level "b" "20s" {[ OPT_WRITER := "legacy" ]} ]})
           "b" (lag_level "b" "20s" {[ OPT_WRITER := "legacy" ]})
           {| blip.Domain_Name := DOMAIN;
              blip.Options := {[ OPT_WRITER := "legacy" ]};
              blip.Metrics := [] |} _ _ _ _).
  - apply valid_range_forwards.
  - apply lookup_singleton_eq.
  - apply lookup_singleton_eq.
  - eexists. split; [apply lookup_singleton_eq|].
    split_and!; vm_compute; intros [=].
Defined.

Lemma Prepare_records_a_writer_witness :
  let level := lag_level "b" "20s" {[ OPT_WRITER := LAG_WRITER_PFS ]} in
  let dom := {| blip.Domain_Name := DOMAIN;
                blip.Options := {[ OPT_WRITER := LAG_WRITER_PFS ]};
                blip.Metrics := [] |} in
  let p := @Prepare external pfs backwards (NewLag replica_db) mixed_plan in
  ∃ writer,
    lagWriterIn (receiver p) !! "b" = Some writer
    ∧ (writer = LAG_WRITER_BLIP ∨ writer = LAG_WRITER_PFS)
    ∧ (index (blip.Options dom) OPT_WRITER = LAG_WRITER_BLIP
       ∨ index (blip.Options dom) OPT_WRITER = LAG_WRITER_PFS →
       writer = index (blip.Options dom) OPT_WRITER).
Proof.
  apply (@Prepare_records_a_writer external pfs backwards (NewLag replica_db)
           mixed_plan "b"
           (lag_level "b" "20s" {[ OPT_WRITER := LAG_WRITER_PFS ]})).
  - apply valid_range_backwards.
  - reflexivity.
  - reflexivity.
  - apply lookup_singleton_eq.
Defined.

Lemma Collect_after_Prepare_returns_witness :
  let p := @Prepare external pfs forwards (NewLag replica_db) mixed_plan in
  ∃ r, @Collect external pfs lagging_sample (receiver p) "a" = Returns r.
Proof.
  apply (@Collect_after_Prepare_returns external pfs forwards
           (NewLag replica_db) mixed_plan lagging_sample "a"
           (lag_level "a" "5s" {[ OPT_WRITER := LAG_WRITER_BLIP ]})
           {| blip.Domain_Name := DOMAIN;
              blip.Options := {[ OPT_WRITER := LAG_WRITER_BLIP ]};
              blip.Metrics := [] |}).
  - apply valid_range_forwards.
  - intros [l Hl]. simpl in Hl. by rewrite lookup_empty in Hl.
  - reflexivity.
  - reflexivity.
  - apply lookup_singleton_eq.
Defined.

Lemma Prepare_performance_schema_only_witness :
  let p := @Prepare external pfs backwards (NewLag replica_db) pfs_auto_plan in
  returned p = Ok None ∧ started p = []
  ∧ lagReader (receiver p) = lagReader (NewLag replica_db)
  ∧ ∀ name level dom, blip.Levels pfs_auto_plan !! name = Some level →
      blip.Collect level !! DOMAIN = Some dom →
      lagWriterIn (receiver p) !! name = Some LAG_WRITER_PFS.
Proof.
  exact (@Prepare_performance_schema_only external pfs backwards
           (NewLag replica_db) pfs_auto_plan valid_range_backwards
           replica_db_probe pfs_auto_plan_levels).
Defined.

Lemma Prepare_pfs_with_failing_probe_witness :
  let level := lag_level "a" "5s"
                 (<[ OPT_WRITER := LAG_WRITER_PFS ]>
                  {[ OPT_REPORT_NO_HEARTBEAT := "no" ]}) in
  let p := @Prepare external pfs forwards (NewLag bare_db) pfs_plan in
  is_Err (returned p) = true
  ∧ (blip.Levels pfs_plan = {[ "a" := level ]} →
     ∃ e, @collectPFSv2 external pfs (NewLag bare_db) "a" = Err e
          ∧ p = {| returned := Err e; receiver := NewLag bare_db;
                   started := [] |}).
Proof.
  apply (@Prepare_pfs_with_failing_probe external pfs forwards (NewLag bare_db)
           pfs_plan "a" _
           {| blip.Domain_Name := DOMAIN;
              blip.Options := <[ OPT_WRITER := LAG_WRITER_PFS ]>
                               {[ OPT_REPORT_NO_HEARTBEAT := "no" ]};
              blip.Metrics := [] |}).
  - apply valid_range_forwards.
  - apply bare_db_probe.
  - apply lookup_singleton_eq.
  - apply lookup_singleton_eq.
  - reflexivity.
Defined.

Lemma Prepare_reader_gets_previous_replCheck_witness :
  let p := @Prepare external pfs forwards (NewLag replica_db) reader_plan in
  ∃ reader,
    started p = [reader]
    ∧ lagReader (receiver p) = Some reader
    ∧ heartbeat.ReplCheck (heartbeat.args reader) = ""
    ∧ heartbeat.DB (heartbeat.args reader) = replica_db
    ∧ heartbeat.MonitorId (heartbeat.args reader) = "db1"
    ∧ replCheck (receiver p) = "read_only".
Proof.
  apply (@Prepare_reader_gets_previous_replCheck external pfs forwards
           (NewLag replica_db) reader_plan "a"
           (lag_level "a" "5s" reader_options)
           {| blip.Domain_Name := DOMAIN;
              blip.Options := reader_options;
              blip.Metrics := [] |}).
  - apply valid_range_forwards.
  - reflexivity.
  - reflexivity.
  - apply lookup_singleton_eq.
  - reflexivity.
Defined.

Lemma prepareBlip_network_latency_witness :
  ∃ c' reader,
    @prepareBlip external (NewLag replica_db) "a" "db1" "lag" reader_options
    = (c', [reader], Ok (Some (StopReader "db1")))
    ∧ heartbeat.NetworkLatency (heartbeat.Waiter (heartbeat.args reader))
      = 20000000.
Proof.
  apply (@prepareBlip_network_latency external (NewLag replica_db)
           "a" "db1" "lag" reader_options 20000000).
  - reflexivity.
  - right. right. exists "20", 20.
    split_and!; [reflexivity|reflexivity|lia|lia|reflexivity].
Defined.

Lemma documented_defaults_are_applied_witness :
  let c := NewLag replica_db in
  let dom := {| blip.Domain_Name := DOMAIN;
                blip.Options := reader_options;
                blip.Metrics := [] |} in
  (∀ option,
     option = OPT_HEARTBEAT_TABLE ∨ option = OPT_NETWORK_LATENCY
     ∨ option = OPT_REPORT_NO_HEARTBEAT →
     @prepareBlip external c "a" "db1" "lag"
       (<[ option := @documented_default external option ]> reader_options)
     = @prepareBlip external c "a" "db1" "lag" (delete option reader_options))
  ∧ @Prepare_switch external pfs reader_plan "a" dom
      (@documented_default external OPT_WRITER) c None []
    = @Prepare_switch external pfs reader_plan "a" dom "" c None []
  ∧ @Prepare_record external "a" LAG_WRITER_BLIP
      (blip.withOptions
         <[ OPT_REPORT_NOT_A_REPLICA :=
              @documented_default external OPT_REPORT_NOT_A_REPLICA ]> dom) c
    = @Prepare_record external "a" LAG_WRITER_BLIP
        (blip.withOptions (delete OPT_REPORT_NOT_A_REPLICA) dom) c.
Proof.
  apply (@documented_defaults_are_applied external pfs (NewLag replica_db)
           "a" "db1" "lag" reader_options reader_plan).
  - reflexivity.
  - reflexivity.
Defined.

Lemma Prepare_records_one_no_heartbeat_flag_witness :
  let c := NewLag replica_db in
  let p := @Prepare external pfs forwards c two_blip_plan in
  dropNoHeartbeat (receiver p) = dropNoHeartbeat c
  ∨ (lagReader c = None
     ∧ ∃ name level dom,
         blip.Levels two_blip_plan !! name = Some level
         ∧ blip.Collect level !! DOMAIN = Some dom
         ∧ dropNoHeartbeat (receiver p)
           = <[ name := @noHeartbeatFlag external dom ]> (dropNoHeartbeat c)).
Proof.
  exact (@Prepare_records_one_no_heartbeat_flag external pfs forwards
           (NewLag replica_db) two_blip_plan valid_range_forwards).
Defined.

Lemma Prepare_with_reader_keeps_no_heartbeat_flags_witness :
  let c := receiver (@Prepare external pfs forwards (NewLag replica_db)
                       report_plan) in
  let p := @Prepare external pfs backwards c two_blip_plan in
  is_Some (lagReader c)
  ∧ dropNoHeartbeat (receiver p) = dropNoHeartbeat c
  ∧ indexb (dropNoHeartbeat (receiver p)) "b"
    = indexb (dropNoHeartbeat c) "b".
Proof.
  cbv zeta. split; [eexists; reflexivity|].
  eapply (@Prepare_with_reader_keeps_no_heartbeat_flags external pfs backwards
            _ two_blip_plan _ "b").
  reflexivity.
Defined.

Lemma Collect_no_heartbeat_policy_witness :
  let p := @Prepare external pfs forwards (NewLag replica_db) reader_plan in
  @Collect external pfs no_heartbeat_sample (receiver p) "a" = Returns (Ok []).
Proof.
  exact (@Collect_no_heartbeat_policy external pfs forwards
           (NewLag replica_db) reader_plan "a"
           (lag_level "a" "5s" reader_options)
           {| blip.Domain_Name := DOMAIN;
              blip.Options := reader_options;
              blip.Metrics := [] |}
           {| heartbeat.Milliseconds := -1;
              heartbeat.Replica := true;
              heartbeat.SourceId := "" |}
           valid_range_forwards eq_refl eq_refl
           (lookup_singleton_eq _ _) eq_refl eq_refl).
Defined.

Lemma collected_metrics_are_declared_witness :
  (length [@current external 12%Z ∅] ≤ 1)%nat
  ∧ ∀ m, m ∈ [@current external 12%Z ∅] → @declared external m.
Proof.
  apply (@collected_metrics_are_declared external source_sample
           (NewLag replica_db) "a").
  right. reflexivity.
Defined.

Lemma collectPFS_reports_the_query_value_witness :
  @collectPFS external (NewLag replica_db) "a" = Ok [@current external 12%Z ∅].
Proof.
  apply (@collectPFS_reports_the_query_value external (NewLag replica_db)
           "a" "12" 12%Z).
  - left. reflexivity.
  - reflexivity.
  - reflexivity.
Defined.

Lemma lagMs_null_without_joined_rows_witness :
  mysql.queue_status unjoined_server = mysql.ACTIVE
  ∧ mysql.lagMs no_gtid unjoined_server = Some None.
Proof.
  apply (lagMs_null_without_joined_rows no_gtid unjoined_server).
  - simpl. discriminate.
  - intros w s _ Hs. simpl in Hs. by apply elem_of_nil in Hs.
Defined.

Lemma lagMs_when_caught_up_witness :
  let a := (inject_Z 5000000 / 1000)%Q in
  mysql.queue_latency_ms no_gtid quiet_server = Some 0%Q
  ∧ mysql.lagMs no_gtid quiet_server
    = Some (Some (if Qle_bool a 0 then 0%Q else a)).
Proof.
  apply (lagMs_when_caught_up no_gtid quiet_server
           (inject_Z 5000000 / 1000)%Q).
  - vm_compute. discriminate.
  - intros w s _. right. right. reflexivity.
  - reflexivity.
  - reflexivity.
Defined.

End MoreRuns.

(** * Auto-detection, the drop flags and the replica check *)

(** ** Auto-detection when the probe fails *)

Section AutoDetection.

Import repllag.

Context `{V : PFSv2}.

(** With a failing probe, the only way through the [switch] is the
    heartbeat: the level is handed on with [blip], and a reader exists. *)
Lemma Prepare_switch_failed_probe plan levelName dom writer c cleanup gs
    c' cleanup' gs' writer' :
  is_Err (collectPFSv2 c levelName) = true →
  Prepare_switch plan levelName dom writer c cleanup gs
  = Next c' cleanup' gs' writer' →
  writer' = LAG_WRITER_BLIP ∧ is_Some (lagReader c').
Proof.
  intros Hprobe Hsw.
  destruct (Prepare_switch_writer _ _ _ _ _ _ _ _ _ _ _ Hsw)
    as (_ & _ & Hrd & _ & _).
  assert (writer' = LAG_WRITER_BLIP); [|by auto].
  unfold Prepare_switch in Hsw.
  destruct (collectPFSv2 c levelName) as [|e]; [done|].
  destruct (prepareBlip_Ok c levelName (blip.MonitorId plan)
    (blip.Plan_Name plan) (blip.Options dom)) as (c1 & new & f & Hp).
  rewrite Hp in Hsw. repeat case_decide; by simplify_eq.
Qed.

Lemma Prepare_loop_failed_probe_blip plan entries :
  ∀ c cleanup gs,
  probe_fails (db c) →
  NoDup entries.*1 →
  is_Err (returned (Prepare_loop plan entries "" c cleanup gs)) = false →
  ∀ name level dom,
    (name, level) ∈ entries →
    blip.Collect level !! DOMAIN = Some dom →
    lagWriterIn (receiver (Prepare_loop plan entries "" c cleanup gs)) !! name
    = Some LAG_WRITER_BLIP
    ∧ is_Some (lagReader (receiver (Prepare_loop plan entries "" c cleanup gs))).
Proof.
  induction entries as [|[levelName level] entries IH];
    intros c cleanup gs Hprobe Hnd Hok name lv dm Hin Hdm.
  { by apply elem_of_nil in Hin. }
  apply NoDup_cons in Hnd as [Hfresh Hnd].
  destruct (blip.Collect level !! DOMAIN) as [dom|] eqn:Hdom.
  - rewrite (Prepare_loop_level _ _ _ dom) in Hok |- * by done.
    destruct (Prepare_switch _ _ _ _ _ _ _) as [r|c1 cleanup1 gs1 writer1] eqn:Hsw.
    { apply Prepare_switch_Return in Hsw. congruence. }
    destruct (Prepare_switch_failed_probe _ _ _ _ _ _ _ _ _ _ _
      (Hprobe c levelName eq_refl) Hsw) as [-> [rd Hrd]].
    assert (Hdb : db c1 = db c)
      by apply (Prepare_switch_writer _ _ _ _ _ _ _ _ _ _ _ Hsw).
    apply elem_of_cons in Hin as [[= -> ->]|Hin].
    + split.
      * destruct (Prepare_loop_writers plan entries
          (Prepare_record levelName LAG_WRITER_BLIP dom c1) cleanup1 gs1)
          as [_ Hother].
        rewrite Hother by done. simpl. by rewrite lookup_insert_eq.
      * rewrite (Prepare_loop_keeps_reader _ _ _ _ _ rd); [by eauto|].
        by rewrite Prepare_record_lagReader.
    + apply (IH _ _ _) with (level := lv) (dom := dm); try done.
      simpl. by rewrite Hdb.
  - rewrite Prepare_loop_skip in Hok |- * by done.
    apply elem_of_cons in Hin as [[= -> ->]|Hin]; [congruence|].
    by apply (IH _ _ _) with (level := lv) (dom := dm).
Qed.

(** A plan without a level that names [pfs] or an unknown writer goes
    through every [switch]: [prepareBlip] gives no error, and the error of
    a failed probe is dropped in the [auto] case. *)
Lemma Prepare_loop_blip_or_auto plan entries :
  ∀ c cleanup gs,
  (∀ name level, (name, level) ∈ entries → blip_or_auto level) →
  is_Err (returned (Prepare_loop plan entries "" c cleanup gs)) = false.
Proof.
  induction entries as [|[levelName level] entries IH]; intros c cleanup gs Hall;
    [done|].
  assert (Hrest : ∀ name lv, (name, lv) ∈ entries → blip_or_auto lv).
  { intros name lv Hin. apply (Hall name). by right. }
  destruct (blip.Collect level !! DOMAIN) as [dom|] eqn:Hdom.
  - rewrite (Prepare_loop_level _ _ _ dom) by done.
    assert (Hw : index (blip.Options dom) OPT_WRITER = LAG_WRITER_BLIP
                 ∨ index (blip.Options dom) OPT_WRITER = "auto"
                 ∨ index (blip.Options dom) OPT_WRITER = "")
      by (apply (Hall levelName level); [by left|done]).
    assert (Hnext : ∃ c1 cleanup1 gs1 writer1,
      Prepare_switch plan levelName dom (index (blip.Options dom) OPT_WRITER)
        c cleanup gs = Next c1 cleanup1 gs1 writer1).
    { destruct Hw as [Hw|Hw]; [|by apply Prepare_switch_auto].
      rewrite Hw. unfold Prepare_switch.
      rewrite decide_False by done. rewrite decide_True by done.
      destruct (prepareBlip_Ok c levelName (blip.MonitorId plan)
        (blip.Plan_Name plan) (blip.Options dom)) as (c1 & new & f & ->).
      by eauto. }
    destruct Hnext as (c1 & cleanup1 & gs1 & writer1 & ->). by apply IH.
  - rewrite Prepare_loop_skip by done. by apply IH.
Qed.

(** C2.  What [Prepare] does where the claim expects the auto-detect
    error.  Take any plan with a level that leaves the writer to
    auto-detection ([auto] or empty), a server on which the
    performance-schema probe fails, and a collector without a reader.
    [prepareBlip] builds and starts the reader without asking the server
    anything and gives no error, so the error of line 216 is never
    returned.  In every order of visit: whenever [Prepare] returns no
    error, the level is recorded on [blip] and one reader has been
    started and is held by the collector; [Prepare] does return no error
    as soon as no level names [pfs] or an unknown writer; and when the
    level is the only one, [Prepare] returns the reader's stop function
    with a nil error. *)
Theorem Prepare_auto_detect_starts_heartbeat range c plan name level dom :
  valid_range range →
  probe_fails (db c) →
  lagReader c = None →
  blip.Levels plan !! name = Some level →
  blip.Collect level !! DOMAIN = Some dom →
  index (blip.Options dom) OPT_WRITER = "auto"
  ∨ index (blip.Options dom) OPT_WRITER = "" →
  let p := Prepare range c plan in
  (is_Err (returned p) = false →
     lagWriterIn (receiver p) !! name = Some LAG_WRITER_BLIP
     ∧ ∃ reader, started p = [reader] ∧ lagReader (receiver p) = Some reader)
  ∧ ((∀ other level', blip.Levels plan !! other = Some level' →
        blip_or_auto level') →
     is_Err (returned p) = false)
  ∧ (blip.Levels plan = {[ name := level ]} →
     returned p = Ok (Some (StopReader (blip.MonitorId plan)))).
Proof.
  intros Hrange Hprobe Hrd Hlv Hdom Hw. cbv zeta. unfold Prepare. split_and!.
  - intros Hok.
    destruct (Prepare_loop_failed_probe_blip plan (range _ (blip.Levels plan))
      c None [] Hprobe (NoDup_range range _ Hrange) Hok name level dom)
      as [Hblip [rd Hrd']]; [by apply (elem_of_range range)|done|].
    split; [done|]. exists rd. split; [|done].
    rewrite (Prepare_loop_one_reader plan _ c None []).
    + by rewrite Hrd'.
    + unfold one_reader. by rewrite Hrd.
  - intros Hall. apply Prepare_loop_blip_or_auto.
    intros other lv Hin. apply (Hall other). by apply (elem_of_range range).
  - intros Hone. rewrite Hone, (range_singleton range) by done.
    rewrite (Prepare_loop_level _ _ _ dom) by done.
    unfold Prepare_switch.
    rewrite decide_False by (by destruct Hw as [-> | ->]).
    rewrite decide_False by (by destruct Hw as [-> | ->]).
    rewrite decide_True by done.
    specialize (Hprobe c name eq_refl).
    destruct (collectPFSv2 c name); [done|].
    destruct (prepareBlip_no_reader c name (blip.MonitorId plan)
      (blip.Plan_Name plan) (blip.Options dom) Hrd) as (c2 & rd & -> & _).
    done.
Qed.

End AutoDetection.

(** ** The drop flags *)

Section DropFlags.

Import repllag.

Context `{V : PFSv2}.





End DropFlags.

(** ** [Collect] on the performance-schema strategy of the specification *)

Section SpecifiedStrategy.

Import repllag.

Context `{External}.

(** [Collect] on a level recorded on [pfs], with [collectPFSv2] as the
    specification gives it. *)
Lemma Collect_spec_pfs sample c levelName :
  lagWriterIn c !! levelName = Some LAG_WRITER_PFS →
  @Collect _ spec_PFSv2 sample c levelName
  = Returns (performance_schema_strategy (db c) (replCheck c)
               (indexb (dropNotAReplica c) levelName)).
Proof.
  intros Hw. rewrite Collect_pfs by (unfold index; by rewrite Hw). done.
Qed.

(** The strategy on a server where one system variable reads 0. *)
Lemma strategy_on_checking_db zero text f check drop :
  zero ≠ "" →
  sqlutil_Float64 text = Some f →
  performance_schema_strategy (scenario.checking_db zero text) check drop
  = if decide (check = zero)
    then Ok (if drop then [] else [current (float64_of_int64 (-1)) ∅])
    else Ok [current f ∅].
Proof.
  intros Hzero Hf. unfold performance_schema_strategy. simpl.
  destruct (decide (check = zero)) as [->|Hne].
  - rewrite decide_False by done. rewrite decide_True by done.
    by rewrite decide_True.
  - destruct (decide (check = "")) as [->|Hcheck].
    + rewrite decide_False by done. by rewrite Hf.
    + rewrite decide_False by (intros [= ?]; done).
      rewrite decide_False by done. by rewrite Hf.
Qed.

Lemma checking_db_probe zero text f :
  zero ≠ "" →
  sqlutil_Float64 text = Some f →
  @probe_succeeds _ spec_PFSv2 (scenario.checking_db zero text).
Proof.
  intros Hzero Hf c levelName Hdb. simpl. unfold spec_collectPFSv2.
  rewrite Hdb, (strategy_on_checking_db zero text f) by done.
  by case_decide.
Qed.

Lemma pfs_checks_plan_levels s1 s2 name level :
  blip.Levels (scenario.pfs_checks_plan s1 s2) !! name = Some level →
  pfs_or_auto level
  ∧ ∃ dom, blip.Collect level !! DOMAIN = Some dom.
Proof.
  intros Hl. simpl in Hl.
  apply lookup_insert_Some in Hl as [[_ <-]|[_ Hl]].
  { split; [|by eexists; apply lookup_singleton_eq].
    intros dom Hdom. simpl in Hdom.
    apply lookup_singleton_Some in Hdom as [_ <-]. by left. }
  apply lookup_insert_Some in Hl as [[_ <-]|[_ Hl]].
  { split; [|by eexists; apply lookup_singleton_eq].
    intros dom Hdom. simpl in Hdom.
    apply lookup_singleton_Some in Hdom as [_ <-]. by left. }
  by rewrite lookup_empty in Hl.
Qed.

(** C6.  [Collect] on a level of the performance-schema strategy, when
    the lag query answers with a NULL value.  If a replica check is
    configured and says the server is a replica, [Collect] returns an
    error and no metric.  If no check is configured, [Collect] returns no
    error: it returns nothing when the level's report-not-a-replica flag
    says drop, and the one gauge [current] with the sentinel -1 when it
    does not.  [collectPFSv2] is the strategy as the specification gives
    it; [collectPFS] of lag.go does the same on the same state, its error
    being the one that names the invalid value. *)
Theorem Collect_pfs_null_lag sample c levelName lagValue isRepl :
  lagWriterIn c !! levelName = Some LAG_WRITER_PFS →
  sql.QueryRow_NullString (db c) MySQL8LagQuery = Ok lagValue →
  sql.Valid lagValue = false →
  replCheck c = ""
  ∨ (replCheck c ≠ ""
     ∧ sql.QueryRow_int (db c) ("SELECT @@" +:+ replCheck c) = Ok isRepl
     ∧ isRepl ≠ 0) →
  let not_a_replica :=
    if indexb (dropNotAReplica c) levelName then []
    else [current (float64_of_int64 (-1)) ∅] in
  (replCheck c ≠ "" →
     (∃ e, @Collect _ spec_PFSv2 sample c levelName = Returns (Err e))
     ∧ collectPFS c levelName
       = Err ("cannot determine replica lag because performance_schema.replication_applier_status_by_worker returned an invalid value: "
              +:+ fmt_q (sql.NullString_String lagValue)
              +:+ " (expected a positive integer value)"))
  ∧ (replCheck c = "" →
     @Collect _ spec_PFSv2 sample c levelName = Returns (Ok not_a_replica)
     ∧ collectPFS c levelName = Ok not_a_replica).
Proof.
  intros Hw Hq Hv Hcheck. cbv zeta.
  rewrite Collect_spec_pfs by done.
  unfold performance_schema_strategy, collectPFS, defaultLag.
  split.
  - intros Hsome. destruct Hcheck as [?|(_ & Hi & Hrepl)]; [done|].
    destruct (decide (replCheck c = "")) as [|_]; [done|].
    destruct (decide (replCheck c ≠ "")) as [_|]; [|done].
    rewrite Hi. destruct (decide (isRepl = 0)); [done|].
    rewrite Hq, Hv. simpl. split; [by eauto|done].
  - intros Hnone. rewrite Hnone. simpl. by rewrite Hq, Hv.
Qed.

(** C10.  The replica check is one field of the collector, assigned by
    every level that collects the domain.  After a [Prepare] that returns
    no error the field holds the cleaned [repl-check] option of the level
    visited last, and [Collect], on every level recorded on the
    performance-schema strategy, runs the strategy with that check,
    whatever the level's own option is.  So there is a plan whose two
    levels carry different [repl-check] options, a server on which the
    two checks answer differently, and two orders of visit after which
    the field differs and [Collect] returns different results on every
    level of the plan: what [Prepare] leaves, and what [Collect] then
    returns, is not a function of the plan.  [collectPFSv2] is the
    strategy as the specification gives it. *)
Theorem replCheck_follows_visit_order (s1 s2 text : string) (f : float64) :
  sqlutil_CleanObjectName s1 ≠ sqlutil_CleanObjectName s2 →
  sqlutil_CleanObjectName s2 ≠ "" →
  sqlutil_Float64 text = Some f →
  f ≠ float64_of_int64 (-1) →
  (∀ range c plan,
     let p := @Prepare _ spec_PFSv2 range c plan in
     let check := last_replCheck (range _ (blip.Levels plan)) (replCheck c) in
     is_Err (returned p) = false →
     replCheck (receiver p) = check
     ∧ ∀ sample name,
         lagWriterIn (receiver p) !! name = Some LAG_WRITER_PFS →
         @Collect _ spec_PFSv2 sample (receiver p) name
         = Returns (performance_schema_strategy (db c) check
                      (indexb (dropNotAReplica (receiver p)) name)))
  ∧ ∃ plan database range1 range2,
      valid_range range1 ∧ valid_range range2
      ∧ let p1 := @Prepare _ spec_PFSv2 range1 (NewLag database) plan in
        let p2 := @Prepare _ spec_PFSv2 range2 (NewLag database) plan in
        is_Err (returned p1) = false
        ∧ is_Err (returned p2) = false
        ∧ replCheck (receiver p1) ≠ replCheck (receiver p2)
        ∧ ∀ sample name level,
            blip.Levels plan !! name = Some level →
            @Collect _ spec_PFSv2 sample (receiver p1) name
            ≠ @Collect _ spec_PFSv2 sample (receiver p2) name.
Proof.
  intros Hne Hs2 Hf Hval.
  assert (Hgen : ∀ range c plan,
     let p := @Prepare _ spec_PFSv2 range c plan in
     let check := last_replCheck (range _ (blip.Levels plan)) (replCheck c) in
     is_Err (returned p) = false →
     replCheck (receiver p) = check
     ∧ ∀ sample name,
         lagWriterIn (receiver p) !! name = Some LAG_WRITER_PFS →
         @Collect _ spec_PFSv2 sample (receiver p) name
         = Returns (performance_schema_strategy (db c) check
                      (indexb (dropNotAReplica (receiver p)) name))).
  { intros range c plan. cbv zeta. intros Hok.
    assert (Hcheck : replCheck (receiver (@Prepare _ spec_PFSv2 range c plan))
              = last_replCheck (range _ (blip.Levels plan)) (replCheck c))
      by (by apply Prepare_loop_replCheck).
    split; [done|]. intros sample name Hw.
    rewrite Collect_spec_pfs by done. rewrite Hcheck.
    unfold Prepare. by rewrite Prepare_loop_db. }
  split; [exact Hgen|].
  set (plan := scenario.pfs_checks_plan s1 s2).
  set (database := scenario.checking_db (sqlutil_CleanObjectName s2) text).
  exists plan, database, scenario.forwards, scenario.backwards.
  split; [apply valid_range_forwards|]. split; [apply valid_range_backwards|].
  cbv zeta.
  assert (Hprep : ∀ range, valid_range range →
    is_Err (returned (@Prepare _ spec_PFSv2 range (NewLag database) plan)) = false
    ∧ ∀ name level, blip.Levels plan !! name = Some level →
        lagWriterIn (receiver (@Prepare _ spec_PFSv2 range (NewLag database) plan))
          !! name = Some LAG_WRITER_PFS
        ∧ indexb (dropNotAReplica
                    (receiver (@Prepare _ spec_PFSv2 range (NewLag database) plan)))
                 name
          = negb (blip_Bool "")).
  { intros range Hrange.
    destruct (@Prepare_loop_pfs_or_auto _ spec_PFSv2 plan
      (range _ (blip.Levels plan)) (NewLag database) None [])
      as (Hret & _ & _ & Hw).
    - by apply (checking_db_probe _ _ f).
    - by apply NoDup_range.
    - intros name level Hin. apply (elem_of_range range) in Hin; [|done].
      by apply (pfs_checks_plan_levels s1 s2 name).
    - assert (Hok : is_Err (returned (@Prepare _ spec_PFSv2 range
                      (NewLag database) plan)) = false)
        by (unfold Prepare; by rewrite Hret).
      split; [done|]. intros name level Hlv.
      destruct (pfs_checks_plan_levels s1 s2 name level Hlv) as [_ [dom Hdom]].
      split.
      + apply (Hw name level dom); [|done]. by apply (elem_of_range range).
      + destruct (@Prepare_loop_flags _ spec_PFSv2 plan
          (range _ (blip.Levels plan)) (NewLag database) None []
          (NoDup_range range _ Hrange) Hok) as (_ & Hnr & _).
        unfold indexb, Prepare.
        rewrite (Hnr name level dom);
          [|by apply (elem_of_range range)|done].
        simpl. unfold notAReplicaFlag. f_equal. f_equal.
        simpl in Hlv.
        apply lookup_insert_Some in Hlv as [[_ <-]|[_ Hlv]];
          [simpl in Hdom; by apply lookup_singleton_Some in Hdom as [_ <-]|].
        apply lookup_insert_Some in Hlv as [[_ <-]|[_ Hlv]];
          [simpl in Hdom; by apply lookup_singleton_Some in Hdom as [_ <-]|].
        by rewrite lookup_empty in Hlv. }
  destruct (Hprep _ valid_range_forwards) as [Hok1 Hlv1].
  destruct (Hprep _ valid_range_backwards) as [Hok2 Hlv2].
  destruct (Hgen scenario.forwards (NewLag database) plan Hok1) as [Hc1 Hcol1].
  destruct (Hgen scenario.backwards (NewLag database) plan Hok2) as [Hc2 Hcol2].
  assert (Hlast1 : last_replCheck (scenario.forwards _ (blip.Levels plan))
                     (replCheck (NewLag database))
                   = sqlutil_CleanObjectName s2) by reflexivity.
  assert (Hlast2 : last_replCheck (scenario.backwards _ (blip.Levels plan))
                     (replCheck (NewLag database))
                   = sqlutil_CleanObjectName s1) by reflexivity.
  rewrite Hlast1 in Hc1, Hcol1. rewrite Hlast2 in Hc2, Hcol2.
  change (db (NewLag database))
    with (scenario.checking_db (sqlutil_CleanObjectName s2) text)
    in Hcol1, Hcol2.
  split_and!; [done|done|congruence|].
  intros sample name level Hlv.
  destruct (Hlv1 name level Hlv) as [Hw1 Hd1].
  destruct (Hlv2 name level Hlv) as [Hw2 Hd2].
  rewrite Hcol1, Hcol2 by done. rewrite Hd1, Hd2.
  rewrite !(strategy_on_checking_db _ text f) by done.
  rewrite decide_True by done. rewrite decide_False by done.
  destruct (negb (blip_Bool "")); [by intros [=]|].
  intros [= Heq]. by apply Hval.
Qed.

End SpecifiedStrategy.

(** ** These statements on concrete servers and plans *)

Section ReconciliationRuns.

Import repllag scenario.

Lemma Prepare_auto_detect_starts_heartbeat_witness :
  let p := @Prepare external pfs forwards (NewLag bare_db) auto_plan in
  is_Err (@collectPFSv2 external pfs (NewLag bare_db) "a") = true
  ∧ returned p = Ok (Some (StopReader "db1"))
  ∧ lagWriterIn (receiver p) !! "a" = Some LAG_WRITER_BLIP
  ∧ ∃ reader, started p = [reader] ∧ lagReader (receiver p) = Some reader.
Proof.
  cbv zeta.
  destruct (@Prepare_auto_detect_starts_heartbeat external pfs forwards
              (NewLag bare_db) auto_plan "a"
              (lag_level "a" "5s" {[ OPT_WRITER := "auto" ]})
              {| blip.Domain_Name := DOMAIN;
                 blip.Options := {[ OPT_WRITER := "auto" ]};
                 blip.Metrics := [] |}
              valid_range_forwards bare_db_probe eq_refl
              (lookup_singleton_eq _ _) (lookup_singleton_eq _ _)
              (or_introl eq_refl)) as (Hblip & _ & Hone).
  specialize (Hone eq_refl).
  split; [reflexivity|]. split; [exact Hone|].
  apply Hblip. reflexivity.
Defined.


(** The level on [pfs] and the level on [blip] of that plan: the first
    has no report-no-heartbeat flag, the second has its own. *)
Example mixed_plan_no_heartbeat_flags :
  let p := @Prepare external pfs backwards (NewLag replica_db) mixed_plan in
  lagWriterIn (receiver p) !! "b" = Some LAG_WRITER_PFS
  ∧ dropNoHeartbeat (receiver p) !! "b" = None
  ∧ lagWriterIn (receiver p) !! "a" = Some LAG_WRITER_BLIP
  ∧ dropNoHeartbeat (receiver p) !! "a" = Some true.
Proof. cbv zeta. split_and!; reflexivity. Qed.


Lemma Collect_pfs_null_lag_witness :
  let checked :=
    plan_of {[ "a" := lag_level "a" "5s"
                        (<[ OPT_WRITER := LAG_WRITER_PFS ]>
                         {[ OPT_REPL_CHECK := "read_only" ]}) ]} in
  let c1 := receiver (@Prepare external (@spec_PFSv2 external) forwards
                        (NewLag inconsistent_db) checked) in
  let c0 := receiver (@Prepare external (@spec_PFSv2 external) forwards
                        (NewLag inconsistent_db) pfs_plan) in
  ((∃ e, @Collect external (@spec_PFSv2 external) source_sample c1 "a"
         = Returns (Err e))
   ∧ @collectPFS external c1 "a"
     = Err ("cannot determine replica lag because performance_schema.replication_applier_status_by_worker returned an invalid value: "
            +:+ @fmt_q external ""
            +:+ " (expected a positive integer value)"))
  ∧ (@Collect external (@spec_PFSv2 external) source_sample c0 "a"
     = Returns (Ok [])
     ∧ @collectPFS external c0 "a" = Ok []).
Proof.
  intros checked c1 c0. split.
  - refine (proj1 (@Collect_pfs_null_lag external source_sample c1 "a"
                     {| sql.NullString_String := ""; sql.Valid := false |} 1
                     eq_refl eq_refl eq_refl (or_intror _)) _).
    + split_and!; [discriminate|reflexivity|discriminate].
    + discriminate.
  - exact (proj2 (@Collect_pfs_null_lag external source_sample c0 "a"
                    {| sql.NullString_String := ""; sql.Valid := false |} 1
                    eq_refl eq_refl eq_refl (or_introl eq_refl)) eq_refl).
Defined.

Lemma replCheck_follows_visit_order_witness :
  (∀ range c plan,
     let p := @Prepare external (@spec_PFSv2 external) range c plan in
     let check :=
       @last_replCheck external (range _ (blip.Levels plan)) (replCheck c) in
     is_Err (returned p) = false →
     replCheck (receiver p) = check
     ∧ ∀ sample name,
         lagWriterIn (receiver p) !! name = Some LAG_WRITER_PFS →
         @Collect external (@spec_PFSv2 external) sample (receiver p) name
         = Returns (@performance_schema_strategy external (db c) check
                      (indexb (dropNotAReplica (receiver p)) name)))
  ∧ ∃ plan database range1 range2,
      valid_range range1 ∧ valid_range range2
      ∧ let p1 := @Prepare external (@spec_PFSv2 external) range1
                    (NewLag database) plan in
        let p2 := @Prepare external (@spec_PFSv2 external) range2
                    (NewLag database) plan in
        is_Err (returned p1) = false
        ∧ is_Err (returned p2) = false
        ∧ replCheck (receiver p1) ≠ replCheck (receiver p2)
        ∧ ∀ sample name level,
            blip.Levels plan !! name = Some level →
            @Collect external (@spec_PFSv2 external) sample (receiver p1) name
            ≠ @Collect external (@spec_PFSv2 external) sample (receiver p2) name.
Proof.
  apply (@replCheck_follows_visit_order external
           "read_only" "super_read_only" "12" 12%Z).
  - discriminate.
  - discriminate.
  - reflexivity.
  - discriminate.
Defined.

(** The plan with two performance-schema levels on a server where
    [super_read_only] reads 0: visited forwards, [Collect] on level [a]
    finds the server not a replica and drops the metric; visited
    backwards, it reports the lag. *)
Example pfs_checks_plan_runs :
  let database := checking_db "super_read_only" "12" in
  let plan := pfs_checks_plan "read_only" "super_read_only" in
  let p1 := @Prepare external (@spec_PFSv2 external) forwards
              (NewLag database) plan in
  let p2 := @Prepare external (@spec_PFSv2 external) backwards
              (NewLag database) plan in
  replCheck (receiver p1) = "super_read_only"
  ∧ replCheck (receiver p2) = "read_only"
  ∧ @Collect external (@spec_PFSv2 external) source_sample (receiver p1) "a"
    = Returns (Ok [])
  ∧ @Collect external (@spec_PFSv2 external) source_sample (receiver p2) "a"
    = Returns (Ok [@current external 12%Z ∅]).
Proof. cbv zeta. split_and!; reflexivity. Qed.

End ReconciliationRuns.
